(** * Shopping cart models: orders, order items and discount redemptions

    A shallow embedding of [lms/djangoapps/shoppingcart/models.py].

    - Database tables are lists of rows in insertion order; a model instance
      held by Python code is a record value, and [save] writes that value
      over the row with the same primary key (or inserts it).
    - Methods that touch the database run in a small state-and-exception
      monad [M] over the database [DB].  The state returned next to an
      exception is the database as it stood when the exception was raised
      (transaction rollback is not modelled).
    - Money is a signed number of cents ([DecimalField(decimal_places=2)]).
    - Calls into other applications (module store, enrollments, course modes,
      mail) are read through the gateways of [Env] and written to the
      [effects] trace of the database; within one call of a method every
      read of a gateway comes before the writes the method issues.
    - Amounts stay within the 28 significant digits of the decimal context,
      so sums, differences and products of prices are exact; the product
      with the binary float in [get_discount_price] is rounded as Python
      rounds it. *)

From Stdlib Require Import ZArith List String Bool Arith Lia.
Import ListNotations.
Local Open Scope string_scope.
Local Open Scope list_scope.
Local Open Scope Z_scope.

(** ** Plain data *)

(** [ORDER_STATUSES] *)
Inductive Status : Type := cart | paying | purchased | refunded.

Definition status_eqb (a b : Status) : bool :=
  match a, b with
  | cart, cart | paying, paying | purchased, purchased | refunded, refunded => true
  | _, _ => false
  end.

(** [OrderTypes] *)
Inductive OrderTypes : Type := PERSONAL | BUSINESS.

Definition order_type_eqb (a b : OrderTypes) : bool :=
  match a, b with
  | PERSONAL, PERSONAL | BUSINESS, BUSINESS => true
  | _, _ => false
  end.

(** A [CourseKeyField] value: [None] is the empty key (falsy in Python),
    [Some k] a course key. *)
Definition CourseKey : Type := option string.

Definition course_key_eqb (a b : CourseKey) : bool :=
  match a, b with
  | None, None => true
  | Some x, Some y => String.eqb x y
  | _, _ => false
  end.

(** Python truthiness of a course key. *)
Definition truthy_key (k : CourseKey) : bool :=
  match k with Some _ => true | None => false end.

Definition Money : Type := Z.      (* cents *)
Definition Timestamp : Type := Z.
Definition Pk : Type := nat.       (* primary keys *)

(** Python truthiness of an optional decimal: [None] and zero are falsy. *)
Definition truthy_money (m : option Money) : bool :=
  match m with Some v => negb (v =? 0) | None => false end.

Inductive Exn : Type :=
| InvalidCartItem
| PurchasedCallbackException
| ItemAlreadyInCartException
| AlreadyEnrolledInCourseException
| CourseDoesNotExistException
| MultipleCouponsNotAllowedException
| RegCodeAlreadyExistException
| ItemDoesNotExistAgainstRegCodeException
| DoesNotExist
| MultipleObjectsReturned
| AttributeError.

(** ** Model records *)

Module Billing.
Record t : Type := mk {
  bill_to_first : string;
  bill_to_last : string;
  bill_to_street1 : string;
  bill_to_street2 : string;
  bill_to_city : string;
  bill_to_state : string;
  bill_to_postalcode : string;
  bill_to_country : string;
  bill_to_ccnum : string;
  bill_to_cardtype : string;
  processor_reply_dump : string
}.
Definition blank : t := mk "" "" "" "" "" "" "" "" "" "" "".
End Billing.

Module BillingDetails.
Record t : Type := mk {
  company_name : option string;
  company_contact_name : option string;
  company_contact_email : option string;
  recipient_name : option string;
  recipient_email : option string;
  customer_reference_number : option string
}.
Definition blank : t := mk None None None None None None.
End BillingDetails.

Module Order.
Record t : Type := mk {
  id : Pk;
  user : Pk;
  currency : string;
  status : Status;
  purchase_time : option Timestamp;
  refunded_time : option Timestamp;
  bill : Billing.t;                 (* the [bill_to_*] columns *)
  details : BillingDetails.t;       (* bulk purchase billing details *)
  order_type : OrderTypes
}.

Definition set_currency (o : t) (c : string) : t :=
  mk (id o) (user o) c (status o) (purchase_time o) (refunded_time o)
     (bill o) (details o) (order_type o).
Definition set_status (o : t) (s : Status) : t :=
  mk (id o) (user o) (currency o) s (purchase_time o) (refunded_time o)
     (bill o) (details o) (order_type o).
Definition set_purchase_time (o : t) (x : option Timestamp) : t :=
  mk (id o) (user o) (currency o) (status o) x (refunded_time o)
     (bill o) (details o) (order_type o).
Definition set_bill (o : t) (b : Billing.t) : t :=
  mk (id o) (user o) (currency o) (status o) (purchase_time o) (refunded_time o)
     b (details o) (order_type o).
Definition set_details (o : t) (d : BillingDetails.t) : t :=
  mk (id o) (user o) (currency o) (status o) (purchase_time o) (refunded_time o)
     (bill o) d (order_type o).
Definition set_order_type (o : t) (x : OrderTypes) : t :=
  mk (id o) (user o) (currency o) (status o) (purchase_time o) (refunded_time o)
     (bill o) (details o) x.

(** Column defaults of a freshly created row. *)
Definition create (pk user : Pk) (s : Status) : t :=
  mk pk user "usd" s None None Billing.blank BillingDetails.blank PERSONAL.
End Order.

Inductive DonationType : Type := donation_general | donation_course.  (* "general", "course" *)

(** The concrete order item tables (multi-table inheritance of [OrderItem]). *)
Inductive ItemKind : Type :=
| PaidCourseRegistration (course_id : CourseKey) (mode : string)
| CourseRegCodeItem (course_id : CourseKey) (mode : string)
| CertificateItem (course_id : CourseKey) (course_enrollment : Pk) (mode : string)
| Donation (donation_type : DonationType) (course_id : CourseKey).

Module OrderItem.
Record t : Type := mk {
  id : Pk;
  order : Pk;                       (* foreign key to [Order] *)
  user : Pk;
  status : Status;
  qty : Z;
  unit_cost : Money;
  list_price : option Money;
  line_desc : string;
  currency : string;
  fulfilled_time : option Timestamp;
  refund_requested_time : option Timestamp;
  service_fee : Money;
  report_comments : string;
  kind : ItemKind
}.

Definition set_status (i : t) (s : Status) : t :=
  mk (id i) (order i) (user i) s (qty i) (unit_cost i) (list_price i)
     (line_desc i) (currency i) (fulfilled_time i) (refund_requested_time i)
     (service_fee i) (report_comments i) (kind i).
Definition set_qty (i : t) (q : Z) : t :=
  mk (id i) (order i) (user i) (status i) q (unit_cost i) (list_price i)
     (line_desc i) (currency i) (fulfilled_time i) (refund_requested_time i)
     (service_fee i) (report_comments i) (kind i).
Definition set_unit_cost (i : t) (c : Money) : t :=
  mk (id i) (order i) (user i) (status i) (qty i) c (list_price i)
     (line_desc i) (currency i) (fulfilled_time i) (refund_requested_time i)
     (service_fee i) (report_comments i) (kind i).
Definition set_list_price (i : t) (p : option Money) : t :=
  mk (id i) (order i) (user i) (status i) (qty i) (unit_cost i) p
     (line_desc i) (currency i) (fulfilled_time i) (refund_requested_time i)
     (service_fee i) (report_comments i) (kind i).
Definition set_line_desc (i : t) (d : string) : t :=
  mk (id i) (order i) (user i) (status i) (qty i) (unit_cost i) (list_price i)
     d (currency i) (fulfilled_time i) (refund_requested_time i)
     (service_fee i) (report_comments i) (kind i).
Definition set_currency (i : t) (c : string) : t :=
  mk (id i) (order i) (user i) (status i) (qty i) (unit_cost i) (list_price i)
     (line_desc i) c (fulfilled_time i) (refund_requested_time i)
     (service_fee i) (report_comments i) (kind i).
Definition set_fulfilled_time (i : t) (x : option Timestamp) : t :=
  mk (id i) (order i) (user i) (status i) (qty i) (unit_cost i) (list_price i)
     (line_desc i) (currency i) x (refund_requested_time i)
     (service_fee i) (report_comments i) (kind i).
Definition set_refund_requested_time (i : t) (x : option Timestamp) : t :=
  mk (id i) (order i) (user i) (status i) (qty i) (unit_cost i) (list_price i)
     (line_desc i) (currency i) (fulfilled_time i) x
     (service_fee i) (report_comments i) (kind i).
Definition set_report_comments (i : t) (c : string) : t :=
  mk (id i) (order i) (user i) (status i) (qty i) (unit_cost i) (list_price i)
     (line_desc i) (currency i) (fulfilled_time i) (refund_requested_time i)
     (service_fee i) c (kind i).
Definition set_kind (i : t) (k : ItemKind) : t :=
  mk (id i) (order i) (user i) (status i) (qty i) (unit_cost i) (list_price i)
     (line_desc i) (currency i) (fulfilled_time i) (refund_requested_time i)
     (service_fee i) (report_comments i) k.

(** Column defaults of a freshly created row of the given subclass. *)
Definition create (pk order user : Pk) (k : ItemKind) : t :=
  mk pk order user cart 1 0 None "Misc. Item" "usd" None None 0 "" k.

(** [item.course_id] of whichever subclass the row belongs to. *)
Definition course_id (i : t) : CourseKey :=
  match kind i with
  | PaidCourseRegistration c _ => c
  | CourseRegCodeItem c _ => c
  | CertificateItem c _ _ => c
  | Donation _ c => c
  end.

(** [item.mode = m] on the subclasses that have a mode column. *)
Definition set_mode (i : t) (m : string) : t :=
  match kind i with
  | PaidCourseRegistration c _ => set_kind i (PaidCourseRegistration c m)
  | CourseRegCodeItem c _ => set_kind i (CourseRegCodeItem c m)
  | CertificateItem c e _ => set_kind i (CertificateItem c e m)
  | Donation _ _ => i
  end.
End OrderItem.

Module CourseRegistrationCode.
Record t : Type := mk {
  id : Pk;
  code : string;
  course_id : CourseKey;
  created_by : Pk;
  order : option Pk;
  invoice : option Pk
}.
End CourseRegistrationCode.

Module RegistrationCodeRedemption.
Record t : Type := mk {
  id : Pk;
  order : option Pk;
  registration_code : Pk;           (* foreign key to [CourseRegistrationCode] *)
  redeemed_by : Pk;
  redeemed_at : option Timestamp
}.
End RegistrationCodeRedemption.

Module Coupon.
Record t : Type := mk {
  id : Pk;
  code : string;
  description : option string;
  course_id : CourseKey;
  percentage_discount : Z;
  created_by : Pk;
  is_active : bool
}.
End Coupon.

Module CouponRedemption.
Record t : Type := mk {
  id : Pk;
  order : Pk;
  user : Pk;
  coupon : Pk                       (* foreign key to [Coupon] *)
}.
End CouponRedemption.

(** What the models read from a [student.models.CourseEnrollment] instance. *)
Module CourseEnrollment.
Record t : Type := mk {
  id : Pk;
  user : Pk;
  course_id : CourseKey;
  refundable : bool
}.
End CourseEnrollment.

(** What the models read from a [CourseMode]. *)
Module CourseMode.
Record t : Type := mk {
  slug : string;
  name : string;
  min_price : Money;
  currency : string
}.
End CourseMode.

(** What the models read from a course descriptor. *)
Module Course.
Record t : Type := mk {
  display_name : string;
  display_name_with_default : string
}.
End Course.

(** ** External writes, recorded in call order *)

Inductive Effect : Type :=
| Enroll (user : Pk) (course_key : CourseKey) (mode : option string)
      (* CourseEnrollment.enroll *)
| SaveRegistrationCode (user : Pk) (course_id : CourseKey) (order : Pk)
      (* instructor.views.api.save_registration_code(..., invoice=None, order=...) *)
| SubmitVerification (enrollment : Pk)
      (* SoftwareSecurePhotoVerification.active_for_user(enrollment.user).submit(),
         best effort: a failure is logged and swallowed *)
| ChangeMode (enrollment : Pk) (mode : string)
| Activate (enrollment : Pk)
| GetOrCreateEnrollment (user : Pk) (course_id : CourseKey)
| ConfirmationEmails (order : Pk) (is_order_type_business : bool)
      (* generate_registration_codes_csv + send_confirmation_emails *)
| RefundEmail (order : Pk).

(** ** The database *)

Record DB : Type := mkDB {
  orders : list Order.t;
  orderitems : list OrderItem.t;
  coupons : list Coupon.t;
  couponredemptions : list CouponRedemption.t;
  regcoderedemptions : list RegistrationCodeRedemption.t;
  next_pk : Pk;                       (* AUTO_INCREMENT, shared by the tables *)
  effects : list Effect
}.

Definition set_orders (db : DB) (x : list Order.t) : DB :=
  mkDB x (orderitems db) (coupons db) (couponredemptions db)
       (regcoderedemptions db) (next_pk db) (effects db).
Definition set_orderitems (db : DB) (x : list OrderItem.t) : DB :=
  mkDB (orders db) x (coupons db) (couponredemptions db)
       (regcoderedemptions db) (next_pk db) (effects db).
Definition set_couponredemptions (db : DB) (x : list CouponRedemption.t) : DB :=
  mkDB (orders db) (orderitems db) (coupons db) x
       (regcoderedemptions db) (next_pk db) (effects db).
Definition set_regcoderedemptions (db : DB) (x : list RegistrationCodeRedemption.t) : DB :=
  mkDB (orders db) (orderitems db) (coupons db) (couponredemptions db)
       x (next_pk db) (effects db).
Definition set_next_pk (db : DB) (n : Pk) : DB :=
  mkDB (orders db) (orderitems db) (coupons db) (couponredemptions db)
       (regcoderedemptions db) n (effects db).
Definition set_effects (db : DB) (x : list Effect) : DB :=
  mkDB (orders db) (orderitems db) (coupons db) (couponredemptions db)
       (regcoderedemptions db) (next_pk db) x.

(** ** The monad of database code *)

Definition M (A : Type) : Type := DB -> (Exn + A) * DB.

Definition ret {A : Type} (a : A) : M A := fun db => (inr a, db).

Definition raise {A : Type} (e : Exn) : M A := fun db => (inl e, db).

Definition bind {A B : Type} (m : M A) (k : A -> M B) : M B :=
  fun db =>
    match m db with
    | (inl e, db') => (inl e, db')
    | (inr a, db') => k a db'
    end.

Declare Scope db_scope.
Delimit Scope db_scope with db.
Notation "x <- m ;; k" := (bind m (fun x => k))
  (at level 61, m at next level, right associativity) : db_scope.
Notation "m ;; k" := (bind m (fun _ => k))
  (at level 61, right associativity) : db_scope.
Local Open Scope db_scope.

Definition read {A : Type} (f : DB -> A) : M A := fun db => (inr (f db), db).

Definition write (f : DB -> DB) : M unit := fun db => (inr tt, f db).

(** A [for] loop whose body may rebind the element it visits. *)
Fixpoint for_each {A B : Type} (body : A -> M B) (l : list A) : M (list B) :=
  match l with
  | [] => ret []
  | x :: l' =>
      y <- body x ;;
      ys <- for_each body l' ;;
      ret (y :: ys)
  end.

(** A [for] loop that threads an accumulator (the locals the body updates). *)
Fixpoint for_fold {A S : Type} (body : S -> A -> M S) (s : S) (l : list A) : M S :=
  match l with
  | [] => ret s
  | x :: l' => s' <- body s x ;; for_fold body s' l'
  end.

Definition emit (e : Effect) : M unit :=
  write (fun db => set_effects db (effects db ++ [e])).

(** [AUTO_INCREMENT]: hand out the next primary key. *)
Definition fresh_pk : M Pk :=
  fun db => (inr (next_pk db), set_next_pk db (S (next_pk db))).

(** [@transaction.commit_on_success]: when the body raises, what it wrote to
    the tables is rolled back; what it asked of other services stays asked. *)
Definition commit_on_success {A : Type} (body : M A) : M A :=
  fun db =>
    match body db with
    | (inl e, db') => (inl e, set_effects db (effects db'))
    | (inr a, db') => (inr a, db')
    end.

(** ** Row-level database operations *)

(** [Model.save()] on an instance that has a primary key: overwrite the row
    with that key, insert the instance when no such row exists. *)
Definition save_row {R : Type} (pk : R -> Pk) (r : R) (table : list R) : list R :=
  if existsb (fun x => Nat.eqb (pk x) (pk r)) table
  then map (fun x => if Nat.eqb (pk x) (pk r) then r else x) table
  else table ++ [r].

(** [Model.delete()]: remove the row with the instance's primary key. *)
Definition delete_row {R : Type} (pk : R -> Pk) (r : R) (table : list R) : list R :=
  filter (fun x => negb (Nat.eqb (pk x) (pk r))) table.

Definition Order_save (self : Order.t) : M unit :=
  write (fun db => set_orders db (save_row Order.id self (orders db))).

Definition OrderItem_save (self : OrderItem.t) : M unit :=
  write (fun db => set_orderitems db (save_row OrderItem.id self (orderitems db))).

Definition OrderItem_delete (self : OrderItem.t) : M unit :=
  write (fun db => set_orderitems db (delete_row OrderItem.id self (orderitems db))).

(** [order.orderitem_set.all()] / [OrderItem.objects.filter(order=order)],
    evaluated against the given database. *)
Definition orderitem_set (order : Order.t) (db : DB) : list OrderItem.t :=
  filter (fun i => Nat.eqb (OrderItem.order i) (Order.id order)) (orderitems db).

(** ** Decimal arithmetic of [get_discount_price] and [line_cost]

    [Decimal] values are pairs of an integer coefficient and a power of ten;
    the decimal context is Python's default one: 28 significant digits,
    ties rounded to the even neighbour. *)

(** Quotient [n / d] rounded to the nearest integer, ties to even
    ([ROUND_HALF_EVEN]), for [0 <= n] and [0 < d]. *)
Definition div_half_even_pos (n d : Z) : Z :=
  let q := n / d in
  let r := n mod d in
  if 2 * r <? d then q
  else if d <? 2 * r then q + 1
  else if Z.even q then q else q + 1.

(** The same on signed numerators: the magnitude is rounded, the sign kept. *)
Definition div_half_even (n d : Z) : Z :=
  Z.sgn n * div_half_even_pos (Z.abs n) d.

(** Number of decimal digits of a natural number ([1] for [0]). *)
Fixpoint num_digits_fuel (fuel : nat) (n : Z) : Z :=
  match fuel with
  | O => 1
  | S fuel' => if n <? 10 then 1 else 1 + num_digits_fuel fuel' (n / 10)
  end.

Definition num_digits (n : Z) : Z :=
  num_digits_fuel (Z.to_nat (Z.log2 n)) n.

Module Decimal.
Record t : Type := mk { coeff : Z; exp : Z }.   (* coeff * 10 ^ exp *)

Definition prec : Z := 28.

(** Context rounding applied to the exact result of an operation. *)
Definition _fix (d : t) : t :=
  let n := num_digits (Z.abs (coeff d)) in
  if n <=? prec then d
  else mk (div_half_even (coeff d) (10 ^ (n - prec))) (exp d + (n - prec)).

(** [a * b] *)
Definition mul (a b : t) : t :=
  _fix (mk (coeff a * coeff b) (exp a + exp b)).

(** [Decimal("{0:.2f}".format(d))] as a number of cents. *)
Definition format_2f (d : t) : Z :=
  if exp d <? -2
  then div_half_even (coeff d) (10 ^ (-2 - exp d))
  else coeff d * 10 ^ (exp d + 2).

(** A price read from a [DecimalField(decimal_places=2)]. *)
Definition of_cents (c : Money) : t := mk c (-2).

(** A Python [int] taken into an operation with a [Decimal]: exact. *)
Definition of_int (n : Z) : t := mk n 0.

(** [a + b]: the exact sum, written with the smaller of the two exponents,
    then rounded by the context. *)
Definition add (a b : t) : t :=
  let e := Z.min (exp a) (exp b) in
  _fix (mk (coeff a * 10 ^ (exp a - e) + coeff b * 10 ^ (exp b - e)) e).

(** The amount in cents of a value whose exponent is at least [-2]. *)
Definition to_cents (d : t) : Money := coeff d * 10 ^ (exp d + 2).
End Decimal.

(** The float [a / b] for integers [a] and [0 < b] that convert to floats
    exactly: the binary64 number nearest to the quotient, ties to even, given
    as a mantissa [m] and a binary exponent [e] (value [m * 2 ^ e]).  Valid
    in the normal range of binary64. *)
Definition float_div (a b : Z) : Z * Z :=
  if a =? 0 then (0, 0)
  else
    let n := Z.abs a in
    let t := Z.log2 n - Z.log2 b in
    (* l = floor (log2 (n / b)) *)
    let l := if (if 0 <=? t then b * 2 ^ t <=? n else b <=? n * 2 ^ (- t))
             then t else t - 1 in
    let e := l - 52 in
    let m := if e <=? 0 then div_half_even_pos (n * 2 ^ (- e)) b
             else div_half_even_pos n (b * 2 ^ e) in
    (Z.sgn a * m, e).

(** [Decimal(f)] for a float [f = m * 2 ^ e]: exact. *)
Definition Decimal_of_float (f : Z * Z) : Decimal.t :=
  let (m, e) := f in
  if 0 <=? e then Decimal.mk (m * 2 ^ e) 0
  else Decimal.mk (m * 5 ^ (- e)) e.

(** ** Gateways to the rest of the platform *)

Record Env : Type := mkEnv {
  now : Timestamp;                                   (* datetime.now(pytz.utc) *)
  class_load_time : Timestamp;                       (* field defaults evaluated at import *)
  STORE_BILLING_INFO : bool;                         (* settings.FEATURES *)
  PLATFORM_NAME : string;
  get_course : CourseKey -> option Course.t;         (* modulestore().get_course *)
  has_course : CourseKey -> bool;                    (* modulestore().has_course *)
  is_enrolled : Pk -> CourseKey -> bool;             (* CourseEnrollment.is_enrolled *)
  get_or_create_enrollment : Pk -> CourseKey -> Pk;  (* CourseEnrollment.get_or_create_enrollment *)
  mode_for_course : CourseKey -> string -> option CourseMode.t;
  modes_for_course_dict : CourseKey -> list (string * CourseMode.t);
  DEFAULT_MODE : CourseMode.t;
  DEFAULT_MODE_SLUG : string;
  (* [<Annotation model>.objects.get(course_id=...).annotation], [None] on DoesNotExist *)
  PaidCourseRegistrationAnnotation_get : CourseKey -> option string;
  CourseRegCodeItemAnnotation_get : CourseKey -> option string
}.

Section Models.

Variable env : Env.

(** ** class Order *)

Definition is_cart_of (user : Pk) (o : Order.t) : bool :=
  Nat.eqb (Order.user o) user && status_eqb (Order.status o) cart.

(** [.order_by('-id')[:1]] *)
Definition newest (l : list Order.t) : option Order.t :=
  fold_left
    (fun acc o =>
       match acc with
       | None => Some o
       | Some a => if Nat.ltb (Order.id a) (Order.id o) then Some o else Some a
       end)
    l None.

Definition Order_get_cart_for_user (user : Pk) : M Order.t :=
  carts <- read (fun db => filter (is_cart_of user) (orders db)) ;;
  match newest carts with
  | Some cart_order => ret cart_order
  | None =>
      (* cls.objects.get_or_create(user=user, status='cart') *)
      found <- read (fun db => filter (is_cart_of user) (orders db)) ;;
      match found with
      | [] =>
          pk <- fresh_pk ;;
          let cart_order := Order.create pk user cart in
          Order_save cart_order ;;
          ret cart_order
      | [cart_order] => ret cart_order
      | _ => raise MultipleObjectsReturned
      end
  end.

(** [OrderItem.line_cost]: [self.qty * self.unit_cost], an [int] times a
    [Decimal], rounded by the decimal context. *)
Definition OrderItem_line_cost (self : OrderItem.t) : Decimal.t :=
  Decimal.mul (Decimal.of_int (OrderItem.qty self))
              (Decimal.of_cents (OrderItem.unit_cost self)).

(** [total_cost]: [sum(i.line_cost for i in
    self.orderitem_set.filter(status=self.status))]; [sum] starts from the
    [int] 0 and adds the line costs from left to right, each partial sum
    rounded by the decimal context. *)
Definition Order_total_cost (self : Order.t) (db : DB) : Decimal.t :=
  fold_left Decimal.add
    (map OrderItem_line_cost
       (filter (fun i => status_eqb (OrderItem.status i) (Order.status self))
          (orderitem_set self db)))
    (Decimal.of_int 0).

Definition Order_reset_cart_items_prices (self : Order.t) : M unit :=
  items <- read (orderitem_set self) ;;
  for_each
    (fun item =>
       if truthy_money (OrderItem.list_price item) then
         let item := OrderItem.set_unit_cost item
                       (match OrderItem.list_price item with Some p => p | None => 0 end) in
         let item := OrderItem.set_list_price item None in
         OrderItem_save item ;;
         ret item
       else ret item)
    items ;;
  ret tt.

Definition Order_clear (self : Order.t) : M unit :=
  write (fun db =>
    set_orderitems db
      (filter (fun i => negb (Nat.eqb (OrderItem.order i) (Order.id self))) (orderitems db))).

(** ** class OrderItem *)

Definition OrderItem_start_purchase (self : OrderItem.t) : M OrderItem.t :=
  let self := OrderItem.set_status self paying in
  OrderItem_save self ;;
  ret self.

(** [OrderItem.add_to_order]: only the currency validation. *)
Definition OrderItem_add_to_order (order : Order.t) (currency : string) : M unit :=
  has_rows <- read (fun db => match orderitem_set order db with [] => false | _ => true end) ;;
  if negb (String.eqb (Order.currency order) currency) && has_rows
  then raise InvalidCartItem
  else ret tt.

(** [purchased_callback], dispatched on the subclass of the item. *)
Definition purchased_callback (self : OrderItem.t) : M unit :=
  match OrderItem.kind self with
  | PaidCourseRegistration course_id mode =>
      if negb (has_course env course_id) then raise PurchasedCallbackException
      else emit (Enroll (OrderItem.user self) course_id (Some mode))
  | CourseRegCodeItem course_id mode =>
      if negb (has_course env course_id) then raise PurchasedCallbackException
      else
        let total_registration_codes := Z.to_nat (OrderItem.qty self) in
        for_each
          (fun _ => emit (SaveRegistrationCode (OrderItem.user self) course_id
                            (OrderItem.order self)))
          (seq 0 total_registration_codes) ;;
        ret tt
  | CertificateItem course_id course_enrollment mode =>
      emit (SubmitVerification course_enrollment) ;;
      emit (ChangeMode course_enrollment mode) ;;
      emit (Activate course_enrollment)
  | Donation _ _ => ret tt
  end.

Definition OrderItem_purchase_item (self : OrderItem.t) : M OrderItem.t :=
  purchased_callback self ;;
  let self := OrderItem.set_status self purchased in
  let self := OrderItem.set_fulfilled_time self (Some (now env)) in
  OrderItem_save self ;;
  ret self.

(** [Order.start_purchase] *)
Definition Order_start_purchase (self : Order.t) : M Order.t :=
  if status_eqb (Order.status self) cart then
    let self := Order.set_status self paying in
    Order_save self ;;
    items <- read (orderitem_set self) ;;
    for_each OrderItem_start_purchase items ;;
    ret self
  else ret self.

(** ** The order item subclasses *)

Definition is_paidcourseregistration (i : OrderItem.t) : bool :=
  match OrderItem.kind i with PaidCourseRegistration _ _ => true | _ => false end.

Definition is_courseregcodeitem (i : OrderItem.t) : bool :=
  match OrderItem.kind i with CourseRegCodeItem _ _ => true | _ => false end.

Definition is_certificateitem (i : OrderItem.t) : bool :=
  match OrderItem.kind i with CertificateItem _ _ _ => true | _ => false end.

(** [PaidCourseRegistration.contained_in_order] *)
Definition PaidCourseRegistration_contained_in_order
    (order : Order.t) (course_id : CourseKey) (db : DB) : bool :=
  existsb (course_key_eqb course_id)
    (map OrderItem.course_id (filter is_paidcourseregistration (orderitem_set order db))).

(** [CourseRegCodeItem.contained_in_order] *)
Definition CourseRegCodeItem_contained_in_order
    (order : Order.t) (course_id : CourseKey) (db : DB) : bool :=
  existsb (course_key_eqb course_id)
    (map OrderItem.course_id (filter is_courseregcodeitem (orderitem_set order db))).

(** [cls.objects.get_or_create] with keyword lookups: the single row matching them,
    or a new row built by [make] from a fresh primary key. *)
Definition get_or_create (lookup : OrderItem.t -> bool) (make : Pk -> OrderItem.t)
  : M OrderItem.t :=
  found <- read (fun db => filter lookup (orderitems db)) ;;
  match found with
  | [] =>
      pk <- fresh_pk ;;
      let item := make pk in
      OrderItem_save item ;;
      ret item
  | [item] => ret item
  | _ => raise MultipleObjectsReturned
  end.

Definition Python_or {A : Type} (truthy : A -> bool) (x : option A) (default : A) : A :=
  match x with
  | Some v => if truthy v then v else default
  | None => default
  end.

Definition annotation_or_empty (a : option string) : string :=
  match a with Some s => s | None => "" end.

(** [PaidCourseRegistration.add_to_order]; returns the order (whose currency
    it assigns) next to the item. *)
Definition PaidCourseRegistration_add_to_order
    (order : Order.t) (course_id : CourseKey) (mode_slug : string)
    (cost : option Money) (currency : option string) : M (Order.t * OrderItem.t) :=
  match get_course env course_id with
  | None => raise CourseDoesNotExistException
  | Some course =>
      contained <- read (PaidCourseRegistration_contained_in_order order course_id) ;;
      if contained then raise ItemAlreadyInCartException
      else if is_enrolled env (Order.user order) course_id
      then raise AlreadyEnrolledInCourseException
      else
        let course_mode :=
          match mode_for_course env course_id mode_slug with
          | Some m => m
          | None => DEFAULT_MODE env
          end in
        let cost := Python_or (fun c => negb (c =? 0)) cost (CourseMode.min_price course_mode) in
        let currency :=
          Python_or (fun s => negb (String.eqb s "")) currency (CourseMode.currency course_mode) in
        OrderItem_add_to_order order currency ;;
        item <- get_or_create
                  (fun i => is_paidcourseregistration i
                            && Nat.eqb (OrderItem.order i) (Order.id order)
                            && Nat.eqb (OrderItem.user i) (Order.user order)
                            && course_key_eqb (OrderItem.course_id i) course_id)
                  (fun pk => OrderItem.create pk (Order.id order) (Order.user order)
                               (PaidCourseRegistration course_id (DEFAULT_MODE_SLUG env))) ;;
        let item := OrderItem.set_status item (Order.status order) in
        let item := OrderItem.set_mode item (CourseMode.slug course_mode) in
        let item := OrderItem.set_qty item 1 in
        let item := OrderItem.set_unit_cost item cost in
        let item := OrderItem.set_line_desc item
                      ("Registration for Course: " ++ Course.display_name_with_default course)%string in
        let item := OrderItem.set_currency item currency in
        let order := Order.set_currency order currency in
        let item := OrderItem.set_report_comments item
                      (annotation_or_empty (PaidCourseRegistrationAnnotation_get env course_id)) in
        Order_save order ;;
        OrderItem_save item ;;
        ret (order, item)
  end.

(** [CourseRegCodeItem.add_to_order] *)
Definition CourseRegCodeItem_add_to_order
    (order : Order.t) (course_id : CourseKey) (qty : Z) (mode_slug : string)
    (cost : option Money) (currency : option string) : M (Order.t * OrderItem.t) :=
  match get_course env course_id with
  | None => raise CourseDoesNotExistException
  | Some course =>
      contained <- read (CourseRegCodeItem_contained_in_order order course_id) ;;
      if contained then raise ItemAlreadyInCartException
      else if is_enrolled env (Order.user order) course_id
      then raise AlreadyEnrolledInCourseException
      else
        let course_mode :=
          match mode_for_course env course_id mode_slug with
          | Some m => m
          | None => DEFAULT_MODE env
          end in
        let cost := Python_or (fun c => negb (c =? 0)) cost (CourseMode.min_price course_mode) in
        let currency :=
          Python_or (fun s => negb (String.eqb s "")) currency (CourseMode.currency course_mode) in
        OrderItem_add_to_order order currency ;;
        item <- get_or_create
                  (fun i => is_courseregcodeitem i
                            && Nat.eqb (OrderItem.order i) (Order.id order)
                            && Nat.eqb (OrderItem.user i) (Order.user order)
                            && course_key_eqb (OrderItem.course_id i) course_id)
                  (fun pk => OrderItem.create pk (Order.id order) (Order.user order)
                               (CourseRegCodeItem course_id (DEFAULT_MODE_SLUG env))) ;;
        let item := OrderItem.set_status item (Order.status order) in
        let item := OrderItem.set_mode item (CourseMode.slug course_mode) in
        let item := OrderItem.set_unit_cost item cost in
        let item := OrderItem.set_qty item qty in
        let item := OrderItem.set_line_desc item
                      ("Enrollment codes for Course: " ++ Course.display_name_with_default course)%string in
        let item := OrderItem.set_currency item currency in
        let order := Order.set_currency order currency in
        let item := OrderItem.set_report_comments item
                      (annotation_or_empty (CourseRegCodeItemAnnotation_get env course_id)) in
        Order_save order ;;
        OrderItem_save item ;;
        ret (order, item)
  end.

Fixpoint dict_get {V : Type} (key : string) (d : list (string * V)) : option V :=
  match d with
  | [] => None
  | (k, v) :: d' => if String.eqb k key then Some v else dict_get key d'
  end.

(** [CertificateItem.add_to_order]; it can raise after it has written a row,
    which the transaction then rolls back. *)
Definition CertificateItem_add_to_order
    (order : Order.t) (course_id : CourseKey) (cost : Money) (mode : string)
    (currency : string) : M (Order.t * OrderItem.t) :=
  commit_on_success (
  OrderItem_add_to_order order currency ;;
  emit (GetOrCreateEnrollment (Order.user order) course_id) ;;
  let course_enrollment := get_or_create_enrollment env (Order.user order) course_id in
  let valid_modes := modes_for_course_dict env course_id in
  match dict_get mode valid_modes with
  | None => raise InvalidCartItem
  | Some mode_info =>
      item <- get_or_create
                (fun i => Nat.eqb (OrderItem.order i) (Order.id order)
                          && Nat.eqb (OrderItem.user i) (Order.user order)
                          && match OrderItem.kind i with
                             | CertificateItem c e m =>
                                 course_key_eqb c course_id
                                 && Nat.eqb e course_enrollment && String.eqb m mode
                             | _ => false
                             end)
                (fun pk => OrderItem.create pk (Order.id order) (Order.user order)
                             (CertificateItem course_id course_enrollment mode)) ;;
      let item := OrderItem.set_status item (Order.status order) in
      let item := OrderItem.set_qty item 1 in
      let item := OrderItem.set_unit_cost item cost in
      match get_course env course_id with
      | None => raise AttributeError
      | Some c =>
          let course_name := Course.display_name c in
          let item := OrderItem.set_line_desc item
                        (CourseMode.name mode_info ++ " for course " ++ course_name)%string in
          let item := OrderItem.set_currency item currency in
          let order := Order.set_currency order currency in
          Order_save order ;;
          OrderItem_save item ;;
          ret (order, item)
      end
  end).

(** [Donation._line_item_description] *)
Definition Donation_line_item_description (course_id : CourseKey) : M string :=
  match course_id with
  | Some _ =>
      match get_course env course_id with
      | None => raise CourseDoesNotExistException
      | Some c => ret ("Donation for " ++ Course.display_name c)%string
      end
  | None => ret ("Donation for " ++ PLATFORM_NAME env)%string
  end.

(** [Donation.add_to_order]; [course_id = None] is the keyword left out. *)
Definition Donation_add_to_order
    (order : Order.t) (donation_amount : Money) (course_id : CourseKey)
    (currency : string) : M OrderItem.t :=
  OrderItem_add_to_order order currency ;;
  description <- Donation_line_item_description course_id ;;
  pk <- fresh_pk ;;
  let item :=
    OrderItem.mk pk (Order.id order) (Order.user order) (Order.status order) 1
      donation_amount None description currency None None 0 ""
      (Donation (match course_id with
                 | Some _ => donation_course
                 | None => donation_general
                 end) course_id) in
  OrderItem_save item ;;
  ret item.

(** [CertificateItem.refund_cert_callback], the [UNENROLL_DONE] receiver. *)
Definition CertificateItem_refund_cert_callback
    (course_enrollment : CourseEnrollment.t) : M (option OrderItem.t) :=
  if negb (CourseEnrollment.refundable course_enrollment) then ret None
  else
    target_certs <- read (fun db =>
      filter (fun i =>
                match OrderItem.kind i with
                | CertificateItem c _ m =>
                    course_key_eqb c (CourseEnrollment.course_id course_enrollment)
                    && Nat.eqb (OrderItem.user i) (CourseEnrollment.user course_enrollment)
                    && status_eqb (OrderItem.status i) purchased
                    && String.eqb m "verified"
                | _ => false
                end)
             (orderitems db)) ;;
    match target_certs with
    | [] => ret None
    | target_cert :: _ =>
        let target_cert := OrderItem.set_status target_cert refunded in
        let target_cert := OrderItem.set_refund_requested_time target_cert (Some (now env)) in
        OrderItem_save target_cert ;;
        (* target_cert.order: the row the foreign key points to *)
        found <- read (fun db =>
          find (fun o => Nat.eqb (Order.id o) (OrderItem.order target_cert)) (orders db)) ;;
        match found with
        | None => raise DoesNotExist
        | Some order =>
            let order := Order.set_status order refunded in
            Order_save order ;;
            emit (RefundEmail (OrderItem.order target_cert)) ;;
            ret (Some target_cert)
        end
    end.

(** ** Order.update_order_type and Order.purchase *)

(** One turn of the loop of the business branch of [update_order_type]; the
    state is the order and the local [items_to_delete]. *)
Definition to_bundle_step (st : Order.t * list OrderItem.t) (cart_item : OrderItem.t)
  : M (Order.t * list OrderItem.t) :=
  let (self, items_to_delete) := st in
  if is_paidcourseregistration cart_item then        (* hasattr(cart_item, 'paidcourseregistration') *)
    r <- CourseRegCodeItem_add_to_order self (OrderItem.course_id cart_item)
           (OrderItem.qty cart_item) (DEFAULT_MODE_SLUG env) None None ;;
    ret (fst r, items_to_delete ++ [cart_item])
  else ret (self, items_to_delete).

(** One turn of the loop of the personal branch. *)
Definition to_single_step (st : Order.t * list OrderItem.t) (cart_item : OrderItem.t)
  : M (Order.t * list OrderItem.t) :=
  let (self, items_to_delete) := st in
  if is_courseregcodeitem cart_item then             (* hasattr(cart_item, 'courseregcodeitem') *)
    r <- PaidCourseRegistration_add_to_order self (OrderItem.course_id cart_item)
           (DEFAULT_MODE_SLUG env) None None ;;
    ret (fst r, items_to_delete ++ [cart_item])
  else ret (self, items_to_delete).

Definition Order_update_order_type (self : Order.t) : M Order.t :=
  (* the queryset is evaluated by the first loop and its rows are reused *)
  cart_items <- read (orderitem_set self) ;;
  let is_order_type_business :=
    existsb (fun cart_item => 1 <? OrderItem.qty cart_item) cart_items in
  st <- (if is_order_type_business
         then for_fold to_bundle_step (self, []) cart_items
         else for_fold to_single_step (self, []) cart_items) ;;
  let (self, items_to_delete) := st in
  for_each OrderItem_delete items_to_delete ;;
  let self := Order.set_order_type self
                (if is_order_type_business then BUSINESS else PERSONAL) in
  Order_save self ;;
  ret self.

Definition Order_purchase (self : Order.t)
    (first last street1 street2 city state postalcode country ccnum cardtype
       processor_reply_dump : string) : M Order.t :=
  if status_eqb (Order.status self) purchased then ret self
  else
    let self := Order.set_status self purchased in
    let self := Order.set_purchase_time self (Some (now env)) in
    let b := Order.bill self in
    let store := STORE_BILLING_INFO env in
    let self := Order.set_bill self
      (Billing.mk first last
         (if store then street1 else Billing.bill_to_street1 b)
         (if store then street2 else Billing.bill_to_street2 b)
         city state postalcode country
         (if store then ccnum else Billing.bill_to_ccnum b)
         (if store then cardtype else Billing.bill_to_cardtype b)
         (if store then processor_reply_dump else Billing.processor_reply_dump b)) in
    Order_save self ;;
    self <- (if order_type_eqb (Order.order_type self) BUSINESS
             then Order_update_order_type self
             else ret self) ;;
    (* [orderitems] is a lazy queryset: its rows are fetched by this loop *)
    orderitems <- read (orderitem_set self) ;;
    for_each OrderItem_purchase_item orderitems ;;
    emit (ConfirmationEmails (Order.id self)
            (order_type_eqb (Order.order_type self) BUSINESS)) ;;
    ret self.

(** [CourseRegistrationCode.free_user_enrollment] *)
Definition CourseRegistrationCode_free_user_enrollment (cart : Order.t) : M Order.t :=
  cart_items <- read (orderitem_set cart) ;;
  match cart_items with
  | [] => ret cart
  | _ =>
      for_each
        (fun item =>
           emit (Enroll (Order.user cart) (OrderItem.course_id item) None) ;;
           let item := OrderItem.set_status item purchased in
           OrderItem_save item ;;
           ret item)
        cart_items ;;
      let cart := Order.set_status cart purchased in
      let cart := Order.set_purchase_time cart (Some (now env)) in
      Order_save cart ;;
      ret cart
  end.

(** ** class RegistrationCodeRedemption *)

Definition redemption_of (user : Pk) (cart : Order.t) (r : RegistrationCodeRedemption.t) : bool :=
  Nat.eqb (RegistrationCodeRedemption.redeemed_by r) user
  && match RegistrationCodeRedemption.order r with
     | Some o => Nat.eqb o (Order.id cart)
     | None => false
     end.

Definition RegistrationCodeRedemption_delete_registration_redemption
    (user : Pk) (cart : Order.t) : M unit :=
  reg_code_redemption <- read (fun db => filter (redemption_of user cart) (regcoderedemptions db)) ;;
  match reg_code_redemption with
  | [] => ret tt
  | _ =>
      write (fun db =>
        set_regcoderedemptions db
          (filter (fun r => negb (redemption_of user cart r)) (regcoderedemptions db)))
  end.

(** The loop of [add_reg_code_redemption] over the evaluated [cart_items];
    falling off the end raises. *)
Fixpoint add_reg_code_redemption_loop
    (course_reg_code : CourseRegistrationCode.t) (order : Order.t)
    (cart_items : list OrderItem.t) : M CourseRegistrationCode.t :=
  match cart_items with
  | [] => raise ItemDoesNotExistAgainstRegCodeException
  | item :: rest =>
      if truthy_key (OrderItem.course_id item)
         && course_key_eqb (OrderItem.course_id item)
              (CourseRegistrationCode.course_id course_reg_code)
      then
        code_redemption <- read (fun db =>
          filter (fun r => Nat.eqb (RegistrationCodeRedemption.registration_code r)
                             (CourseRegistrationCode.id course_reg_code))
                 (regcoderedemptions db)) ;;
        match code_redemption with
        | _ :: _ => raise RegCodeAlreadyExistException
        | [] =>
            pk <- fresh_pk ;;
            let code_redemption :=
              RegistrationCodeRedemption.mk pk (Some (Order.id order))
                (CourseRegistrationCode.id course_reg_code) (Order.user order)
                (Some (class_load_time env)) in
            write (fun db =>
              set_regcoderedemptions db (regcoderedemptions db ++ [code_redemption])) ;;
            let item := OrderItem.set_list_price item (Some (OrderItem.unit_cost item)) in
            let item := OrderItem.set_unit_cost item 0 in
            OrderItem_save item ;;
            ret course_reg_code
        end
      else add_reg_code_redemption_loop course_reg_code order rest
  end.

Definition RegistrationCodeRedemption_add_reg_code_redemption
    (course_reg_code : CourseRegistrationCode.t) (order : Order.t)
  : M CourseRegistrationCode.t :=
  cart_items <- read (orderitem_set order) ;;
  add_reg_code_redemption_loop course_reg_code order cart_items.

Definition RegistrationCodeRedemption_create_invoice_generated_registration_redemption
    (course_reg_code : CourseRegistrationCode.t) (user : Pk) : M unit :=
  pk <- fresh_pk ;;
  let code_redemption :=
    RegistrationCodeRedemption.mk pk None (CourseRegistrationCode.id course_reg_code) user
      (Some (class_load_time env)) in
  write (fun db => set_regcoderedemptions db (regcoderedemptions db ++ [code_redemption])).

(** ** class CouponRedemption *)

Definition coupon_redemption_of (user : Pk) (cart : Order.t) (r : CouponRedemption.t) : bool :=
  Nat.eqb (CouponRedemption.user r) user
  && Nat.eqb (CouponRedemption.order r) (Order.id cart).

Definition CouponRedemption_delete_coupon_redemption (user : Pk) (cart : Order.t) : M unit :=
  coupon_redemption <- read (fun db =>
    filter (coupon_redemption_of user cart) (couponredemptions db)) ;;
  match coupon_redemption with
  | [] => ret tt
  | _ =>
      write (fun db =>
        set_couponredemptions db
          (filter (fun r => negb (coupon_redemption_of user cart r)) (couponredemptions db)))
  end.

(** [get_discount_price]: the float [percentage_discount / 100.00] is turned
    into a [Decimal] exactly, multiplied by [value] in the decimal context,
    and the product is printed with two decimals and parsed back. *)
Definition CouponRedemption_get_discount_price (percentage_discount : Z) (value : Money)
  : Money :=
  let discount :=
    Decimal.format_2f
      (Decimal.mul (Decimal_of_float (float_div percentage_discount 100))
                   (Decimal.of_cents value)) in
  value - discount.

(** [coupon_redemption.coupon]: the row the foreign key points to. *)
Definition coupon_of (r : CouponRedemption.t) (db : DB) : option Coupon.t :=
  find (fun c => Nat.eqb (Coupon.id c) (CouponRedemption.coupon r)) (coupons db).

(** The conflict test of [add_coupon_redemption] on one existing redemption. *)
Definition coupon_conflict (existing coupon : Coupon.t) : bool :=
  negb (String.eqb (Coupon.code existing) (Coupon.code coupon))
  || Nat.eqb (Coupon.id existing) (Coupon.id coupon).

Definition check_coupon_redemption (coupon : Coupon.t) (coupon_redemption : CouponRedemption.t)
  : M unit :=
  existing <- read (coupon_of coupon_redemption) ;;
  match existing with
  | None => raise DoesNotExist
  | Some c => if coupon_conflict c coupon then raise MultipleCouponsNotAllowedException
              else ret tt
  end.

(** The second loop of [add_coupon_redemption]; falling off the end returns
    [is_redemption_applied = False]. *)
Fixpoint add_coupon_redemption_loop
    (coupon : Coupon.t) (order : Order.t) (cart_items : list OrderItem.t) : M bool :=
  match cart_items with
  | [] => ret false
  | item :: rest =>
      if truthy_key (OrderItem.course_id item)
         && course_key_eqb (OrderItem.course_id item) (Coupon.course_id coupon)
      then
        pk <- fresh_pk ;;
        let coupon_redemption :=
          CouponRedemption.mk pk (Order.id order) (Order.user order) (Coupon.id coupon) in
        write (fun db =>
          set_couponredemptions db (couponredemptions db ++ [coupon_redemption])) ;;
        let discount_price :=
          CouponRedemption_get_discount_price (Coupon.percentage_discount coupon)
            (OrderItem.unit_cost item) in
        let item := OrderItem.set_list_price item (Some (OrderItem.unit_cost item)) in
        let item := OrderItem.set_unit_cost item discount_price in
        OrderItem_save item ;;
        ret true
      else add_coupon_redemption_loop coupon order rest
  end.

Definition CouponRedemption_add_coupon_redemption
    (coupon : Coupon.t) (order : Order.t) (cart_items : list OrderItem.t) : M bool :=
  coupon_redemptions <- read (fun db =>
    filter (coupon_redemption_of (Order.user order) order) (couponredemptions db)) ;;
  for_each (check_coupon_redemption coupon) coupon_redemptions ;;
  add_coupon_redemption_loop coupon order cart_items.

(** ** Further methods of Order *)

(** The classes an [item_type] argument can name. *)
Inductive ItemClass : Type :=
| OrderItem_class
| PaidCourseRegistration_class
| CourseRegCodeItem_class
| CertificateItem_class
| Donation_class.

(** [isinstance(item, item_type)] on an item fetched with its subclass. *)
Definition isinstance (item : OrderItem.t) (item_type : ItemClass) : bool :=
  match item_type, OrderItem.kind item with
  | OrderItem_class, _ => true
  | PaidCourseRegistration_class, PaidCourseRegistration _ _ => true
  | CourseRegCodeItem_class, CourseRegCodeItem _ _ => true
  | CertificateItem_class, CertificateItem _ _ _ => true
  | Donation_class, Donation _ _ => true
  | _, _ => false
  end.

(** [Order.has_items]; [item_type = None] is the argument left out. *)
Definition Order_has_items (self : Order.t) (item_type : option ItemClass) (db : DB) : bool :=
  match item_type with
  | None => match orderitem_set self db with [] => false | _ => true end
  | Some item_type => existsb (fun item => isinstance item item_type) (orderitem_set self db)
  end.

(** [Order.user_cart_has_items]; the user is given by its key and by what
    [user.is_authenticated()] answers. *)
Definition Order_user_cart_has_items (user : Pk) (is_authenticated : bool)
    (item_types : option (list ItemClass)) : M bool :=
  if negb is_authenticated then ret false
  else
    cart <- Order_get_cart_for_user user ;;
    match item_types with
    | None | Some [] => read (Order_has_items cart None)
    | Some item_types =>
        read (fun db => existsb (fun item_type => Order_has_items cart (Some item_type) db)
                                item_types)
    end.

(** [Order.add_billing_details] *)
Definition Order_add_billing_details (self : Order.t)
    (company_name company_contact_name company_contact_email recipient_name
       recipient_email customer_reference_number : string) : M Order.t :=
  let self := Order.set_details self
    (BillingDetails.mk (Some company_name) (Some company_contact_name)
       (Some company_contact_email) (Some recipient_name) (Some recipient_email)
       (Some customer_reference_number)) in
  Order_save self ;;
  ret self.

(** The expression [qty * unit_cost] the aggregates hand to the database,
    which computes it exactly. *)
Definition qty_times_unit_cost (i : OrderItem.t) : Money :=
  OrderItem.qty i * OrderItem.unit_cost i.

(** [PaidCourseRegistration.get_total_amount_of_purchased_item]: the SQL sum
    of [qty * unit_cost] over the purchased rows of the course, [0] when the
    aggregate is [None] (no row). *)
Definition PaidCourseRegistration_get_total_amount_of_purchased_item
    (course_key : CourseKey) (db : DB) : Money :=
  fold_right Z.add 0
    (map qty_times_unit_cost
       (filter (fun i => is_paidcourseregistration i
                         && course_key_eqb (OrderItem.course_id i) course_key
                         && status_eqb (OrderItem.status i) purchased)
               (orderitems db))).

(** [CourseRegCodeItem.get_total_amount_of_purchased_item] *)
Definition CourseRegCodeItem_get_total_amount_of_purchased_item
    (course_key : CourseKey) (db : DB) : Money :=
  fold_right Z.add 0
    (map qty_times_unit_cost
       (filter (fun i => is_courseregcodeitem i
                         && course_key_eqb (OrderItem.course_id i) course_key
                         && status_eqb (OrderItem.status i) purchased)
               (orderitems db))).

(** ** Reports on verified certificates *)

(** [CertificateItem.objects.filter(course_id=..., mode='verified', status=...)] *)
Definition verified_certificate_with (course_id : CourseKey) (status : Status)
    (i : OrderItem.t) : bool :=
  match OrderItem.kind i with
  | CertificateItem c _ m =>
      course_key_eqb c course_id && String.eqb m "verified"
      && status_eqb (OrderItem.status i) status
  | _ => false
  end.

(** [CertificateItem.verified_certificates_count] *)
Definition CertificateItem_verified_certificates_count
    (course_id : CourseKey) (status : Status) (db : DB) : nat :=
  List.length (filter (verified_certificate_with course_id status) (orderitems db)).

(** The money columns [field_to_aggregate] names: 'unit_cost' and
    'service_fee'. *)
Inductive MonetaryField : Type :=
| unit_cost_field
| service_fee_field.

Definition monetary_field (field : MonetaryField) (i : OrderItem.t) : Money :=
  match field with
  | unit_cost_field => OrderItem.unit_cost i
  | service_fee_field => OrderItem.service_fee i
  end.

(** [CertificateItem.verified_certificates_monetary_field_sum]: the SQL sum,
    [Decimal(0.00)] when the aggregate is [None] (no row). *)
Definition CertificateItem_verified_certificates_monetary_field_sum
    (course_id : CourseKey) (status : Status) (field_to_aggregate : MonetaryField)
    (db : DB) : Money :=
  fold_right Z.add 0
    (map (monetary_field field_to_aggregate)
       (filter (verified_certificate_with course_id status) (orderitems db))).

End Models.

(** * Notions used in the statements *)

(** While [start_purchase] walks the rows [todo] of an order, every row of
    that order is either already paying or still to be visited. *)
Definition paying_or_pending (oid : Pk) (todo : list OrderItem.t) (db : DB) : Prop :=
  forall i, In i (orderitems db) -> OrderItem.order i = oid ->
            OrderItem.status i = paying \/ In i todo.

(** The sum the specification describes, written by recursion on the table:
    a row counts when it belongs to the order and mirrors its status. *)
Fixpoint expected_total (self : Order.t) (rows : list OrderItem.t) : Money :=
  match rows with
  | [] => 0
  | i :: rows' =>
      (if Nat.eqb (OrderItem.order i) (Order.id self)
          && status_eqb (OrderItem.status i) (Order.status self)
       then OrderItem.qty i * OrderItem.unit_cost i else 0)
      + expected_total self rows'
  end.

(** The same sum with every product taken in absolute value: it bounds the
    magnitude of every line cost and of every partial sum. *)
Fixpoint expected_magnitude (self : Order.t) (rows : list OrderItem.t) : Money :=
  match rows with
  | [] => 0
  | i :: rows' =>
      (if Nat.eqb (OrderItem.order i) (Order.id self)
          && status_eqb (OrderItem.status i) (Order.status self)
       then Z.abs (OrderItem.qty i * OrderItem.unit_cost i) else 0)
      + expected_magnitude self rows'
  end.

Definition same_but_currency (o o' : Order.t) : Prop :=
  exists c, o' = Order.set_currency o c.

(** The order instance [purchase] works on once it has stored the billing
    snapshot. *)
Definition stamped (env : Env) (self : Order.t)
    (first last street1 street2 city state postalcode country ccnum cardtype
       processor_reply_dump : string) : Order.t :=
  let b := Order.bill self in
  let store := STORE_BILLING_INFO env in
  Order.set_bill
    (Order.set_purchase_time (Order.set_status self purchased) (Some (now env)))
    (Billing.mk first last
       (if store then street1 else Billing.bill_to_street1 b)
       (if store then street2 else Billing.bill_to_street2 b)
       city state postalcode country
       (if store then ccnum else Billing.bill_to_ccnum b)
       (if store then cardtype else Billing.bill_to_cardtype b)
       (if store then processor_reply_dump else Billing.processor_reply_dump b)).

(** The test the discount loops apply to each cart item: its course key is
    truthy and equals the key of the code or coupon. *)
Definition matches_course (k : CourseKey) (item : OrderItem.t) : bool :=
  truthy_key (OrderItem.course_id item) && course_key_eqb (OrderItem.course_id item) k.

Definition already_redeemed (code : CourseRegistrationCode.t) (db : DB) : Prop :=
  exists r, In r (regcoderedemptions db) /\
            RegistrationCodeRedemption.registration_code r = CourseRegistrationCode.id code.

(** Every coupon redemption points to a coupon row. *)
Definition coupons_resolve (db : DB) : Prop :=
  forall r, In r (couponredemptions db) -> coupon_of r db <> None.

(** The conflict test on a redemption record, through its coupon row. *)
Definition conflicts (coupon : Coupon.t) (db : DB) (r : CouponRedemption.t) : bool :=
  match coupon_of r db with
  | Some c => coupon_conflict c coupon
  | None => false
  end.

(** What one turn of the loop of [reset_cart_items_prices] makes of a row. *)
Definition reset_price (item : OrderItem.t) : OrderItem.t :=
  match OrderItem.list_price item with
  | Some p =>
      if p =? 0 then item
      else OrderItem.set_list_price (OrderItem.set_unit_cost item p) None
  | None => item
  end.

(** What the two discount protocols make of the item they apply to. *)
Definition coupon_discounted (coupon : Coupon.t) (item : OrderItem.t) : OrderItem.t :=
  OrderItem.set_unit_cost
    (OrderItem.set_list_price item (Some (OrderItem.unit_cost item)))
    (CouponRedemption_get_discount_price (Coupon.percentage_discount coupon)
       (OrderItem.unit_cost item)).

Definition reg_code_discounted (item : OrderItem.t) : OrderItem.t :=
  OrderItem.set_unit_cost
    (OrderItem.set_list_price item (Some (OrderItem.unit_cost item))) 0.

(** Primary keys of the order item table are unique. *)
Definition unique_item_ids (db : DB) : Prop :=
  NoDup (map OrderItem.id (orderitems db)).

(** Membership of a row in a list of rows, by primary key. *)
Definition listed (todo : list OrderItem.t) (i : OrderItem.t) : bool :=
  existsb (fun x => Nat.eqb (OrderItem.id x) (OrderItem.id i)) todo.

(** Primary keys already handed out lie below the counter. *)
Definition ids_below_counter (db : DB) : Prop :=
  forall i, In i (orderitems db) -> (OrderItem.id i < next_pk db)%nat.

Definition wf_items (db : DB) : Prop := unique_item_ids db /\ ids_below_counter db.

(** What [purchase_item] makes of a row. *)
Definition purchased_copy (env : Env) (item : OrderItem.t) : OrderItem.t :=
  OrderItem.set_fulfilled_time (OrderItem.set_status item purchased) (Some (now env)).

(** The float [p / 100.00] of a percentage [1 .. 100]: its exponent is at
    most [-52] and its mantissa is within rounding of [p / 100]. *)
Definition float_factor_ok (p : Z) : bool :=
  let (m, e) := float_div p 100 in
  (e <=? -52) && (0 <=? m)
  && (-50 <=? 100 * m - p * 2 ^ (- e)) && (100 * m - p * 2 ^ (- e) <=? 50).

(** The formula of the specification: the discount is [percentage] percent
    of the value rounded half up at the cent. *)
Definition discounted_half_up (percentage_discount : Z) (value : Money) : Money :=
  value - (value * percentage_discount + 50) / 100.

(** The mode, cost and currency the seat and bundle factories settle on. *)
Definition resolved_mode (env : Env) (course_id : CourseKey) (mode_slug : string)
  : CourseMode.t :=
  match mode_for_course env course_id mode_slug with
  | Some m => m
  | None => DEFAULT_MODE env
  end.

Definition resolved_cost (env : Env) (course_id : CourseKey) (mode_slug : string)
    (cost : option Money) : Money :=
  Python_or (fun c => negb (c =? 0)) cost
    (CourseMode.min_price (resolved_mode env course_id mode_slug)).

Definition resolved_currency (env : Env) (course_id : CourseKey) (mode_slug : string)
    (currency : option string) : string :=
  Python_or (fun s => negb (String.eqb s "")) currency
    (CourseMode.currency (resolved_mode env course_id mode_slug)).

(** The currency validation of [OrderItem.add_to_order] lets the item in. *)
Definition currency_accepted (order : Order.t) (currency : string) (db : DB) : Prop :=
  orderitem_set order db = [] \/ currency = Order.currency order.

(** The row a successful [PaidCourseRegistration.add_to_order] saves. *)
Definition new_seat (env : Env) (pk : Pk) (order : Order.t) (course_id : CourseKey)
    (mode_slug : string) (cost : option Money) (currency : option string)
    (course : Course.t) : OrderItem.t :=
  OrderItem.mk pk (Order.id order) (Order.user order) (Order.status order) 1
    (resolved_cost env course_id mode_slug cost) None
    ("Registration for Course: " ++ Course.display_name_with_default course)%string
    (resolved_currency env course_id mode_slug currency) None None 0
    (annotation_or_empty (PaidCourseRegistrationAnnotation_get env course_id))
    (PaidCourseRegistration course_id
       (CourseMode.slug (resolved_mode env course_id mode_slug))).

(** The row a successful [CourseRegCodeItem.add_to_order] saves. *)
Definition new_bundle (env : Env) (pk : Pk) (order : Order.t) (course_id : CourseKey)
    (qty : Z) (mode_slug : string) (cost : option Money) (currency : option string)
    (course : Course.t) : OrderItem.t :=
  OrderItem.mk pk (Order.id order) (Order.user order) (Order.status order) qty
    (resolved_cost env course_id mode_slug cost) None
    ("Enrollment codes for Course: " ++ Course.display_name_with_default course)%string
    (resolved_currency env course_id mode_slug currency) None None 0
    (annotation_or_empty (CourseRegCodeItemAnnotation_get env course_id))
    (CourseRegCodeItem course_id
       (CourseMode.slug (resolved_mode env course_id mode_slug))).

(** The lookup of [CertificateItem.add_to_order]'s [get_or_create]. *)
Definition certificate_lookup (env : Env) (order : Order.t) (course_id : CourseKey)
    (mode : string) (i : OrderItem.t) : bool :=
  Nat.eqb (OrderItem.order i) (Order.id order)
  && Nat.eqb (OrderItem.user i) (Order.user order)
  && match OrderItem.kind i with
     | CertificateItem c e m =>
         course_key_eqb c course_id
         && Nat.eqb e (get_or_create_enrollment env (Order.user order) course_id)
         && String.eqb m mode
     | _ => false
     end.

(** The row a successful [CertificateItem.add_to_order] saves under key [pk]. *)
Definition new_certificate (env : Env) (pk : Pk) (order : Order.t) (course_id : CourseKey)
    (cost : Money) (mode : string) (currency : string) (mode_info : CourseMode.t)
    (course : Course.t) : OrderItem.t :=
  OrderItem.mk pk (Order.id order) (Order.user order) (Order.status order) 1 cost None
    (CourseMode.name mode_info ++ " for course " ++ Course.display_name course)%string
    currency None None 0 ""
    (CertificateItem course_id (get_or_create_enrollment env (Order.user order) course_id)
       mode).

(** The row [Donation.add_to_order] creates under key [pk]. *)
Definition new_donation (pk : Pk) (order : Order.t) (donation_amount : Money)
    (course_id : CourseKey) (currency description : string) : OrderItem.t :=
  OrderItem.mk pk (Order.id order) (Order.user order) (Order.status order) 1
    donation_amount None description currency None None 0 ""
    (Donation (match course_id with
               | Some _ => donation_course
               | None => donation_general
               end) course_id).

(** The record a registration code redemption on an order adds. *)
Definition new_code_redemption (env : Env) (pk : Pk) (code : CourseRegistrationCode.t)
    (order : Order.t) : RegistrationCodeRedemption.t :=
  RegistrationCodeRedemption.mk pk (Some (Order.id order)) (CourseRegistrationCode.id code)
    (Order.user order) (Some (class_load_time env)).

(** The certificates [refund_cert_callback] looks for: purchased verified
    certificates of the enrollment's user and course. *)
Definition refund_target (course_enrollment : CourseEnrollment.t) (i : OrderItem.t) : bool :=
  match OrderItem.kind i with
  | CertificateItem c _ m =>
      course_key_eqb c (CourseEnrollment.course_id course_enrollment)
      && Nat.eqb (OrderItem.user i) (CourseEnrollment.user course_enrollment)
      && status_eqb (OrderItem.status i) purchased
      && String.eqb m "verified"
  | _ => false
  end.

(** What [refund_cert_callback] makes of the certificate it refunds. *)
Definition refunded_copy (env : Env) (cert : OrderItem.t) : OrderItem.t :=
  OrderItem.set_refund_requested_time (OrderItem.set_status cert refunded) (Some (now env)).

(** * Concrete data *)

Definition test_course : CourseKey := Some "edX/Test101/2013_Fall".

Definition other_course : CourseKey := Some "edX/Demo201/2014_Spring".

Definition test_env : Env :=
  mkEnv 1000 1 false "edX"
    (fun k => match k with
              | Some _ => Some (Course.mk "Test Course" "Test Course")
              | None => None
              end)
    truthy_key
    (fun _ _ => false)
    (fun _ _ => 7%nat)
    (fun _ slug => Some (CourseMode.mk slug "Honor Code Certificate" 5000 "usd"))
    (fun _ => [("verified", CourseMode.mk "verified" "Verified Certificate" 3000 "usd")])
    (CourseMode.mk "honor" "Honor Code Certificate" 0 "usd")
    "honor"
    (fun _ => None)
    (fun _ => None).

Definition empty_db : DB := mkDB [] [] [] [] [] 1%nat [].

(** An order of user 1 in the given status and classification. *)
Definition test_order (s : Status) (t : OrderTypes) : Order.t :=
  Order.mk 1%nat 1%nat "usd" s None None Billing.blank BillingDetails.blank t.

(** A single-seat item of order 1. *)
Definition seat (pk : Pk) (k : CourseKey) (s : Status) (qty : Z) (cost : Money)
    (list_price : option Money) : OrderItem.t :=
  OrderItem.mk pk 1%nat 1%nat s qty cost list_price "Registration for Course: Test Course"
    "usd" None None 0 "" (PaidCourseRegistration k "honor").

(** Order 1 with two single-seat items of quantities 1 and 3. *)
Definition db_1_3 (s : Status) (t : OrderTypes) : DB :=
  mkDB [test_order s t]
       [seat 2%nat test_course s 1 5000 None; seat 3%nat other_course s 3 5000 None]
       [] [] [] 4%nat [].

Definition test_code : CourseRegistrationCode.t :=
  CourseRegistrationCode.mk 9%nat "ABC123" test_course 1%nat None None.

(** Order 1 holds a seat of [k]; [test_code] was redeemed on order 5 by user 2. *)
Definition db_redeemed (k : CourseKey) : DB :=
  mkDB [test_order cart PERSONAL]
       [seat 2%nat k cart 1 3000 None]
       [] []
       [RegistrationCodeRedemption.mk 6%nat (Some 5%nat) 9%nat 2%nat (Some 1)]
       10%nat [].

Definition coupon_a : Coupon.t :=
  Coupon.mk 20%nat "SAVE20" None test_course 20 1%nat true.

Definition coupon_b : Coupon.t :=
  Coupon.mk 21%nat "HALF" None test_course 50 1%nat true.

(** Order 1 holds a $100.00 seat and has redeemed [coupon_a]. *)
Definition db_coupon : DB :=
  mkDB [test_order cart PERSONAL]
       [seat 2%nat test_course cart 1 8000 (Some 10000)]
       [coupon_a; coupon_b]
       [CouponRedemption.mk 30%nat 1%nat 1%nat 20%nat]
       [] 31%nat [].

(** Order 1 holds a free seat on which a registration code was redeemed. *)
Definition db_free_seat : DB :=
  mkDB [test_order cart PERSONAL]
       [seat 2%nat test_course cart 1 0 (Some 0)]
       [] []
       [RegistrationCodeRedemption.mk 6%nat (Some 1%nat) 9%nat 1%nat (Some 1)]
       10%nat [].

(** A verified certificate and a donation are bought in one order, then the
    user unenrolls within the refund window. *)
Definition refund_scenario : M (option OrderItem.t) :=
  cart <- Order_get_cart_for_user 1%nat ;;
  r <- CertificateItem_add_to_order test_env cart test_course 3000 "verified" "usd" ;;
  let cart := fst r in
  Donation_add_to_order test_env cart 500 None "usd" ;;
  cart <- Order_start_purchase cart ;;
  Order_purchase test_env cart "Jo" "Doe" "" "" "" "" "" "US" "" "" "" ;;
  CertificateItem_refund_cert_callback test_env
    (CourseEnrollment.mk 7%nat 1%nat test_course true).

Definition refund_outcome : (Exn + option OrderItem.t) * DB :=
  Eval vm_compute in refund_scenario empty_db.

Definition purchase_1_3 (t : OrderTypes) : (Exn + Order.t) * DB :=
  Order_purchase test_env (test_order paying t) "Jo" "Doe" "" "" "" "" "" "US" "" "" ""
    (db_1_3 paying t).

Definition purchase_1_3_order (t : OrderTypes) : Order.t :=
  match fst (purchase_1_3 t) with
  | inr o => o
  | inl _ => test_order paying t
  end.

(** Order 1 holds a free seat; a registration code is redeemed on it and the
    cart prices are reset. *)
Definition db_free_cart : DB :=
  mkDB [test_order cart PERSONAL] [seat 2%nat test_course cart 1 0 None] [] [] []
       10%nat [].

Definition redeem_then_reset : M unit :=
  RegistrationCodeRedemption_add_reg_code_redemption test_env test_code
    (test_order cart PERSONAL) ;;
  Order_reset_cart_items_prices (test_order cart PERSONAL).

(** A purchased order one of whose two items was refunded on its own. *)
Definition db_item_refunded : DB :=
  mkDB [test_order purchased PERSONAL]
       [seat 2%nat test_course purchased 1 5000 None;
        seat 3%nat other_course refunded 3 5000 None]
       [] [] [] 4%nat [].

(** A coupon row other than [coupon_a] that carries the same code. *)
Definition coupon_a_again : Coupon.t :=
  Coupon.mk 22%nat "SAVE20" None test_course 20 1%nat true.

(** [db_coupon] with that coupon row stored as well. *)
Definition db_same_code : DB :=
  mkDB [test_order cart PERSONAL]
       [seat 2%nat test_course cart 1 8000 (Some 10000)]
       [coupon_a; coupon_b; coupon_a_again]
       [CouponRedemption.mk 30%nat 1%nat 1%nat 20%nat]
       [] 31%nat [].

Definition redeem_coupon_a_again : (Exn + bool) * DB :=
  CouponRedemption_add_coupon_redemption coupon_a_again (test_order cart PERSONAL)
    (orderitem_set (test_order cart PERSONAL) db_same_code) db_same_code.

(** Order 1 holds three seats at $1000000000000000000000000000.01 each, a
    price of 30 digits. *)
Definition db_huge : DB :=
  mkDB [test_order cart PERSONAL]
       [seat 2%nat test_course cart 3 100000000000000000000000000001 None]
       [] [] [] 3%nat [].

(** ** Data for the further properties *)

Definition third_course : CourseKey := Some "edX/New301/2015_Fall".

(** The environment of [test_env] with a module store that knows no course. *)
Definition closed_env : Env :=
  mkEnv 1000 1 false "edX"
    (fun _ => None)
    (fun _ => false)
    (fun _ _ => false)
    (fun _ _ => 7%nat)
    (fun _ slug => Some (CourseMode.mk slug "Honor Code Certificate" 5000 "usd"))
    (fun _ => [("verified", CourseMode.mk "verified" "Verified Certificate" 3000 "usd")])
    (CourseMode.mk "honor" "Honor Code Certificate" 0 "usd")
    "honor"
    (fun _ => None)
    (fun _ => None).

(** A bundle item of order 1. *)
Definition bundle (pk : Pk) (k : CourseKey) (s : Status) (qty : Z) (cost : Money)
  : OrderItem.t :=
  OrderItem.mk pk 1%nat 1%nat s qty cost None "Enrollment codes for Course: Test Course"
    "usd" None None 0 "" (CourseRegCodeItem k "honor").

(** A verified certificate of order 1 for enrollment 7. *)
Definition certificate (pk : Pk) (k : CourseKey) (s : Status) (cost : Money) : OrderItem.t :=
  OrderItem.mk pk 1%nat 1%nat s 1 cost None "Verified Certificate for course Test Course"
    "usd" None None 0 "" (CertificateItem k 7%nat "verified").

(** Order 1 without items. *)
Definition db_cart : DB := mkDB [test_order cart PERSONAL] [] [] [] [] 2%nat [].

(** Order 1 with one bundle item of the given quantity. *)
Definition db_bundle (s : Status) (t : OrderTypes) (qty : Z) : DB :=
  mkDB [test_order s t] [bundle 2%nat test_course s qty 5000] [] [] [] 3%nat [].

(** Order 1, purchased, holds a verified certificate. *)
Definition db_certificate : DB :=
  mkDB [test_order purchased PERSONAL] [certificate 2%nat test_course purchased 3000]
       [] [] [] 3%nat [].

(** Order 1 holds a $100.00 seat; two coupons exist, none is redeemed. *)
Definition db_unredeemed : DB :=
  mkDB [test_order cart PERSONAL]
       [seat 2%nat test_course cart 1 10000 None]
       [coupon_a; coupon_b] [] [] 31%nat [].

Definition redeem_coupon_a : (Exn + bool) * DB :=
  CouponRedemption_add_coupon_redemption coupon_a (test_order cart PERSONAL)
    (orderitem_set (test_order cart PERSONAL) db_unredeemed) db_unredeemed.

(** [update_order_type] on a cart classified 'personal' with quantities 1 and 3. *)
Definition update_1_3 : (Exn + Order.t) * DB :=
  Order_update_order_type test_env (test_order cart PERSONAL) (db_1_3 cart PERSONAL).

Definition update_1_3_order : Order.t :=
  match fst update_1_3 with
  | inr o => o
  | inl _ => test_order cart PERSONAL
  end.

(** [update_order_type] on a cart classified 'business' whose bundle has quantity 1. *)
Definition update_bundle : (Exn + Order.t) * DB :=
  Order_update_order_type test_env (test_order cart BUSINESS) (db_bundle cart BUSINESS 1).

Definition update_bundle_order : Order.t :=
  match fst update_bundle with
  | inr o => o
  | inl _ => test_order cart BUSINESS
  end.

(** Order 1, being paid as a business order, with its billing details. *)
Definition acme_details : BillingDetails.t :=
  BillingDetails.mk (Some "ACME") (Some "Jo Doe") (Some "jo@acme.example")
    (Some "Accounts") (Some "accounts@acme.example") (Some "PO-17").

Definition billed_order : Order.t :=
  Order.set_details (test_order paying BUSINESS) acme_details.

Definition purchase_billed : (Exn + Order.t) * DB :=
  Order_purchase test_env billed_order "Jo" "Doe" "" "" "" "" "" "US" "" "" ""
    (db_1_3 paying BUSINESS).

Definition purchase_billed_order : Order.t :=
  match fst purchase_billed with
  | inr o => o
  | inl _ => billed_order
  end.

(** * Properties *)

(** ** Generic facts: equality tests, rows, loops *)

Lemma status_eqb_eq (a b : Status) : status_eqb a b = true <-> a = b.
Proof. destruct a, b; simpl; split; congruence. Qed.

Lemma status_eqb_refl (a : Status) : status_eqb a a = true.
Proof. now destruct a. Qed.

Lemma status_eqb_neq (a b : Status) : status_eqb a b = false <-> a <> b.
Proof. destruct a, b; simpl; split; congruence. Qed.

Lemma order_type_eqb_eq (a b : OrderTypes) : order_type_eqb a b = true <-> a = b.
Proof. destruct a, b; simpl; split; congruence. Qed.

Lemma course_key_eqb_eq (a b : CourseKey) : course_key_eqb a b = true <-> a = b.
Proof.
  destruct a as [x|], b as [y|]; simpl; split; try congruence.
  - intros H. apply String.eqb_eq in H. now subst.
  - intros H. injection H as ->. apply String.eqb_refl.
Qed.

Lemma course_key_eqb_refl (a : CourseKey) : course_key_eqb a a = true.
Proof. now apply course_key_eqb_eq. Qed.

Lemma course_key_eqb_sym (a b : CourseKey) : course_key_eqb a b = course_key_eqb b a.
Proof.
  destruct (course_key_eqb a b) eqn:E.
  - apply course_key_eqb_eq in E. subst. symmetry. apply course_key_eqb_refl.
  - destruct (course_key_eqb b a) eqn:E'; [|reflexivity].
    apply course_key_eqb_eq in E'. subst. now rewrite course_key_eqb_refl in E.
Qed.

Section Rows.
Context {R : Type} (pk : R -> Pk).

Lemma in_save_row (r x : R) (table : list R) :
  In x (save_row pk r table) -> x = r \/ (In x table /\ pk x <> pk r).
Proof.
  unfold save_row. destruct (existsb _ table) eqn:E.
  - rewrite in_map_iff. intros [y [Hy Hin]].
    destruct (Nat.eqb (pk y) (pk r)) eqn:E'.
    + now left.
    + right. subst y. split; [assumption|]. now apply Nat.eqb_neq.
  - rewrite in_app_iff. intros [Hin | [<- | []]]; [|now left].
    right. split; [assumption|]. intros e.
    assert (Hex : existsb (fun y => Nat.eqb (pk y) (pk r)) table = true).
    { apply existsb_exists. exists x. split; [assumption|]. now apply Nat.eqb_eq. }
    congruence.
Qed.

Lemma save_row_in (r : R) (table : list R) : In r (save_row pk r table).
Proof.
  unfold save_row. destruct (existsb _ table) eqn:E.
  - apply existsb_exists in E. destruct E as [y [Hin Hy]].
    apply in_map_iff. exists y. now rewrite Hy.
  - apply in_app_iff. right. now left.
Qed.

Lemma save_row_keeps (r x : R) (table : list R) :
  In x table -> pk x <> pk r -> In x (save_row pk r table).
Proof.
  intros Hin Hne. unfold save_row. destruct (existsb _ table).
  - apply in_map_iff. exists x. split; [|assumption].
    apply Nat.eqb_neq in Hne. now rewrite Hne.
  - apply in_app_iff. now left.
Qed.

Lemma in_delete_row (r x : R) (table : list R) :
  In x (delete_row pk r table) <-> In x table /\ pk x <> pk r.
Proof.
  unfold delete_row. rewrite filter_In, negb_true_iff, Nat.eqb_neq. tauto.
Qed.
End Rows.

(** Unfolding the monad on a run. *)
Ltac run :=
  repeat (unfold bind, ret, raise, read, write, emit, fresh_pk,
          Order_save, OrderItem_save, OrderItem_delete; simpl).

Lemma bind_inr {A B : Type} (m : M A) (k : A -> M B) (db db' : DB) (b : B) :
  bind m k db = (inr b, db') ->
  exists a db1, m db = (inr a, db1) /\ k a db1 = (inr b, db').
Proof.
  unfold bind. destruct (m db) as [[e|a] db1]; [discriminate|].
  intros H. now exists a, db1.
Qed.

Lemma bind_run {A B : Type} (m : M A) (k : A -> M B) (db db1 : DB) (a : A) :
  m db = (inr a, db1) -> bind m k db = k a db1.
Proof. unfold bind. now intros ->. Qed.

Lemma bind_raise {A B : Type} (m : M A) (k : A -> M B) (db db1 : DB) (e : Exn) :
  m db = (inl e, db1) -> bind m k db = (inl e, db1).
Proof. unfold bind. now intros ->. Qed.

Lemma commit_on_success_run {A : Type} (body : M A) (db db' : DB) (a : A) :
  body db = (inr a, db') -> commit_on_success body db = (inr a, db').
Proof. intros H. unfold commit_on_success. now rewrite H. Qed.

Lemma commit_on_success_raise {A : Type} (body : M A) (db db' : DB) (e : Exn) :
  body db = (inl e, db') ->
  commit_on_success body db = (inl e, set_effects db (effects db')).
Proof. intros H. unfold commit_on_success. now rewrite H. Qed.

(** A loop invariant for [for_each]: what holds of the database before the
    loop and is kept by every turn holds after the loop. *)
Lemma for_each_inv {A B : Type} (body : A -> M B) (P : DB -> Prop) (l : list A) :
  (forall x db y db', In x l -> P db -> body x db = (inr y, db') -> P db') ->
  forall db ys db', P db -> for_each body l db = (inr ys, db') -> P db'.
Proof.
  induction l as [|x l IH]; intros Hbody db ys db' HP Hrun.
  - simpl in Hrun. unfold ret in Hrun. now inversion Hrun; subst.
  - simpl in Hrun. apply bind_inr in Hrun. destruct Hrun as [y [db1 [Hx Hrun]]].
    apply bind_inr in Hrun. destruct Hrun as [ys' [db2 [Hl Hrun]]].
    unfold ret in Hrun. inversion Hrun; subst.
    apply (IH (fun x0 d y0 d' Hin => Hbody x0 d y0 d' (or_intror Hin)) db1 ys' db');
      [|assumption].
    now apply (Hbody x db y db1 (or_introl eq_refl)).
Qed.

(** A loop whose turns never raise terminates normally. *)
Lemma for_each_total {A B : Type} (body : A -> M B) (l : list A) :
  (forall x db, In x l -> exists y db', body x db = (inr y, db')) ->
  forall db, exists ys db', for_each body l db = (inr ys, db').
Proof.
  induction l as [|x l IH]; intros Hbody db.
  - now exists [], db.
  - destruct (Hbody x db (or_introl eq_refl)) as [y [db1 Hx]].
    destruct (IH (fun x0 d Hin => Hbody x0 d (or_intror Hin)) db1) as [ys [db2 Hl]].
    exists (y :: ys), db2. simpl.
    rewrite (bind_run _ _ _ _ _ Hx), (bind_run _ _ _ _ _ Hl). reflexivity.
Qed.

Lemma for_fold_inv {A S : Type} (body : S -> A -> M S) (P : S -> DB -> Prop) (l : list A) :
  (forall s x db s' db', In x l -> P s db -> body s x db = (inr s', db') -> P s' db') ->
  forall s db s' db', P s db -> for_fold body s l db = (inr s', db') -> P s' db'.
Proof.
  induction l as [|x l IH]; intros Hbody s db s' db' HP Hrun.
  - simpl in Hrun. unfold ret in Hrun. now inversion Hrun; subst.
  - simpl in Hrun. apply bind_inr in Hrun. destruct Hrun as [s1 [db1 [Hx Hrun]]].
    apply (IH (fun s0 x0 d s0' d' Hin => Hbody s0 x0 d s0' d' (or_intror Hin)) s1 db1);
      [|assumption].
    now apply (Hbody s x db s1 db1 (or_introl eq_refl)).
Qed.

Section Properties.

Variable env : Env.

(** ** Order.start_purchase *)

Lemma OrderItem_start_purchase_run (i : OrderItem.t) (db : DB) :
  OrderItem_start_purchase i db =
  (inr (OrderItem.set_status i paying),
   set_orderitems db (save_row OrderItem.id (OrderItem.set_status i paying) (orderitems db))).
Proof. reflexivity. Qed.

Lemma start_purchase_loop (oid : Pk) (todo : list OrderItem.t) :
  (forall i, In i todo -> OrderItem.order i = oid) ->
  forall db, paying_or_pending oid todo db ->
  exists ys db',
    for_each OrderItem_start_purchase todo db = (inr ys, db') /\
    paying_or_pending oid [] db' /\
    orders db' = orders db /\ effects db' = effects db.
Proof.
  induction todo as [|x todo IH]; intros Hall db Hinv.
  - exists [], db. repeat split; assumption.
  - destruct (IH (fun i Hi => Hall i (or_intror Hi))
                (set_orderitems db
                   (save_row OrderItem.id (OrderItem.set_status x paying) (orderitems db))))
      as [ys [db' [Hrun [Hfin [Ho He]]]]].
    + intros i Hin Hord. simpl in Hin. apply in_save_row in Hin.
      destruct Hin as [-> | [Hin Hne]]; [now left|].
      destruct (Hinv i Hin Hord) as [Hp | [Hx | Ht]]; [now left | | now right].
      subst i. simpl in Hne. congruence.
    + exists (OrderItem.set_status x paying :: ys), db'.
      split; [|now repeat split].
      simpl. rewrite (bind_run _ _ _ _ _ (OrderItem_start_purchase_run x db)).
      now rewrite (bind_run _ _ _ _ _ Hrun).
Qed.

(** ** Removing redemption records *)

Lemma filter_none_negb {A : Type} (f : A -> bool) (l : list A) :
  filter f l = [] -> filter (fun x => negb (f x)) l = l.
Proof.
  induction l as [|x l IH]; simpl; [reflexivity|].
  destruct (f x); simpl; [discriminate|]. intros H. now rewrite IH.
Qed.

Lemma set_regcoderedemptions_same (db : DB) :
  set_regcoderedemptions db (regcoderedemptions db) = db.
Proof. now destruct db. Qed.

Lemma set_couponredemptions_same (db : DB) :
  set_couponredemptions db (couponredemptions db) = db.
Proof. now destruct db. Qed.

Lemma delete_registration_redemption_run (user : Pk) (cart : Order.t) (db : DB) :
  RegistrationCodeRedemption_delete_registration_redemption user cart db =
  (inr tt,
   set_regcoderedemptions db
     (filter (fun r => negb (redemption_of user cart r)) (regcoderedemptions db))).
Proof.
  unfold RegistrationCodeRedemption_delete_registration_redemption, bind, read.
  destruct (filter (redemption_of user cart) (regcoderedemptions db)) eqn:E; [|reflexivity].
  unfold ret. now rewrite (filter_none_negb _ _ E), set_regcoderedemptions_same.
Qed.

Lemma delete_coupon_redemption_run (user : Pk) (cart : Order.t) (db : DB) :
  CouponRedemption_delete_coupon_redemption user cart db =
  (inr tt,
   set_couponredemptions db
     (filter (fun r => negb (coupon_redemption_of user cart r)) (couponredemptions db))).
Proof.
  unfold CouponRedemption_delete_coupon_redemption, bind, read.
  destruct (filter (coupon_redemption_of user cart) (couponredemptions db)) eqn:E; [|reflexivity].
  unfold ret. now rewrite (filter_none_negb _ _ E), set_couponredemptions_same.
Qed.

(** C9.  [delete_registration_redemption] and [delete_coupon_redemption]
    return normally and change nothing but their own redemption table, from
    which exactly the records of the given user and cart are dropped (the
    other records stay, in order).  The order item table is the same before
    and after, so no [unit_cost] or [list_price] is restored. *)
Theorem delete_redemption_frame (user : Pk) (cart : Order.t) (db : DB) :
  (exists db',
     RegistrationCodeRedemption_delete_registration_redemption user cart db = (inr tt, db') /\
     orderitems db' = orderitems db /\
     orders db' = orders db /\
     couponredemptions db' = couponredemptions db /\
     effects db' = effects db /\
     regcoderedemptions db' =
       filter (fun r => negb (redemption_of user cart r)) (regcoderedemptions db)) /\
  (exists db',
     CouponRedemption_delete_coupon_redemption user cart db = (inr tt, db') /\
     orderitems db' = orderitems db /\
     orders db' = orders db /\
     regcoderedemptions db' = regcoderedemptions db /\
     effects db' = effects db /\
     couponredemptions db' =
       filter (fun r => negb (coupon_redemption_of user cart r)) (couponredemptions db)).
Proof.
  split.
  - eexists. split; [apply delete_registration_redemption_run|]. now repeat split.
  - eexists. split; [apply delete_coupon_redemption_run|]. now repeat split.
Qed.

(** ** The factories leave the order as it was, up to its currency *)

Lemma same_but_currency_refl (o : Order.t) : same_but_currency o o.
Proof. exists (Order.currency o). now destruct o. Qed.

Lemma same_but_currency_trans (a b c : Order.t) :
  same_but_currency a b -> same_but_currency b c -> same_but_currency a c.
Proof. intros [x ->] [y ->]. now exists y. Qed.

Lemma same_but_currency_fields (o o' : Order.t) :
  same_but_currency o o' ->
  Order.id o' = Order.id o /\ Order.user o' = Order.user o /\
  Order.status o' = Order.status o /\ Order.order_type o' = Order.order_type o.
Proof. intros [c ->]. now repeat split. Qed.

Lemma OrderItem_add_to_order_run (order : Order.t) (currency : string) (db : DB) (db' : DB) :
  OrderItem_add_to_order order currency db = (inr tt, db') -> db' = db.
Proof.
  unfold OrderItem_add_to_order, bind, read, raise, ret.
  destruct (_ && _); intros H; now inversion H.
Qed.

Lemma get_or_create_run (lookup : OrderItem.t -> bool) (make : Pk -> OrderItem.t)
    (db db' : DB) (item : OrderItem.t) :
  get_or_create lookup make db = (inr item, db') ->
  (filter lookup (orderitems db) = [item] /\ db' = db) \/
  (filter lookup (orderitems db) = [] /\ item = make (next_pk db) /\
   db' = set_orderitems (set_next_pk db (S (next_pk db)))
           (save_row OrderItem.id item (orderitems db))).
Proof.
  unfold get_or_create, bind, read.
  destruct (filter lookup (orderitems db)) as [|x [|y l]] eqn:E; run; intros H;
    inversion H; subst; auto.
Qed.

(** What a successful [CourseRegCodeItem.add_to_order] did. *)
Lemma CourseRegCodeItem_add_to_order_run
    (order : Order.t) (course_id : CourseKey) (qty : Z) (mode_slug : string)
    (cost : option Money) (currency : option string)
    (db db' : DB) (order' : Order.t) (item : OrderItem.t) :
  CourseRegCodeItem_add_to_order env order course_id qty mode_slug cost currency db
    = (inr (order', item), db') ->
  same_but_currency order order' /\
  OrderItem.id item = next_pk db /\
  OrderItem.order item = Order.id order /\
  OrderItem.status item = Order.status order /\
  OrderItem.qty item = qty /\
  (exists m, OrderItem.kind item = CourseRegCodeItem course_id m) /\
  next_pk db' = S (next_pk db) /\
  effects db' = effects db /\
  orderitems db' =
    save_row OrderItem.id item
      (save_row OrderItem.id
         (OrderItem.create (next_pk db) (Order.id order) (Order.user order)
            (CourseRegCodeItem course_id (DEFAULT_MODE_SLUG env)))
         (orderitems db)).
Proof.
  unfold CourseRegCodeItem_add_to_order.
  destruct (get_course env course_id) as [crs|]; [|discriminate].
  intros H. apply bind_inr in H. destruct H as [contained [db1 [Hc H]]].
  unfold read in Hc. injection Hc as Econt Hdb. subst db1.
  destruct contained; [discriminate|].
  destruct (is_enrolled env (Order.user order) course_id); [discriminate|].
  apply bind_inr in H. destruct H as [[] [db1 [Hcur H]]].
  apply OrderItem_add_to_order_run in Hcur. subst db1.
  apply bind_inr in H. destruct H as [it0 [db1 [Hgoc H]]].
  apply get_or_create_run in Hgoc.
  destruct Hgoc as [[Hfound _] | [Hfound [Hit0 Hdb1]]].
  - (* a matching row would have been reported by contained_in_order *)
    exfalso.
    assert (Hin : In it0 (filter (fun i =>
                    is_courseregcodeitem i
                    && Nat.eqb (OrderItem.order i) (Order.id order)
                    && Nat.eqb (OrderItem.user i) (Order.user order)
                    && course_key_eqb (OrderItem.course_id i) course_id) (orderitems db)))
      by (rewrite Hfound; now left).
    apply filter_In in Hin. destruct Hin as [Hin Hl].
    apply andb_prop in Hl. destruct Hl as [Hl Hk].
    apply andb_prop in Hl. destruct Hl as [Hl _].
    apply andb_prop in Hl. destruct Hl as [Hcr Ho].
    unfold CourseRegCodeItem_contained_in_order in Econt.
    assert (Hex : existsb (course_key_eqb course_id)
              (map OrderItem.course_id
                 (filter is_courseregcodeitem (orderitem_set order db))) = true).
    { apply existsb_exists. exists (OrderItem.course_id it0). split.
      - apply in_map. apply filter_In. split; [|assumption].
        unfold orderitem_set. apply filter_In. now split.
      - now rewrite course_key_eqb_sym. }
    rewrite Hex in *. discriminate.
  - run. inversion H; subst. clear H. simpl.
    split; [eexists; reflexivity|].
    repeat split; try reflexivity. eexists. reflexivity.
Qed.

Lemma PaidCourseRegistration_add_to_order_order
    (order : Order.t) (course_id : CourseKey) (mode_slug : string)
    (cost : option Money) (currency : option string)
    (db db' : DB) (order' : Order.t) (item : OrderItem.t) :
  PaidCourseRegistration_add_to_order env order course_id mode_slug cost currency db
    = (inr (order', item), db') ->
  same_but_currency order order'.
Proof.
  unfold PaidCourseRegistration_add_to_order.
  destruct (get_course env course_id) as [crs|]; [|discriminate].
  intros H. apply bind_inr in H. destruct H as [contained [db1 [_ H]]].
  destruct contained; [discriminate|].
  destruct (is_enrolled env (Order.user order) course_id); [discriminate|].
  apply bind_inr in H. destruct H as [[] [db2 [_ H]]].
  apply bind_inr in H. destruct H as [it0 [db3 [_ H]]].
  run. inversion H; subst. eexists; reflexivity.
Qed.

Lemma to_bundle_step_order (st st' : Order.t * list OrderItem.t) (x : OrderItem.t)
    (db db' : DB) :
  to_bundle_step env st x db = (inr st', db') -> same_but_currency (fst st) (fst st').
Proof.
  destruct st as [o dels]. unfold to_bundle_step.
  destruct (is_paidcourseregistration x).
  - intros H. apply bind_inr in H. destruct H as [[o' it] [db1 [Hadd H]]].
    apply CourseRegCodeItem_add_to_order_run in Hadd.
    unfold ret in H. inversion H; subst. simpl. tauto.
  - unfold ret. intros H. inversion H; subst. apply same_but_currency_refl.
Qed.

Lemma to_single_step_order (st st' : Order.t * list OrderItem.t) (x : OrderItem.t)
    (db db' : DB) :
  to_single_step env st x db = (inr st', db') -> same_but_currency (fst st) (fst st').
Proof.
  destruct st as [o dels]. unfold to_single_step.
  destruct (is_courseregcodeitem x).
  - intros H. apply bind_inr in H. destruct H as [[o' it] [db1 [Hadd H]]].
    apply PaidCourseRegistration_add_to_order_order in Hadd.
    unfold ret in H. inversion H; subst. simpl. tauto.
  - unfold ret. intros H. inversion H; subst. apply same_but_currency_refl.
Qed.

(** The order instance after a successful [update_order_type]. *)
Lemma Order_update_order_type_order (self self' : Order.t) (db db' : DB) :
  Order_update_order_type env self db = (inr self', db') ->
  exists o, same_but_currency self o /\
    self' = Order.set_order_type o
              (if existsb (fun i => 1 <? OrderItem.qty i) (orderitem_set self db)
               then BUSINESS else PERSONAL).
Proof.
  unfold Order_update_order_type. intros H.
  apply bind_inr in H. destruct H as [cart_items [db0 [Hr H]]].
  unfold read in Hr. injection Hr as <- <-.
  apply bind_inr in H. destruct H as [[o dels] [db1 [Hfold H]]].
  apply bind_inr in H. destruct H as [ys [db2 [_ H]]].
  run. injection H as <- _. exists o. split; [|reflexivity].
  destruct (existsb _ _).
  - apply (for_fold_inv (to_bundle_step env)
             (fun st _ => same_but_currency self (fst st)) (orderitem_set self db))
      with (s := (self, [])) (db := db) (s' := (o, dels)) (db' := db1) in Hfold.
    + exact Hfold.
    + intros s x d s' d' _ Hs Hstep.
      eapply same_but_currency_trans; [exact Hs|]. eapply to_bundle_step_order; eauto.
    + apply same_but_currency_refl.
  - apply (for_fold_inv (to_single_step env)
             (fun st _ => same_but_currency self (fst st)) (orderitem_set self db))
      with (s := (self, [])) (db := db) (s' := (o, dels)) (db' := db1) in Hfold.
    + exact Hfold.
    + intros s x d s' d' _ Hs Hstep.
      eapply same_but_currency_trans; [exact Hs|]. eapply to_single_step_order; eauto.
    + apply same_but_currency_refl.
Qed.

(** ** Order.purchase *)

Lemma Order_purchase_unfold (self : Order.t)
    (first last street1 street2 city state postalcode country ccnum cardtype
       processor_reply_dump : string) :
  Order.status self <> purchased ->
  Order_purchase env self first last street1 street2 city state postalcode country
    ccnum cardtype processor_reply_dump =
  (let self := stamped env self first last street1 street2 city state postalcode country
                 ccnum cardtype processor_reply_dump in
   Order_save self ;;
   self <- (if order_type_eqb (Order.order_type self) BUSINESS
            then Order_update_order_type env self
            else ret self) ;;
   orderitems <- read (orderitem_set self) ;;
   for_each (OrderItem_purchase_item env) orderitems ;;
   emit (ConfirmationEmails (Order.id self)
           (order_type_eqb (Order.order_type self) BUSINESS)) ;;
   ret self).
Proof.
  intros Hst. apply status_eqb_neq in Hst. unfold Order_purchase. now rewrite Hst.
Qed.

Lemma Order_purchase_status (self self' : Order.t)
    (first last street1 street2 city state postalcode country ccnum cardtype
       processor_reply_dump : string) (db db' : DB) :
  Order_purchase env self first last street1 street2 city state postalcode country
    ccnum cardtype processor_reply_dump db = (inr self', db') ->
  Order.status self' = purchased.
Proof.
  destruct (status_eqb (Order.status self) purchased) eqn:Est.
  - unfold Order_purchase. rewrite Est. unfold ret. intros H. inversion H; subst.
    now apply status_eqb_eq.
  - apply status_eqb_neq in Est. rewrite (Order_purchase_unfold _ _ _ _ _ _ _ _ _ _ _ _ Est).
    cbv zeta. intros H.
    apply bind_inr in H. destruct H as [[] [db1 [_ H]]].
    apply bind_inr in H. destruct H as [o [db2 [Hupd H]]].
    apply bind_inr in H. destruct H as [its [db3 [_ H]]].
    apply bind_inr in H. destruct H as [ys [db4 [_ H]]].
    apply bind_inr in H. destruct H as [[] [db5 [_ H]]].
    unfold ret in H. injection H as <- _.
    destruct (order_type_eqb _ BUSINESS).
    + apply Order_update_order_type_order in Hupd.
      destruct Hupd as [o1 [Hsame ->]]. simpl.
      apply same_but_currency_fields in Hsame. now destruct Hsame as [_ [_ [-> _]]].
    + unfold ret in Hupd. now injection Hupd as <- _.
Qed.

(** C1.  [Order.purchase] on an order whose status is already 'purchased'
    returns at once: the order instance and the whole database (rows and
    the trace of fulfilment effects) are as before.  Hence after a first
    [purchase] that returned normally, a second call, with whatever billing
    arguments, changes nothing and runs no fulfilment callback. *)
Theorem purchase_twice_is_noop (self : Order.t) (db : DB)
    (first last street1 street2 city state postalcode country ccnum cardtype
       processor_reply_dump : string) :
  (Order.status self = purchased ->
   Order_purchase env self first last street1 street2 city state postalcode country
     ccnum cardtype processor_reply_dump db = (inr self, db)) /\
  (forall self' db',
     Order_purchase env self first last street1 street2 city state postalcode country
       ccnum cardtype processor_reply_dump db = (inr self', db') ->
     forall first2 last2 street12 street22 city2 state2 postalcode2 country2 ccnum2
            cardtype2 processor_reply_dump2,
       Order_purchase env self' first2 last2 street12 street22 city2 state2 postalcode2
         country2 ccnum2 cardtype2 processor_reply_dump2 db' = (inr self', db')).
Proof.
  assert (Hnoop : forall o d a1 a2 a3 a4 a5 a6 a7 a8 a9 a10 a11,
             Order.status o = purchased ->
             Order_purchase env o a1 a2 a3 a4 a5 a6 a7 a8 a9 a10 a11 d = (inr o, d)).
  { intros o d a1 a2 a3 a4 a5 a6 a7 a8 a9 a10 a11 Hst.
    unfold Order_purchase. now rewrite Hst. }
  split.
  - apply Hnoop.
  - intros self' db' Hrun. intros. apply Hnoop.
    eapply Order_purchase_status. exact Hrun.
Qed.

(** ** RegistrationCodeRedemption.add_reg_code_redemption *)

Lemma already_redeemed_filter (code : CourseRegistrationCode.t) (db : DB) :
  already_redeemed code db ->
  exists r l,
    filter (fun r => Nat.eqb (RegistrationCodeRedemption.registration_code r)
                       (CourseRegistrationCode.id code))
           (regcoderedemptions db) = r :: l.
Proof.
  intros [r [Hin Hr]].
  destruct (filter _ (regcoderedemptions db)) as [|r' l] eqn:E; [|now exists r', l].
  exfalso.
  assert (H : In r (filter (fun r => Nat.eqb (RegistrationCodeRedemption.registration_code r)
                       (CourseRegistrationCode.id code)) (regcoderedemptions db))).
  { apply filter_In. split; [assumption|]. now apply Nat.eqb_eq. }
  rewrite E in H. destruct H.
Qed.

Lemma add_reg_code_redemption_loop_redeemed
    (code : CourseRegistrationCode.t) (order : Order.t) (db : DB) :
  already_redeemed code db ->
  forall cart_items,
    add_reg_code_redemption_loop env code order cart_items db =
    (inl (if existsb (matches_course (CourseRegistrationCode.course_id code)) cart_items
          then RegCodeAlreadyExistException
          else ItemDoesNotExistAgainstRegCodeException),
     db).
Proof.
  intros Hred. destruct (already_redeemed_filter code db Hred) as [r [l Hf]].
  induction cart_items as [|item rest IH]; [reflexivity|].
  simpl. unfold matches_course at 1.
  destruct (truthy_key (OrderItem.course_id item)
            && course_key_eqb (OrderItem.course_id item)
                 (CourseRegistrationCode.course_id code)); simpl.
  - unfold bind, read. now rewrite Hf.
  - exact IH.
Qed.

(** C2, amended.  A registration code that already has a redemption record
    is never redeemed again: [add_reg_code_redemption] against any order
    raises and leaves the database as it was (no new record, every item's
    [unit_cost] and [list_price] untouched).  The exception is
    [RegCodeAlreadyExistException] when the order holds an item of the code's
    course, and [ItemDoesNotExistAgainstRegCodeException] when it holds none. *)
Theorem reg_code_redeemed_at_most_once
    (code : CourseRegistrationCode.t) (order : Order.t) (db : DB) :
  already_redeemed code db ->
  RegistrationCodeRedemption_add_reg_code_redemption env code order db =
  (inl (if existsb (matches_course (CourseRegistrationCode.course_id code))
             (orderitem_set order db)
        then RegCodeAlreadyExistException
        else ItemDoesNotExistAgainstRegCodeException),
   db).
Proof.
  intros Hred. unfold RegistrationCodeRedemption_add_reg_code_redemption, bind, read.
  now apply add_reg_code_redemption_loop_redeemed.
Qed.

(** ** CouponRedemption.add_coupon_redemption *)

Lemma check_loop_run (coupon : Coupon.t) (db : DB) (l : list CouponRedemption.t) :
  (forall r, In r l -> coupon_of r db <> None) ->
  for_each (check_coupon_redemption coupon) l db =
  if existsb (conflicts coupon db) l
  then (inl MultipleCouponsNotAllowedException, db)
  else (inr (map (fun _ => tt) l), db).
Proof.
  induction l as [|r l IH]; intros Hres; [reflexivity|].
  simpl. unfold bind at 1. unfold check_coupon_redemption at 1, bind, read, conflicts at 1.
  destruct (coupon_of r db) as [c|] eqn:Ec.
  - destruct (coupon_conflict c coupon); simpl; [reflexivity|].
    unfold ret at 1. rewrite IH by (intros r' Hr'; apply Hres; now right).
    destruct (existsb _ l); reflexivity.
  - exfalso. apply (Hres r); [now left | assumption].
Qed.

Lemma add_coupon_redemption_loop_returns
    (coupon : Coupon.t) (order : Order.t) (cart_items : list OrderItem.t) (db : DB) :
  exists b db', add_coupon_redemption_loop coupon order cart_items db = (inr b, db').
Proof.
  induction cart_items as [|item rest IH]; simpl.
  - now exists false, db.
  - destruct (_ && _); [|exact IH]. run. eauto.
Qed.

Lemma coupon_conflict_iff (c coupon : Coupon.t) :
  coupon_conflict c coupon = true <->
  Coupon.code c <> Coupon.code coupon \/ Coupon.id c = Coupon.id coupon.
Proof.
  unfold coupon_conflict. rewrite orb_true_iff, negb_true_iff, Nat.eqb_eq.
  destruct (String.eqb_spec (Coupon.code c) (Coupon.code coupon)); intuition congruence.
Qed.

(** C3.  With every redemption pointing to a coupon row,
    [add_coupon_redemption] raises [MultipleCouponsNotAllowedException]
    exactly when the order already has a redemption by its user whose coupon
    has a code different from the new coupon's code or the same id as the
    new coupon; it then leaves the database untouched.  In particular it
    raises when the redeemed coupon has another code, and when the new
    coupon is the redeemed one. *)
Theorem add_coupon_redemption_conflict
    (coupon : Coupon.t) (order : Order.t) (cart_items : list OrderItem.t) (db : DB) :
  coupons_resolve db ->
  let existing :=
    filter (coupon_redemption_of (Order.user order) order) (couponredemptions db) in
  let raises :=
    CouponRedemption_add_coupon_redemption coupon order cart_items db
    = (inl MultipleCouponsNotAllowedException, db) in
  (fst (CouponRedemption_add_coupon_redemption coupon order cart_items db)
   = inl MultipleCouponsNotAllowedException <-> raises) /\
  (raises <->
   exists r c, In r existing /\ coupon_of r db = Some c /\
               (Coupon.code c <> Coupon.code coupon \/ Coupon.id c = Coupon.id coupon)) /\
  (forall r c, In r existing -> coupon_of r db = Some c ->
               Coupon.code c <> Coupon.code coupon -> raises) /\
  (forall r, In r existing -> CouponRedemption.coupon r = Coupon.id coupon -> raises).
Proof.
  intros Hres existing raises.
  assert (Hrun :
    CouponRedemption_add_coupon_redemption coupon order cart_items db =
    if existsb (conflicts coupon db) existing
    then (inl MultipleCouponsNotAllowedException, db)
    else add_coupon_redemption_loop coupon order cart_items db).
  { unfold CouponRedemption_add_coupon_redemption. unfold bind at 1. unfold read.
    fold existing. unfold bind.
    rewrite check_loop_run.
    - destruct (existsb _ existing); reflexivity.
    - intros r Hr. apply Hres. unfold existing in Hr. apply filter_In in Hr. tauto. }
  assert (Hiff : raises <->
    exists r c, In r existing /\ coupon_of r db = Some c /\
                (Coupon.code c <> Coupon.code coupon \/ Coupon.id c = Coupon.id coupon)).
  { unfold raises. rewrite Hrun. split.
    - destruct (existsb (conflicts coupon db) existing) eqn:Eex.
      + intros _. apply existsb_exists in Eex. destruct Eex as [r [Hin Hc]].
        unfold conflicts in Hc. destruct (coupon_of r db) as [c|] eqn:Ec; [|discriminate].
        exists r, c. repeat split; try assumption. now apply coupon_conflict_iff.
      + destruct (add_coupon_redemption_loop_returns coupon order cart_items db)
          as [b [db' ->]]. discriminate.
    - intros [r [c [Hin [Hc Hcond]]]].
      assert (Eex : existsb (conflicts coupon db) existing = true).
      { apply existsb_exists. exists r. split; [assumption|].
        unfold conflicts. rewrite Hc. now apply coupon_conflict_iff. }
      now rewrite Eex. }
  split; [|split; [exact Hiff|split]].
  - split.
    + unfold raises. rewrite Hrun.
      destruct (existsb (conflicts coupon db) existing); [reflexivity|].
      destruct (add_coupon_redemption_loop_returns coupon order cart_items db)
        as [b [db' ->]]. discriminate.
    + unfold raises. now intros ->.
  - intros r c Hin Hc Hne. apply Hiff. exists r, c. auto.
  - intros r Hin Hsame. apply Hiff.
    assert (Hr : coupon_of r db <> None).
    { apply Hres. unfold existing in Hin. apply filter_In in Hin. tauto. }
    destruct (coupon_of r db) as [c|] eqn:Ec; [|congruence].
    exists r, c. repeat split; try assumption. right.
    unfold coupon_of in Ec. apply find_some in Ec. destruct Ec as [_ Ec].
    apply Nat.eqb_eq in Ec. congruence.
Qed.

(** ** Order.reset_cart_items_prices *)

Section UniqueRows.
Context {R : Type} (pk : R -> Pk).

Lemma map_pk_save_row_present (r : R) (table : list R) :
  In (pk r) (map pk table) -> map pk (save_row pk r table) = map pk table.
Proof.
  intros Hin. unfold save_row.
  assert (E : existsb (fun x => Nat.eqb (pk x) (pk r)) table = true).
  { apply in_map_iff in Hin. destruct Hin as [x [Hx Hin]].
    apply existsb_exists. exists x. split; [assumption|]. now apply Nat.eqb_eq. }
  rewrite E, map_map. apply map_ext_in. intros x _.
  destruct (Nat.eqb (pk x) (pk r)) eqn:Ex; [|reflexivity].
  apply Nat.eqb_eq in Ex. congruence.
Qed.

Lemma save_row_absent (r : R) (table : list R) :
  ~ In (pk r) (map pk table) -> save_row pk r table = table ++ [r].
Proof.
  intros Hn. unfold save_row.
  destruct (existsb (fun x => Nat.eqb (pk x) (pk r)) table) eqn:E; [|reflexivity].
  exfalso. apply Hn. apply existsb_exists in E. destruct E as [x [Hin Hx]].
  apply Nat.eqb_eq in Hx. rewrite <- Hx. now apply in_map.
Qed.

Lemma NoDup_save_row (r : R) (table : list R) :
  NoDup (map pk table) -> NoDup (map pk (save_row pk r table)).
Proof.
  intros Hnd. destruct (in_dec Nat.eq_dec (pk r) (map pk table)) as [Hin | Hn].
  - now rewrite map_pk_save_row_present.
  - rewrite (save_row_absent _ _ Hn), map_app. simpl.
    apply NoDup_app; [assumption | repeat constructor; intros [] | ].
    intros x Hx [<- | []]. contradiction.
Qed.

(** Saving a changed copy of a row of a table with unique keys rewrites
    that row and no other. *)
Lemma save_row_unique (r r' : R) (table : list R) :
  NoDup (map pk table) -> In r table -> pk r' = pk r ->
  save_row pk r' table =
  map (fun x => if Nat.eqb (pk x) (pk r) then r' else x) table.
Proof.
  intros _ Hin Hpk. unfold save_row.
  assert (E : existsb (fun x => Nat.eqb (pk x) (pk r')) table = true).
  { apply existsb_exists. exists r. split; [assumption|]. apply Nat.eqb_eq. congruence. }
  rewrite E, Hpk. reflexivity.
Qed.

Lemma NoDup_map_in_eq (x y : R) (table : list R) :
  NoDup (map pk table) -> In x table -> In y table -> pk x = pk y -> x = y.
Proof.
  induction table as [|z table IH]; simpl; [tauto|].
  intros Hnd [-> | Hx] [-> | Hy] Hpk; try reflexivity.
  - inversion Hnd as [|? ? Hn _]; subst. exfalso. apply Hn.
    rewrite Hpk. now apply in_map.
  - inversion Hnd as [|? ? Hn _]; subst. exfalso. apply Hn.
    rewrite <- Hpk. now apply in_map.
  - inversion Hnd; subst. now apply IH.
Qed.
End UniqueRows.

(** A loop over rows [todo] of the item table whose turn on [x] saves the
    changed copy [f x] (or saves nothing when [f x] is [x]) rewrites exactly
    the listed rows, provided primary keys are unique. *)
Lemma row_rewriting_loop {B : Type} (body : OrderItem.t -> M B)
    (f : OrderItem.t -> OrderItem.t) :
  (forall x, OrderItem.id (f x) = OrderItem.id x) ->
  forall todo,
  (forall x d y d', In x todo -> body x d = (inr y, d') ->
     orderitems d' = save_row OrderItem.id (f x) (orderitems d) \/
     (orderitems d' = orderitems d /\ f x = x)) ->
  NoDup (map OrderItem.id todo) ->
  forall db ys db',
  (forall x, In x todo -> In x (orderitems db)) ->
  unique_item_ids db ->
  for_each body todo db = (inr ys, db') ->
  orderitems db' = map (fun i => if listed todo i then f i else i) (orderitems db).
Proof.
  intros Hid. induction todo as [|x todo IH]; intros Hbody Hnd db ys db' Hin Huniq Hrun.
  - simpl in Hrun. unfold ret in Hrun. injection Hrun as _ <-.
    simpl. now rewrite map_id.
  - simpl in Hrun. apply bind_inr in Hrun. destruct Hrun as [y [db1 [Hx Hrun]]].
    apply bind_inr in Hrun. destruct Hrun as [ys' [db2 [Hl Hrun]]].
    unfold ret in Hrun. injection Hrun as _ <-.
    inversion Hnd as [|? ? Hnx Hnd']; subst.
    assert (Hx_in : In x (orderitems db)) by (apply Hin; now left).
    assert (Hdb1 : orderitems db1 =
              map (fun i => if Nat.eqb (OrderItem.id i) (OrderItem.id x) then f x else i)
                  (orderitems db)).
    { destruct (Hbody x db y db1 (or_introl eq_refl) Hx) as [Hs | [Hs Hfx]].
      - rewrite Hs. now apply save_row_unique.
      - rewrite Hs, Hfx. symmetry. rewrite <- (map_id (orderitems db)) at 2.
        apply map_ext_in. intros i Hi.
        destruct (Nat.eqb (OrderItem.id i) (OrderItem.id x)) eqn:E; [|reflexivity].
        apply Nat.eqb_eq in E. symmetry.
        now apply (NoDup_map_in_eq OrderItem.id i x (orderitems db)). }
    assert (Hids : map OrderItem.id (orderitems db1) = map OrderItem.id (orderitems db)).
    { rewrite Hdb1, map_map. apply map_ext_in. intros i _.
      destruct (Nat.eqb (OrderItem.id i) (OrderItem.id x)) eqn:E; [|reflexivity].
      apply Nat.eqb_eq in E. now rewrite Hid. }
    rewrite (IH (fun x0 d y0 d' H0 => Hbody x0 d y0 d' (or_intror H0)) Hnd' db1 ys' db2);
      try assumption.
    + rewrite Hdb1, map_map. apply map_ext_in. intros i Hi. simpl.
      destruct (Nat.eqb (OrderItem.id i) (OrderItem.id x)) eqn:E.
      * apply Nat.eqb_eq in E.
        assert (i = x) by now apply (NoDup_map_in_eq OrderItem.id i x (orderitems db)).
        subst i. rewrite Nat.eqb_refl. simpl.
        assert (Hnl : listed todo (f x) = false).
        { unfold listed. apply not_true_is_false. intros Hex.
          apply existsb_exists in Hex. destruct Hex as [z [Hz Hzx]].
          apply Nat.eqb_eq in Hzx. rewrite Hid in Hzx.
          apply Hnx. rewrite <- Hzx. now apply in_map. }
        now rewrite Hnl.
      * rewrite Nat.eqb_sym, E. reflexivity.
    + intros z Hz. rewrite Hdb1. apply in_map_iff. exists z.
      split; [|apply Hin; now right].
      destruct (Nat.eqb (OrderItem.id z) (OrderItem.id x)) eqn:E; [|reflexivity].
      apply Nat.eqb_eq in E. exfalso. apply Hnx. rewrite <- E. now apply in_map.
    + unfold unique_item_ids. now rewrite Hids.
Qed.

(** Such a loop keeps the column of item keys, unique or not: it rewrites
    rows under their own keys and neither adds nor removes one. *)
Lemma row_saving_loop_keys {B : Type} (body : OrderItem.t -> M B)
    (f : OrderItem.t -> OrderItem.t) :
  (forall x, OrderItem.id (f x) = OrderItem.id x) ->
  forall todo,
  (forall x d y d', In x todo -> body x d = (inr y, d') ->
     orderitems d' = save_row OrderItem.id (f x) (orderitems d)) ->
  forall db ys db',
  for_each body todo db = (inr ys, db') ->
  (forall x, In x todo -> In (OrderItem.id x) (map OrderItem.id (orderitems db))) ->
  map OrderItem.id (orderitems db') = map OrderItem.id (orderitems db).
Proof.
  intros Hid. induction todo as [|x todo IH]; intros Hbody db ys db' Hrun Hin.
  - simpl in Hrun. unfold ret in Hrun. now injection Hrun as _ <-.
  - simpl in Hrun. apply bind_inr in Hrun. destruct Hrun as [y [db1 [Hx Hrun]]].
    apply bind_inr in Hrun. destruct Hrun as [ys' [db2 [Hl Hrun]]].
    unfold ret in Hrun. injection Hrun as _ <-.
    assert (Hkeys : map OrderItem.id (orderitems db1) = map OrderItem.id (orderitems db)).
    { rewrite (Hbody x db y db1 (or_introl eq_refl) Hx).
      apply map_pk_save_row_present. rewrite Hid. exact (Hin x (or_introl eq_refl)). }
    rewrite (IH (fun x0 d y0 d' H0 => Hbody x0 d y0 d' (or_intror H0)) db1 ys' db2 Hl);
      [exact Hkeys|].
    intros z Hz. rewrite Hkeys. apply Hin. now right.
Qed.

Lemma NoDup_map_filter {A B : Type} (g : A -> B) (p : A -> bool) (l : list A) :
  NoDup (map g l) -> NoDup (map g (filter p l)).
Proof.
  induction l as [|x l IH]; simpl; [trivial|].
  intros Hnd. inversion Hnd as [|? ? Hn Hnd']; subst.
  destruct (p x); simpl; [|now apply IH].
  constructor; [|now apply IH].
  intros Hin. apply Hn. apply in_map_iff in Hin. destruct Hin as [y [Hy Hin]].
  apply filter_In in Hin. rewrite <- Hy. apply in_map. tauto.
Qed.

(** For a row of the table, being listed among the rows of an order is
    belonging to that order. *)
Lemma listed_orderitem_set (order : Order.t) (db : DB) (i : OrderItem.t) :
  unique_item_ids db -> In i (orderitems db) ->
  listed (orderitem_set order db) i = Nat.eqb (OrderItem.order i) (Order.id order).
Proof.
  intros Hu Hi. unfold listed.
  destruct (Nat.eqb (OrderItem.order i) (Order.id order)) eqn:E.
  - apply existsb_exists. exists i. split; [|apply Nat.eqb_refl].
    unfold orderitem_set. apply filter_In. now split.
  - apply not_true_is_false. intros Hex. apply existsb_exists in Hex.
    destruct Hex as [z [Hz Hzi]]. apply Nat.eqb_eq in Hzi.
    unfold orderitem_set in Hz. apply filter_In in Hz. destruct Hz as [Hz Hzo].
    assert (z = i) by now apply (NoDup_map_in_eq OrderItem.id z i (orderitems db)).
    subst z. congruence.
Qed.

Lemma reset_price_truthy (item : OrderItem.t) :
  reset_price item =
  if truthy_money (OrderItem.list_price item)
  then OrderItem.set_list_price
         (OrderItem.set_unit_cost item
            (match OrderItem.list_price item with Some p => p | None => 0 end)) None
  else item.
Proof.
  unfold reset_price, truthy_money.
  destruct (OrderItem.list_price item) as [p|]; [|reflexivity].
  now destruct (p =? 0).
Qed.

Lemma reset_price_id (item : OrderItem.t) :
  OrderItem.id (reset_price item) = OrderItem.id item.
Proof.
  unfold reset_price. destruct (OrderItem.list_price item) as [p|]; [|reflexivity].
  now destruct (p =? 0).
Qed.

Lemma Order_reset_cart_items_prices_run (self : Order.t) (db : DB) :
  unique_item_ids db ->
  exists db',
    Order_reset_cart_items_prices self db = (inr tt, db') /\
    orderitems db' =
      map (fun i => if Nat.eqb (OrderItem.order i) (Order.id self)
                    then reset_price i else i) (orderitems db) /\
    orders db' = orders db /\
    couponredemptions db' = couponredemptions db /\
    regcoderedemptions db' = regcoderedemptions db /\
    effects db' = effects db.
Proof.
  intros Hu. unfold Order_reset_cart_items_prices.
  set (body := fun item : OrderItem.t =>
         if truthy_money (OrderItem.list_price item)
         then
           (let item0 := OrderItem.set_unit_cost item
                          (match OrderItem.list_price item with Some p => p | None => 0 end) in
            let item1 := OrderItem.set_list_price item0 None in
            OrderItem_save item1 ;; ret item1)
         else ret item).
  assert (Hbody : forall x d, body x d =
            (inr (reset_price x),
             if truthy_money (OrderItem.list_price x)
             then set_orderitems d (save_row OrderItem.id (reset_price x) (orderitems d))
             else d)).
  { intros x d. unfold body. rewrite reset_price_truthy.
    destruct (truthy_money (OrderItem.list_price x)); reflexivity. }
  destruct (for_each_total body (orderitem_set self db)) with (db := db) as [ys [db' Hrun]].
  { intros x d _. rewrite Hbody. eauto. }
  exists db'. split; [|split].
  - unfold bind at 1. unfold read. fold body. rewrite (bind_run _ _ _ _ _ Hrun). reflexivity.
  - rewrite (row_rewriting_loop body reset_price reset_price_id (orderitem_set self db))
      with (db := db) (ys := ys) (db' := db'); try assumption.
    + apply map_ext_in. intros i Hi. now rewrite listed_orderitem_set.
    + intros x d y d' _ Hx. rewrite Hbody in Hx. injection Hx as _ <-.
      rewrite (reset_price_truthy x).
      destruct (truthy_money (OrderItem.list_price x)); [left|right]; now simpl.
    + apply NoDup_map_filter. exact Hu.
    + intros x Hx. unfold orderitem_set in Hx. apply filter_In in Hx. tauto.
  - apply (for_each_inv body
             (fun d => orders d = orders db /\ couponredemptions d = couponredemptions db /\
                       regcoderedemptions d = regcoderedemptions db /\
                       effects d = effects db) (orderitem_set self db))
      with (db := db) (ys := ys); [|now repeat split|exact Hrun].
    intros x d y d' _ Hd Hx. rewrite Hbody in Hx. injection Hx as _ <-.
    destruct (truthy_money (OrderItem.list_price x)); exact Hd.
Qed.

Lemma get_discount_price_zero (percentage_discount : Z) :
  CouponRedemption_get_discount_price percentage_discount 0 = 0.
Proof.
  unfold CouponRedemption_get_discount_price, Decimal.mul, Decimal.of_cents.
  destruct (Decimal_of_float (float_div percentage_discount 100)) as [m e].
  cbn [Decimal.coeff Decimal.exp]. rewrite Z.mul_0_r.
  unfold Decimal._fix. cbn [Decimal.coeff Decimal.exp].
  change (num_digits (Z.abs 0) <=? Decimal.prec) with true. cbv iota.
  unfold Decimal.format_2f. cbn [Decimal.coeff Decimal.exp].
  destruct (e + -2 <? -2).
  - unfold div_half_even. change (Z.sgn 0) with 0. now rewrite Z.mul_0_l.
  - now rewrite Z.mul_0_l.
Qed.

Lemma reset_after_coupon (coupon : Coupon.t) (item : OrderItem.t) :
  OrderItem.unit_cost (reset_price (coupon_discounted coupon item)) = OrderItem.unit_cost item /\
  (OrderItem.unit_cost item <> 0 ->
   OrderItem.list_price (reset_price (coupon_discounted coupon item)) = None).
Proof.
  unfold reset_price, coupon_discounted. simpl.
  destruct (OrderItem.unit_cost item =? 0) eqn:E; simpl.
  - apply Z.eqb_eq in E. rewrite E. split; [apply get_discount_price_zero | congruence].
  - now split.
Qed.

Lemma reset_after_reg_code (item : OrderItem.t) :
  OrderItem.unit_cost (reset_price (reg_code_discounted item)) = OrderItem.unit_cost item /\
  (OrderItem.unit_cost item <> 0 ->
   OrderItem.list_price (reset_price (reg_code_discounted item)) = None).
Proof.
  unfold reset_price, reg_code_discounted. simpl.
  destruct (OrderItem.unit_cost item =? 0) eqn:E; simpl.
  - apply Z.eqb_eq in E. rewrite E. split; [reflexivity | congruence].
  - now split.
Qed.

(** What a coupon redemption that found an item did to the database. *)
Lemma add_coupon_redemption_loop_applied
    (coupon : Coupon.t) (order : Order.t) (cart_items : list OrderItem.t) (db db1 : DB) :
  add_coupon_redemption_loop coupon order cart_items db = (inr true, db1) ->
  exists item,
    In item cart_items /\
    matches_course (Coupon.course_id coupon) item = true /\
    orderitems db1 = save_row OrderItem.id (coupon_discounted coupon item) (orderitems db).
Proof.
  induction cart_items as [|item rest IH]; simpl.
  - unfold ret. discriminate.
  - destruct (truthy_key (OrderItem.course_id item)
              && course_key_eqb (OrderItem.course_id item) (Coupon.course_id coupon)) eqn:E.
    + run. intros H. injection H as <-. exists item. now repeat split; auto.
    + intros H. destruct (IH H) as [it [Hin Hit]]. exists it. split; [now right|assumption].
Qed.

Lemma check_loop_frame (coupon : Coupon.t) (l : list CouponRedemption.t) (db db' : DB)
    (ys : list unit) :
  for_each (check_coupon_redemption coupon) l db = (inr ys, db') -> db' = db.
Proof.
  apply (for_each_inv (check_coupon_redemption coupon) (fun d => d = db) l); [|reflexivity].
  intros x d y d' _ -> H. unfold check_coupon_redemption, bind, read in H.
  destruct (coupon_of x db); [|discriminate].
  destruct (coupon_conflict _ _); [discriminate|]. unfold ret in H. now injection H.
Qed.

Lemma add_coupon_redemption_applied
    (coupon : Coupon.t) (order : Order.t) (cart_items : list OrderItem.t) (db db1 : DB) :
  CouponRedemption_add_coupon_redemption coupon order cart_items db = (inr true, db1) ->
  exists item,
    In item cart_items /\
    matches_course (Coupon.course_id coupon) item = true /\
    orderitems db1 = save_row OrderItem.id (coupon_discounted coupon item) (orderitems db).
Proof.
  unfold CouponRedemption_add_coupon_redemption. intros H.
  apply bind_inr in H. destruct H as [rs [db0 [Hr H]]].
  unfold read in Hr. injection Hr as <- <-.
  apply bind_inr in H. destruct H as [ys [db0 [Hchk H]]].
  apply check_loop_frame in Hchk. subst db0.
  now apply add_coupon_redemption_loop_applied in H.
Qed.

(** What a successful registration code redemption did to the database. *)
Lemma add_reg_code_redemption_applied
    (code c : CourseRegistrationCode.t) (order : Order.t) (db db1 : DB) :
  RegistrationCodeRedemption_add_reg_code_redemption env code order db = (inr c, db1) ->
  exists item,
    In item (orderitem_set order db) /\
    matches_course (CourseRegistrationCode.course_id code) item = true /\
    orderitems db1 = save_row OrderItem.id (reg_code_discounted item) (orderitems db).
Proof.
  unfold RegistrationCodeRedemption_add_reg_code_redemption, bind at 1, read.
  generalize (orderitem_set order db) as cart_items.
  induction cart_items as [|item rest IH]; simpl.
  - unfold raise. discriminate.
  - destruct (truthy_key (OrderItem.course_id item)
              && course_key_eqb (OrderItem.course_id item)
                   (CourseRegistrationCode.course_id code)) eqn:E.
    + unfold bind at 1, read.
      destruct (filter _ (regcoderedemptions db)); [|discriminate].
      run. intros H. injection H as _ <-. exists item. now repeat split; auto.
    + intros H. destruct (IH H) as [it [Hin Hit]]. exists it. split; [now right|assumption].
Qed.

(** After a discount was applied to [item] of order [self] (its changed copy
    [item'] saved), [reset_cart_items_prices] gives the row its price back. *)
Lemma reset_after_discount (self : Order.t) (item item' : OrderItem.t) (db db1 : DB) :
  unique_item_ids db ->
  In item (orderitem_set self db) ->
  OrderItem.id item' = OrderItem.id item ->
  OrderItem.order item' = OrderItem.order item ->
  orderitems db1 = save_row OrderItem.id item' (orderitems db) ->
  exists db2,
    Order_reset_cart_items_prices self db1 = (inr tt, db2) /\
    In (reset_price item') (orderitems db2) /\
    (forall j, In j (orderitems db2) -> OrderItem.id j = OrderItem.id item ->
               j = reset_price item').
Proof.
  intros Hu Hin Hid Hord Hdb1.
  unfold orderitem_set in Hin. apply filter_In in Hin. destruct Hin as [Hin Ho].
  assert (Hu1 : unique_item_ids db1).
  { unfold unique_item_ids. rewrite Hdb1. now apply NoDup_save_row. }
  assert (Hin1 : In item' (orderitems db1)) by (rewrite Hdb1; apply save_row_in).
  destruct (Order_reset_cart_items_prices_run self db1 Hu1) as [db2 [Hrun [Hrows _]]].
  exists db2. split; [assumption|]. rewrite Hrows. split.
  - apply in_map_iff. exists item'. split; [|assumption]. now rewrite Hord, Ho.
  - intros j Hj Hjid. apply in_map_iff in Hj. destruct Hj as [i [Hi Hi1]].
    assert (i = item').
    { apply (NoDup_map_in_eq OrderItem.id i item' (orderitems db1)); try assumption.
      rewrite Hid, <- Hjid, <- Hi.
      destruct (Nat.eqb (OrderItem.order i) (Order.id self)); [|reflexivity].
      symmetry. apply reset_price_id. }
    subst i. now rewrite Hord, Ho in Hi.
Qed.

(** C10, amended.  With unique primary keys, [reset_cart_items_prices]
    returns normally and rewrites the rows of the order, and only those:
    a row whose [list_price] is set and not zero gets that [list_price] as
    its [unit_cost] and [None] as its [list_price]; a row whose [list_price]
    is unset or zero is left as it is ([reset_price]).  After a coupon or a
    registration code was applied to an item of the order, the reset gives
    that item the [unit_cost] it had before the discount (and clears its
    [list_price] when that cost is not zero). *)
Theorem reset_cart_items_prices_spec (self : Order.t) (db : DB) :
  unique_item_ids db ->
  (exists db',
     Order_reset_cart_items_prices self db = (inr tt, db') /\
     orderitems db' =
       map (fun i => if Nat.eqb (OrderItem.order i) (Order.id self)
                     then reset_price i else i) (orderitems db)) /\
  (forall coupon db1,
     CouponRedemption_add_coupon_redemption coupon self (orderitem_set self db) db
       = (inr true, db1) ->
     exists item db2,
       In item (orderitem_set self db) /\
       In (coupon_discounted coupon item) (orderitems db1) /\
       Order_reset_cart_items_prices self db1 = (inr tt, db2) /\
       (exists j, In j (orderitems db2) /\ OrderItem.id j = OrderItem.id item) /\
       (forall j, In j (orderitems db2) -> OrderItem.id j = OrderItem.id item ->
                  OrderItem.unit_cost j = OrderItem.unit_cost item /\
                  (OrderItem.unit_cost item <> 0 -> OrderItem.list_price j = None))) /\
  (forall code c db1,
     RegistrationCodeRedemption_add_reg_code_redemption env code self db = (inr c, db1) ->
     exists item db2,
       In item (orderitem_set self db) /\
       In (reg_code_discounted item) (orderitems db1) /\
       Order_reset_cart_items_prices self db1 = (inr tt, db2) /\
       (exists j, In j (orderitems db2) /\ OrderItem.id j = OrderItem.id item) /\
       (forall j, In j (orderitems db2) -> OrderItem.id j = OrderItem.id item ->
                  OrderItem.unit_cost j = OrderItem.unit_cost item /\
                  (OrderItem.unit_cost item <> 0 -> OrderItem.list_price j = None))).
Proof.
  intros Hu. split; [|split].
  - destruct (Order_reset_cart_items_prices_run self db Hu) as [db' [Hrun [Hrows _]]].
    now exists db'.
  - intros coupon db1 Happ.
    apply add_coupon_redemption_applied in Happ. destruct Happ as [item [Hin [_ Hdb1]]].
    destruct (reset_after_discount self item (coupon_discounted coupon item) db db1)
      as [db2 [Hrun [Hin2 Hall]]]; try assumption; try reflexivity.
    exists item, db2. split; [assumption|]. split; [rewrite Hdb1; apply save_row_in|].
    split; [assumption|]. split.
    + exists (reset_price (coupon_discounted coupon item)). split; [assumption|].
      now rewrite reset_price_id.
    + intros j Hj Hjid. rewrite (Hall j Hj Hjid). apply reset_after_coupon.
  - intros code c db1 Happ.
    apply add_reg_code_redemption_applied in Happ. destruct Happ as [item [Hin [_ Hdb1]]].
    destruct (reset_after_discount self item (reg_code_discounted item) db db1)
      as [db2 [Hrun [Hin2 Hall]]]; try assumption; try reflexivity.
    exists item, db2. split; [assumption|]. split; [rewrite Hdb1; apply save_row_in|].
    split; [assumption|]. split.
    + exists (reset_price (reg_code_discounted item)). split; [assumption|].
      now rewrite reset_price_id.
    + intros j Hj Hjid. rewrite (Hall j Hj Hjid). apply reset_after_reg_code.
Qed.

(** ** The reclassification pass inside Order.purchase *)

Lemma for_each_emit_frame {A : Type} (g : A -> Effect) (l : list A) (db : DB) :
  exists ys db',
    for_each (fun x => emit (g x)) l db = (inr ys, db') /\
    orderitems db' = orderitems db /\ orders db' = orders db /\ next_pk db' = next_pk db.
Proof.
  revert db. induction l as [|x l IH]; intros db.
  - exists [], db. now repeat split.
  - destruct (IH (set_effects db (effects db ++ [g x]))) as [ys [db' [Hrun H]]].
    exists (tt :: ys), db'. split; [|exact H].
    simpl. unfold bind at 1. unfold emit at 1, write.
    now rewrite (bind_run _ _ _ _ _ Hrun).
Qed.

Lemma purchased_callback_frame (item : OrderItem.t) (db db' : DB) :
  purchased_callback env item db = (inr tt, db') ->
  orderitems db' = orderitems db /\ orders db' = orders db /\ next_pk db' = next_pk db.
Proof.
  unfold purchased_callback.
  destruct (OrderItem.kind item) as [c m | c m | c e m | t c].
  - destruct (has_course env c); simpl; [|discriminate].
    run. intros H. injection H as <-. now repeat split.
  - destruct (has_course env c); simpl; [|discriminate].
    intros H. apply bind_inr in H. destruct H as [ys [db1 [Hloop H]]].
    unfold ret in H. injection H as <-.
    destruct (for_each_emit_frame
                (fun _ : nat => SaveRegistrationCode (OrderItem.user item) c (OrderItem.order item))
                (seq 0 (Z.to_nat (OrderItem.qty item))) db) as [ys' [db'' [Hrun Hfr]]].
    rewrite Hrun in Hloop. injection Hloop as _ <-. exact Hfr.
  - run. intros H. injection H as <-. now repeat split.
  - unfold ret. intros H. injection H as <-. now repeat split.
Qed.

Lemma OrderItem_purchase_item_run (item y : OrderItem.t) (db db' : DB) :
  OrderItem_purchase_item env item db = (inr y, db') ->
  y = purchased_copy env item /\
  orderitems db' = save_row OrderItem.id (purchased_copy env item) (orderitems db) /\
  orders db' = orders db /\ next_pk db' = next_pk db.
Proof.
  unfold OrderItem_purchase_item. intros H.
  apply bind_inr in H. destruct H as [[] [db1 [Hcb H]]].
  apply purchased_callback_frame in Hcb. destruct Hcb as [Hi [Ho Hn]].
  run. injection H as <- <-. simpl. rewrite Hi, Ho, Hn. now repeat split.
Qed.

(** The loop of [purchase] over the rows of the order. *)
Lemma purchase_loop_run (self : Order.t) (db db' : DB) (ys : list OrderItem.t) :
  unique_item_ids db ->
  for_each (OrderItem_purchase_item env) (orderitem_set self db) db = (inr ys, db') ->
  orderitems db' =
    map (fun i => if Nat.eqb (OrderItem.order i) (Order.id self)
                  then purchased_copy env i else i) (orderitems db) /\
  orders db' = orders db.
Proof.
  intros Hu Hrun. split.
  - rewrite (row_rewriting_loop (OrderItem_purchase_item env) (purchased_copy env)
               (fun x => eq_refl) (orderitem_set self db))
      with (db := db) (ys := ys) (db' := db'); try assumption.
    + apply map_ext_in. intros i Hi. now rewrite listed_orderitem_set.
    + intros x d y d' _ Hx. left. now apply OrderItem_purchase_item_run in Hx.
    + apply NoDup_map_filter. exact Hu.
    + intros x Hx. unfold orderitem_set in Hx. apply filter_In in Hx. tauto.
  - apply (for_each_inv (OrderItem_purchase_item env) (fun d => orders d = orders db)
             (orderitem_set self db)) with (db := db) (ys := ys); [|reflexivity|exact Hrun].
    intros x d y d' _ Hd Hx. apply OrderItem_purchase_item_run in Hx.
    destruct Hx as [_ [_ [Ho _]]]. congruence.
Qed.

Lemma filter_listed_nil (l : list OrderItem.t) :
  filter (fun r => negb (listed [] r)) l = l.
Proof.
  induction l as [|r l IH]; [reflexivity|].
  change (r :: filter (fun r => negb (listed [] r)) l = r :: l). now f_equal.
Qed.

Lemma filter_listed_cons (x : OrderItem.t) (dels l : list OrderItem.t) :
  filter (fun r => negb (listed dels r)) (delete_row OrderItem.id x l) =
  filter (fun r => negb (listed (x :: dels) r)) l.
Proof.
  unfold delete_row, listed. induction l as [|r l IH]; simpl; [reflexivity|].
  rewrite (Nat.eqb_sym (OrderItem.id x) (OrderItem.id r)).
  destruct (Nat.eqb (OrderItem.id r) (OrderItem.id x)); simpl; [exact IH|].
  destruct (existsb _ dels); simpl; [exact IH | now rewrite IH].
Qed.

(** The loop of [update_order_type] that deletes the replaced rows. *)
Lemma delete_loop_run (dels : list OrderItem.t) (db : DB) :
  exists ys db',
    for_each OrderItem_delete dels db = (inr ys, db') /\
    orderitems db' = filter (fun r => negb (listed dels r)) (orderitems db) /\
    orders db' = orders db /\ next_pk db' = next_pk db /\ effects db' = effects db.
Proof.
  revert db. induction dels as [|x dels IH]; intros db.
  - exists [], db. repeat split; try reflexivity. now rewrite filter_listed_nil.
  - destruct (IH (set_orderitems db (delete_row OrderItem.id x (orderitems db))))
      as [ys [db' [Hrun [Hrows [Ho [Hn He]]]]]].
    exists (tt :: ys), db'. split; [|split; [|now repeat split]].
    + simpl. unfold bind at 1. unfold OrderItem_delete at 1, write.
      now rewrite (bind_run _ _ _ _ _ Hrun).
    + rewrite Hrows. simpl orderitems. apply filter_listed_cons.
Qed.

(** With fresh keys, the bundle factory appends its new row. *)
Lemma CourseRegCodeItem_add_to_order_appends
    (order : Order.t) (course_id : CourseKey) (qty : Z) (mode_slug : string)
    (cost : option Money) (currency : option string)
    (db db' : DB) (order' : Order.t) (item : OrderItem.t) :
  ids_below_counter db ->
  CourseRegCodeItem_add_to_order env order course_id qty mode_slug cost currency db
    = (inr (order', item), db') ->
  orderitems db' = orderitems db ++ [item].
Proof.
  intros Hbelow Hrun. apply CourseRegCodeItem_add_to_order_run in Hrun.
  destruct Hrun as [_ [Hid [_ [_ [_ [_ [_ [_ Hrows]]]]]]]].
  rewrite Hrows.
  assert (Hfresh : ~ In (next_pk db) (map OrderItem.id (orderitems db))).
  { intros Hin. apply in_map_iff in Hin. destruct Hin as [r [Hr Hin]].
    apply Hbelow in Hin. lia. }
  rewrite (save_row_absent OrderItem.id
             (OrderItem.create (next_pk db) (Order.id order) (Order.user order)
                (CourseRegCodeItem course_id (DEFAULT_MODE_SLUG env)))) by exact Hfresh.
  unfold save_row. rewrite existsb_app. simpl. rewrite Hid, Nat.eqb_refl, orb_true_r. simpl.
  rewrite map_app. simpl. rewrite Nat.eqb_refl. f_equal.
  rewrite <- (map_id (orderitems db)) at 2. apply map_ext_in. intros r Hr.
  destruct (Nat.eqb (OrderItem.id r) (next_pk db)) eqn:E; [|reflexivity].
  apply Nat.eqb_eq in E. apply Hbelow in Hr. lia.
Qed.

(** The loop of the business branch of [update_order_type]: every
    single-seat row it visits gets a bundle row with a fresh key, and the
    rows present before the loop are not touched. *)
Lemma to_bundle_fold (todo : list OrderItem.t) :
  forall o dels db o' dels' db',
  wf_items db ->
  for_fold (to_bundle_step env) (o, dels) todo db = (inr (o', dels'), db') ->
  wf_items db' /\ (next_pk db <= next_pk db')%nat /\
  same_but_currency o o' /\
  dels' = dels ++ filter is_paidcourseregistration todo /\
  (forall r, In r (orderitems db) -> In r (orderitems db')) /\
  (forall r, In r (orderitems db') ->
     In r (orderitems db) \/
     ((next_pk db <= OrderItem.id r)%nat /\ is_courseregcodeitem r = true)) /\
  (forall c, In c todo -> is_paidcourseregistration c = true ->
     exists j m, In j (orderitems db') /\ (next_pk db <= OrderItem.id j)%nat /\
       OrderItem.order j = Order.id o /\
       OrderItem.kind j = CourseRegCodeItem (OrderItem.course_id c) m /\
       OrderItem.qty j = OrderItem.qty c).
Proof.
  induction todo as [|x todo IH]; intros o dels db o' dels' db' Hwf Hrun.
  - simpl in Hrun. unfold ret in Hrun. injection Hrun as <- <- <-.
    split; [assumption|]. split; [lia|]. split; [apply same_but_currency_refl|].
    split; [now rewrite app_nil_r|]. split; [auto|]. split; [auto|].
    intros c [].
  - simpl in Hrun. apply bind_inr in Hrun. destruct Hrun as [[o1 dels1] [db1 [Hstep Hrun]]].
    unfold to_bundle_step in Hstep.
    destruct (is_paidcourseregistration x) eqn:Ex.
    + apply bind_inr in Hstep. destruct Hstep as [[o2 j] [db2 [Hadd Hstep]]].
      unfold ret in Hstep. simpl in Hstep. injection Hstep as <- <- <-.
      destruct Hwf as [Hu Hb].
      pose proof (CourseRegCodeItem_add_to_order_appends _ _ _ _ _ _ _ _ _ _ Hb Hadd) as Hrows.
      apply CourseRegCodeItem_add_to_order_run in Hadd.
      destruct Hadd as [Hsame [Hjid [Hjord [_ [Hjqty [[m Hjkind] [Hnext _]]]]]]].
      assert (Hwf1 : wf_items db2).
      { split.
        - unfold unique_item_ids. rewrite Hrows, map_app. simpl.
          apply NoDup_app; [exact Hu | repeat constructor; intros [] |].
          intros n Hn [<- | []]. apply in_map_iff in Hn. destruct Hn as [r [Hr Hin]].
          apply Hb in Hin. lia.
        - intros r Hr. rewrite Hrows in Hr. rewrite Hnext.
          apply in_app_iff in Hr. destruct Hr as [Hr | [<- | []]].
          + apply Hb in Hr. lia.
          + lia. }
      destruct (IH o2 (dels ++ [x]) db2 o' dels' db' Hwf1 Hrun)
        as [Hwf' [Hle [Hs [Hdels [Hold [Hnew Hcp]]]]]].
      split; [assumption|]. split; [lia|].
      split; [eapply same_but_currency_trans; eassumption|].
      split; [simpl; rewrite Ex, Hdels, <- app_assoc; reflexivity|].
      split; [|split].
      * intros r Hr. apply Hold. rewrite Hrows. apply in_app_iff. now left.
      * intros r Hr. destruct (Hnew r Hr) as [Hr1 | [Hge Hcr]].
        -- rewrite Hrows in Hr1. apply in_app_iff in Hr1.
           destruct Hr1 as [Hr1 | [<- | []]]; [now left|]. right.
           split; [lia|]. unfold is_courseregcodeitem. now rewrite Hjkind.
        -- right. split; [lia | assumption].
      * intros c [<- | Hc] Hpcr.
        -- exists j, m. split.
           ++ apply Hold. rewrite Hrows. apply in_app_iff. right. now left.
           ++ repeat split; try assumption. lia.
        -- destruct (Hcp c Hc Hpcr) as [j' [m' [Hin' [Hge' [Hord' [Hk' Hq']]]]]].
           exists j', m'. repeat split; try assumption; [lia|].
           apply same_but_currency_fields in Hsame. destruct Hsame as [Hid _]. congruence.
    + unfold ret in Hstep. injection Hstep as <- <- <-.
      destruct (IH o dels db o' dels' db' Hwf Hrun)
        as [Hwf' [Hle [Hs [Hdels [Hold [Hnew Hcp]]]]]].
      split; [assumption|]. split; [assumption|]. split; [assumption|].
      split; [simpl; now rewrite Ex|]. split; [assumption|]. split; [assumption|].
      intros c [<- | Hc] Hpcr; [congruence|]. now apply Hcp.
Qed.

Lemma is_pcr_not_crci (r : OrderItem.t) :
  is_paidcourseregistration r = true -> is_courseregcodeitem r = true -> False.
Proof.
  unfold is_paidcourseregistration, is_courseregcodeitem.
  destruct (OrderItem.kind r); discriminate.
Qed.

(** [update_order_type] on an order that has an item with [qty > 1]. *)
Lemma Order_update_order_type_business (self self' : Order.t) (db db' : DB) :
  wf_items db ->
  existsb (fun i => 1 <? OrderItem.qty i) (orderitem_set self db) = true ->
  Order_update_order_type env self db = (inr self', db') ->
  wf_items db' /\ In self' (orders db') /\
  Order.id self' = Order.id self /\ Order.status self' = Order.status self /\
  Order.order_type self' = BUSINESS /\
  (forall r, In r (orderitems db') -> OrderItem.order r = Order.id self ->
             is_paidcourseregistration r = false) /\
  (forall i, In i (orderitems db) -> OrderItem.order i = Order.id self ->
             is_paidcourseregistration i = true ->
     (forall r, In r (orderitems db') -> OrderItem.id r <> OrderItem.id i) /\
     exists j m, In j (orderitems db') /\ OrderItem.order j = Order.id self /\
       OrderItem.kind j = CourseRegCodeItem (OrderItem.course_id i) m /\
       OrderItem.qty j = OrderItem.qty i).
Proof.
  intros Hwf Hbig Hrun. unfold Order_update_order_type in Hrun.
  apply bind_inr in Hrun. destruct Hrun as [cart_items [db0 [Hr Hrun]]].
  unfold read in Hr. injection Hr as <- <-. rewrite Hbig in Hrun.
  apply bind_inr in Hrun. destruct Hrun as [[o dels] [db1 [Hfold Hrun]]].
  apply bind_inr in Hrun. destruct Hrun as [ys [db2 [Hdel Hrun]]].
  run. injection Hrun as <- <-.
  destruct (to_bundle_fold _ _ _ _ _ _ _ Hwf Hfold)
    as [[Hu1 Hb1] [Hle [Hsame [Hdels [Hold [Hnew Hcp]]]]]].
  simpl in Hdels. subst dels.
  destruct (delete_loop_run (filter is_paidcourseregistration (orderitem_set self db)) db1)
    as [ys' [db2' [Hdel' [Hrows [_ [Hn _]]]]]].
  rewrite Hdel in Hdel'. injection Hdel' as _ <-.
  apply same_but_currency_fields in Hsame. destruct Hsame as [Hid [_ [Hst _]]].
  simpl in Hid, Hst.
  assert (Hlisted : forall r i, In i (orderitems db) -> OrderItem.order i = Order.id self ->
            is_paidcourseregistration i = true -> OrderItem.id r = OrderItem.id i ->
            listed (filter is_paidcourseregistration (orderitem_set self db)) r = true).
  { intros r i Hi Ho Hp Hri. apply existsb_exists. exists i. split.
    - apply filter_In. split; [|assumption]. unfold orderitem_set. apply filter_In.
      split; [assumption|]. now apply Nat.eqb_eq.
    - apply Nat.eqb_eq. congruence. }
  split; [|split; [|split; [|split; [|split; [|split]]]]].
  - split.
    + unfold unique_item_ids. simpl. rewrite Hrows. now apply NoDup_map_filter.
    + intros r Hr. simpl in Hr. rewrite Hrows in Hr. apply filter_In in Hr.
      destruct Hr as [Hr _]. simpl. rewrite Hn. now apply Hb1.
  - simpl. apply save_row_in.
  - simpl. exact Hid.
  - simpl. exact Hst.
  - reflexivity.
  - intros r Hr Hord. simpl in Hr. rewrite Hrows in Hr. apply filter_In in Hr.
    destruct Hr as [Hr Hnl]. apply negb_true_iff in Hnl.
    destruct (is_paidcourseregistration r) eqn:Ep; [|reflexivity]. exfalso.
    destruct (Hnew r Hr) as [Hr0 | [_ Hcr]].
    + rewrite (Hlisted r r) in Hnl; (assumption || reflexivity || discriminate).
    + exact (is_pcr_not_crci r Ep Hcr).
  - intros i Hi Hord Hp. split.
    + intros r Hr Hri. simpl in Hr. rewrite Hrows in Hr. apply filter_In in Hr.
      destruct Hr as [_ Hnl]. apply negb_true_iff in Hnl.
      rewrite (Hlisted r i) in Hnl; (assumption || discriminate).
    + destruct (Hcp i) as [j [m [Hj [Hge [Hjo [Hjk Hjq]]]]]]; [|assumption|].
      { apply filter_In. split; [assumption|]. now apply Nat.eqb_eq. }
      exists j, m. split; [|now repeat split].
      simpl. rewrite Hrows. apply filter_In. split; [assumption|].
      apply negb_true_iff. apply not_true_is_false. intros Hl.
      apply existsb_exists in Hl. destruct Hl as [z [Hz Hzj]].
      apply Nat.eqb_eq in Hzj. apply filter_In in Hz. destruct Hz as [Hz _].
      unfold orderitem_set in Hz. apply filter_In in Hz. destruct Hz as [Hz _].
      destruct Hwf as [_ Hb]. apply Hb in Hz. lia.
Qed.

Lemma Order_update_order_type_saved (self self' : Order.t) (db db' : DB) :
  Order_update_order_type env self db = (inr self', db') -> In self' (orders db').
Proof.
  unfold Order_update_order_type. intros H.
  apply bind_inr in H. destruct H as [cart_items [db0 [_ H]]].
  apply bind_inr in H. destruct H as [[o dels] [db1 [_ H]]].
  apply bind_inr in H. destruct H as [ys [db2 [_ H]]].
  run. injection H as <- <-. simpl. apply save_row_in.
Qed.

(** Rows after the loop of [purchase] come from rows before it, with the
    same key, order, subclass columns and quantity. *)
Lemma purchased_rows (self : Order.t) (rows : list OrderItem.t) (r : OrderItem.t) :
  In r (map (fun i => if Nat.eqb (OrderItem.order i) (Order.id self)
                      then purchased_copy env i else i) rows) ->
  exists r0, In r0 rows /\
    OrderItem.id r = OrderItem.id r0 /\ OrderItem.order r = OrderItem.order r0 /\
    OrderItem.kind r = OrderItem.kind r0 /\ OrderItem.qty r = OrderItem.qty r0.
Proof.
  intros Hr. apply in_map_iff in Hr. destruct Hr as [r0 [Hr Hin]].
  exists r0. split; [assumption|].
  destruct (Nat.eqb (OrderItem.order r0) (Order.id self)); subst r; now repeat split.
Qed.

Lemma purchased_rows_back (self : Order.t) (rows : list OrderItem.t) (r0 : OrderItem.t) :
  In r0 rows ->
  exists r,
    In r (map (fun i => if Nat.eqb (OrderItem.order i) (Order.id self)
                        then purchased_copy env i else i) rows) /\
    OrderItem.id r = OrderItem.id r0 /\ OrderItem.order r = OrderItem.order r0 /\
    OrderItem.kind r = OrderItem.kind r0 /\ OrderItem.qty r = OrderItem.qty r0.
Proof.
  intros Hin.
  exists (if Nat.eqb (OrderItem.order r0) (Order.id self) then purchased_copy env r0 else r0).
  split.
  - apply in_map_iff. now exists r0.
  - destruct (Nat.eqb (OrderItem.order r0) (Order.id self)); now repeat split.
Qed.

(** C5, amended.  Let [purchase] return normally on an order that was not
    yet purchased, in a database whose item keys are unique and below the
    key counter.  The returned order is the one saved.
    - If the order is classified 'personal' when [purchase] is called, it
      stays 'personal' and no item is replaced: the rows of the order are
      the same rows, marked purchased, whatever their quantities.
    - If it is classified 'business' and no item has a quantity above 1, it
      becomes 'personal'.
    - If it is classified 'business' and some item has a quantity above 1,
      it stays 'business', no [PaidCourseRegistration] row of the order is
      left, and for each such row that was there, the row is gone and a
      [CourseRegCodeItem] row of the order for the same course carries
      its quantity. *)
Theorem purchase_reclassification (self self' : Order.t) (db db' : DB)
    (first last street1 street2 city state postalcode country ccnum cardtype
       processor_reply_dump : string) :
  wf_items db ->
  Order.status self <> purchased ->
  Order_purchase env self first last street1 street2 city state postalcode country
    ccnum cardtype processor_reply_dump db = (inr self', db') ->
  In self' (orders db') /\
  (Order.order_type self = PERSONAL ->
   Order.order_type self' = PERSONAL /\
   orderitems db' =
     map (fun i => if Nat.eqb (OrderItem.order i) (Order.id self)
                   then purchased_copy env i else i) (orderitems db)) /\
  (Order.order_type self = BUSINESS ->
   (forall i, In i (orderitem_set self db) -> OrderItem.qty i <= 1) ->
   Order.order_type self' = PERSONAL) /\
  (Order.order_type self = BUSINESS ->
   (exists i, In i (orderitem_set self db) /\ 1 < OrderItem.qty i) ->
   Order.order_type self' = BUSINESS /\
   (forall r, In r (orderitems db') -> OrderItem.order r = Order.id self ->
              is_paidcourseregistration r = false) /\
   (forall i, In i (orderitems db) -> OrderItem.order i = Order.id self ->
              is_paidcourseregistration i = true ->
      (forall r, In r (orderitems db') -> OrderItem.id r <> OrderItem.id i) /\
      exists j m, In j (orderitems db') /\ OrderItem.order j = Order.id self /\
        OrderItem.kind j = CourseRegCodeItem (OrderItem.course_id i) m /\
        OrderItem.qty j = OrderItem.qty i)).
Proof.
  intros Hwf Hst Hrun.
  rewrite (Order_purchase_unfold _ _ _ _ _ _ _ _ _ _ _ _ Hst) in Hrun. cbv zeta in Hrun.
  set (self0 := stamped env self first last street1 street2 city state postalcode country
                  ccnum cardtype processor_reply_dump) in *.
  apply bind_inr in Hrun. destruct Hrun as [[] [db0 [Hsave Hrun]]].
  unfold Order_save, write in Hsave. injection Hsave as <-.
  set (db0 := set_orders db (save_row Order.id self0 (orders db))) in *.
  assert (Hwf0 : wf_items db0) by exact Hwf.
  apply bind_inr in Hrun. destruct Hrun as [o [db1 [Hupd Hrun]]].
  apply bind_inr in Hrun. destruct Hrun as [its [db1' [Hread Hrun]]].
  unfold read in Hread. injection Hread as <- <-.
  apply bind_inr in Hrun. destruct Hrun as [ys [db2 [Hloop Hrun]]].
  run. injection Hrun as <- <-.
  change (Order.order_type self0) with (Order.order_type self) in Hupd.
  destruct (Order.order_type self) eqn:Etype; simpl in Hupd.
  - (* personal: the pass does not run *)
    unfold ret in Hupd. injection Hupd as <- <-.
    destruct (purchase_loop_run self0 db0 db2 ys (proj1 Hwf0) Hloop) as [Hrows Hord].
    split; [|split; [|split]]; try discriminate.
    + simpl. rewrite Hord. simpl. apply save_row_in.
    + intros _. split; [exact Etype|]. simpl. exact Hrows.
  - (* business: the pass runs *)
    pose proof (Order_update_order_type_saved _ _ _ _ Hupd) as Hsaved.
    split; [|split; [|split]]; try discriminate.
    + assert (Hord : orders db2 = orders db1).
      { apply (for_each_inv (OrderItem_purchase_item env) (fun d => orders d = orders db1)
                 (orderitem_set o db1)) with (db := db1) (ys := ys);
          [|reflexivity|exact Hloop].
        intros x d y d' _ Hd Hx. apply OrderItem_purchase_item_run in Hx.
        destruct Hx as [_ [_ [Ho _]]]. congruence. }
      simpl. now rewrite Hord.
    + intros _ Hsmall. apply Order_update_order_type_order in Hupd.
      destruct Hupd as [o1 [_ ->]]. simpl.
      destruct (existsb _ _) eqn:Eex; [|reflexivity].
      apply existsb_exists in Eex. destruct Eex as [i [Hi Hq]].
      apply Z.ltb_lt in Hq. apply Hsmall in Hi. lia.
    + intros _ [i [Hi Hq]].
      assert (Hbig : existsb (fun i => 1 <? OrderItem.qty i) (orderitem_set self0 db0) = true).
      { apply existsb_exists. exists i. split; [exact Hi | now apply Z.ltb_lt]. }
      destruct (Order_update_order_type_business _ _ _ _ Hwf0 Hbig Hupd)
        as [Hwf1 [_ [Hid [_ [Hty [Hnopcr Hrepl]]]]]].
      change (Order.id self0) with (Order.id self) in Hid, Hnopcr, Hrepl.
      change (orderitems db0) with (orderitems db) in Hrepl.
      destruct (purchase_loop_run o db1 db2 ys (proj1 Hwf1) Hloop) as [Hrows _].
      simpl. split; [exact Hty|]. split.
      * intros r Hr Hord. rewrite Hrows in Hr. apply purchased_rows in Hr.
        destruct Hr as [r0 [Hr0 [_ [Hro [Hrk _]]]]].
        unfold is_paidcourseregistration. rewrite Hrk.
        apply (Hnopcr r0 Hr0). congruence.
      * intros i0 Hi0 Hord0 Hp0.
        destruct (Hrepl i0 Hi0 Hord0 Hp0) as [Hgone [j [m [Hj [Hjo [Hjk Hjq]]]]]].
        split.
        -- intros r Hr. rewrite Hrows in Hr. apply purchased_rows in Hr.
           destruct Hr as [r0 [Hr0 [Hrid _]]]. rewrite Hrid. now apply Hgone.
        -- destruct (purchased_rows_back o (orderitems db1) j Hj)
             as [j' [Hj' [_ [Hjo' [Hjk' Hjq']]]]].
           exists j', m. rewrite Hrows. split; [exact Hj'|].
           repeat split; congruence.
Qed.

(** ** CouponRedemption.get_discount_price *)

Lemma div_half_even_pos_bound (n d : Z) :
  0 <= n -> 0 < d ->
  let r := div_half_even_pos n d in
  0 <= r /\ - d <= 2 * (r * d - n) <= d.
Proof.
  intros Hn Hd. unfold div_half_even_pos.
  pose proof (Z.div_mod n d ltac:(lia)) as Hdm.
  pose proof (Z.mod_pos_bound n d Hd) as Hm.
  pose proof (Z.div_pos n d Hn Hd) as Hq.
  set (q := n / d) in *. set (m := n mod d) in *.
  cbv zeta.
  destruct (2 * m <? d) eqn:E1; [apply Z.ltb_lt in E1; split; nia|].
  apply Z.ltb_ge in E1.
  destruct (d <? 2 * m) eqn:E2; [apply Z.ltb_lt in E2; split; nia|].
  apply Z.ltb_ge in E2.
  destruct (Z.even q); split; nia.
Qed.

Lemma div_half_even_nonneg (n d : Z) :
  0 <= n -> 0 < d -> div_half_even n d = div_half_even_pos n d.
Proof.
  intros Hn Hd. unfold div_half_even.
  destruct (Z.eq_dec n 0) as [-> | Hne].
  - change (Z.sgn 0 * div_half_even_pos (Z.abs 0) d) with 0.
    pose proof (div_half_even_pos_bound 0 d Hn Hd) as Hb. cbv zeta in Hb. nia.
  - rewrite Z.sgn_pos by lia. rewrite Z.abs_eq by lia. lia.
Qed.

Lemma div_half_even_bound (n d : Z) :
  0 <= n -> 0 < d ->
  0 <= div_half_even n d /\ - d <= 2 * (div_half_even n d * d - n) <= d.
Proof.
  intros Hn Hd. rewrite div_half_even_nonneg by assumption.
  exact (div_half_even_pos_bound n d Hn Hd).
Qed.

Lemma num_digits_fuel_lower (fuel : nat) :
  forall n, 1 <= n -> n < 2 ^ (Z.of_nat fuel + 1) ->
            10 ^ (num_digits_fuel fuel n - 1) <= n /\ 1 <= num_digits_fuel fuel n.
Proof.
  induction fuel as [|fuel IH]; intros n H1 H2.
  - simpl in *. split; lia.
  - cbn [num_digits_fuel]. destruct (n <? 10) eqn:E.
    + simpl. split; lia.
    + apply Z.ltb_ge in E.
      assert (Hq : 1 <= n / 10) by (apply Z.div_le_lower_bound; lia).
      assert (Hlt : n / 10 < 2 ^ (Z.of_nat fuel + 1)).
      { apply Z.div_lt_upper_bound; [lia|].
        replace (Z.of_nat (S fuel) + 1) with (Z.succ (Z.of_nat fuel + 1)) in H2 by lia.
        rewrite Z.pow_succ_r in H2 by lia. lia. }
      destruct (IH (n / 10) Hq Hlt) as [Hlow Hpos].
      split; [|lia].
      replace (1 + num_digits_fuel fuel (n / 10) - 1)
        with (Z.succ (num_digits_fuel fuel (n / 10) - 1)) by lia.
      rewrite Z.pow_succ_r by lia.
      pose proof (Z.mul_div_le n 10 ltac:(lia)). lia.
Qed.

Lemma num_digits_lower (n : Z) :
  1 <= n -> 10 ^ (num_digits n - 1) <= n /\ 1 <= num_digits n.
Proof.
  intros Hn. unfold num_digits. apply num_digits_fuel_lower; [assumption|].
  rewrite Z2Nat.id by apply Z.log2_nonneg.
  replace (Z.log2 n + 1) with (Z.succ (Z.log2 n)) by lia.
  apply Z.log2_spec. lia.
Qed.

(** The two roundings of the product (to 28 significant digits, then to
    cents) stay within half a cent of it, up to the part [E] cut off by the
    first rounding.  [C * 10 ^ x] is the exact product in dollars and
    [C / 10 ^ k] the same in cents. *)
Lemma format_fix_bound (C k x : Z) :
  0 <= C -> 1 <= k -> x = - k - 2 -> C < 10 ^ (k + 13) ->
  exists E,
    0 <= E /\ E * 10 ^ 27 <= C /\
    - (10 ^ k + E) <=
      2 * (Decimal.format_2f (Decimal._fix (Decimal.mk C x)) * 10 ^ k - C)
      <= 10 ^ k + E.
Proof.
  intros HC Hk Hx Hlt. subst x.
  assert (HD : 0 < 10 ^ k) by (apply Z.pow_pos_nonneg; lia).
  unfold Decimal._fix. cbn [Decimal.coeff Decimal.exp]. rewrite (Z.abs_eq C) by exact HC.
  destruct (num_digits C <=? Decimal.prec) eqn:End.
  - exists 0. split; [lia|]. split; [lia|].
    unfold Decimal.format_2f. cbn [Decimal.coeff Decimal.exp].
    replace (- k - 2 <? -2) with true by (symmetry; apply Z.ltb_lt; lia).
    replace (-2 - (- k - 2)) with k by lia.
    pose proof (div_half_even_bound C (10 ^ k) HC HD). lia.
  - apply Z.leb_gt in End. unfold Decimal.prec in *.
    assert (HC1 : 1 <= C).
    { destruct (Z.eq_dec C 0) as [-> | ]; [|lia]. vm_compute in End. discriminate. }
    destruct (num_digits_lower C HC1) as [Hlow _].
    set (j := num_digits C - 28) in *.
    assert (Hj : 1 <= j) by lia.
    replace (num_digits C - 1) with (j + 27) in Hlow by lia.
    assert (Hjk : j + 27 < k + 13).
    { apply (Z.pow_lt_mono_r_iff 10); lia. }
    assert (HA : 0 < 10 ^ j) by (apply Z.pow_pos_nonneg; lia).
    assert (HB : 0 < 10 ^ (k - j)) by (apply Z.pow_pos_nonneg; lia).
    assert (HAB : 10 ^ k = 10 ^ j * 10 ^ (k - j)).
    { rewrite <- Z.pow_add_r by lia. f_equal. lia. }
    exists (10 ^ j). split; [lia|]. split.
    { rewrite <- Z.pow_add_r by lia. exact Hlow. }
    unfold Decimal.format_2f. cbn [Decimal.coeff Decimal.exp].
    replace (- k - 2 + j <? -2) with true by (symmetry; apply Z.ltb_lt; lia).
    replace (-2 - (- k - 2 + j)) with (k - j) by lia.
    destruct (div_half_even_bound C (10 ^ j) HC HA) as [HC1' Hb1].
    destruct (div_half_even_bound (div_half_even C (10 ^ j)) (10 ^ (k - j)) HC1' HB)
      as [_ Hb2].
    rewrite HAB.
    set (A := 10 ^ j) in *. set (B := 10 ^ (k - j)) in *.
    set (C1 := div_half_even C A) in *. set (d := div_half_even C1 B) in *.
    nia.
Qed.

(** The discount computed from a float factor [m / 2 ^ k] that is within
    rounding of [p / 100] is a whole number of cents nearest to [p] percent
    of [c] cents. *)
Lemma discount_nearest (m k p c : Z) :
  0 <= p <= 100 -> 0 <= c <= 10 ^ 12 -> 52 <= k -> 0 <= m ->
  -50 <= 100 * m - p * 2 ^ k <= 50 ->
  -50 <= 100 * Decimal.format_2f
                 (Decimal.mul (Decimal.mk (m * 5 ^ k) (- k)) (Decimal.of_cents c))
         - c * p <= 50.
Proof.
  intros Hp Hc Hk Hm Hf.
  unfold Decimal.mul, Decimal.of_cents. cbn [Decimal.coeff Decimal.exp].
  set (T := 2 ^ k) in *. set (F := 5 ^ k). set (D := 10 ^ k).
  assert (HT : 2 ^ 52 <= T) by (apply Z.pow_le_mono_r; lia).
  assert (HF : 0 < F) by (apply Z.pow_pos_nonneg; lia).
  assert (HD : D = T * F).
  { unfold D, T, F. rewrite <- Z.pow_mul_l. reflexivity. }
  assert (HT0 : 0 < T) by (apply Z.pow_pos_nonneg; lia).
  assert (HpT : 0 <= p * T <= 100 * T) by nia.
  assert (HmT : m <= T) by lia.
  set (C := m * F * c).
  assert (HC : 0 <= C) by (unfold C; nia).
  assert (HCD : C <= D * c).
  { unfold C. rewrite HD. 
    apply Z.mul_le_mono_nonneg_r; [lia|]. apply Z.mul_le_mono_nonneg_r; lia. }
  assert (HDpos : 0 < D) by (rewrite HD; nia).
  assert (HCD12 : C <= D * 10 ^ 12) by (apply Z.le_trans with (D * c); [assumption | nia]).
  assert (Hlt : C < 10 ^ (k + 13)).
  { rewrite Z.pow_add_r by lia. fold D. 
    assert (D * 10 ^ 12 < D * 10 ^ 13) by (apply Z.mul_lt_mono_pos_l; [assumption | reflexivity]).
    lia. }
  destruct (format_fix_bound C k (- k + -2) HC ltac:(lia) ltac:(lia) Hlt)
    as [E [HE [HElow Hb]]].
  fold D in Hb.
  set (d := Decimal.format_2f (Decimal._fix (Decimal.mk C (- k + -2)))) in *.
  (* the cut-off part and the float error are small against one cent *)
  assert (HE100 : 100 * E < D).
  { assert (E * 10 ^ 27 <= D * 10 ^ 12) by lia.
    change (10 ^ 27) with (10 ^ 15 * 10 ^ 12) in H.
    assert (E * 10 ^ 15 <= D).
    { apply Z.mul_le_mono_pos_r with (p := 10 ^ 12); [reflexivity | lia]. }
    assert (100 * E <= E * 10 ^ 15) by (change (10 ^ 15) with 1000000000000000; lia).
    destruct (Z.eq_dec E 0); [lia|].
    assert (100 * E < E * 10 ^ 15) by (change (10 ^ 15) with 1000000000000000; lia).
    lia. }
  assert (Hc100 : 100 * c < T).
  { change (2 ^ 52) with 4503599627370496 in HT.
    change (10 ^ 12) with 1000000000000 in Hc. lia. }
  set (X := 100 * d - c * p).
  assert (Hid : 2 * (D * T) * X =
                100 * T * (2 * (d * D - C)) + 2 * (D * c) * (100 * m - p * T)).
  { unfold X, C. rewrite HD. ring. }
  assert (HW : 0 < D * T) by nia.
  assert (H1 : - (100 * (D * T) + 100 * (T * E)) <= 100 * T * (2 * (d * D - C))
               <= 100 * (D * T) + 100 * (T * E)) by nia.
  assert (H2 : - (100 * (D * c)) <= 2 * (D * c) * (100 * m - p * T) <= 100 * (D * c)) by nia.
  assert (H3 : 100 * (T * E) < D * T) by nia.
  assert (H4 : 100 * (D * c) < D * T) by nia.
  assert (H5 : - (102 * (D * T)) < 2 * (D * T) * X < 102 * (D * T)) by lia.
  change (-50 <= X <= 50).
  clearbody X. revert HW H5. generalize (D * T) as W. clear. intros W HW H5. nia.
Qed.

Lemma float_factor_checked :
  forallb float_factor_ok (map Z.of_nat (seq 1 100)) = true.
Proof. vm_compute. reflexivity. Qed.

Lemma float_factor_percent (p : Z) : 1 <= p <= 100 -> float_factor_ok p = true.
Proof.
  intros Hp. pose proof float_factor_checked as H.
  rewrite forallb_forall in H. apply H.
  apply in_map_iff. exists (Z.to_nat p). split; [lia|].
  apply in_seq. lia.
Qed.

Lemma get_discount_price_nearest (p c : Z) :
  0 <= p <= 100 -> 0 <= c <= 10 ^ 12 ->
  -50 <= 100 * (c - CouponRedemption_get_discount_price p c) - c * p <= 50.
Proof.
  intros Hp Hc. unfold CouponRedemption_get_discount_price.
  match goal with
  | |- context [c - (c - ?d)] => replace (c - (c - d)) with d by lia
  end.
  destruct (Z.eq_dec p 0) as [-> | Hp0].
  - change (float_div 0 100) with (0, 0).
    change (Decimal_of_float (0, 0)) with (Decimal.mk 0 0).
    unfold Decimal.mul, Decimal.of_cents. cbn [Decimal.coeff Decimal.exp].
    change (0 * c) with 0. change (0 + -2) with (-2).
    change (Decimal.format_2f (Decimal._fix (Decimal.mk 0 (-2)))) with 0. lia.
  - pose proof (float_factor_percent p ltac:(lia)) as Hok.
    unfold float_factor_ok in Hok.
    destruct (float_div p 100) as [m e].
    apply andb_prop in Hok. destruct Hok as [Hok H4].
    apply andb_prop in Hok. destruct Hok as [Hok H3].
    apply andb_prop in Hok. destruct Hok as [H1 H2].
    apply Z.leb_le in H1, H2, H3, H4.
    unfold Decimal_of_float.
    replace (0 <=? e) with false by (symmetry; apply Z.leb_gt; lia).
    pose proof (discount_nearest m (- e) p c Hp Hc ltac:(lia) H2 (conj H3 H4)) as Hn.
    rewrite Z.opp_involutive in Hn. exact Hn.
Qed.

(** C4, amended.  For a percentage from 0 to 100 and an item value from
    $0.00 to $10,000,000,000.00, [get_discount_price] returns the value
    minus a discount that is a whole number of cents nearest to
    [value * percentage / 100] (at most half a cent away; a tie at the half
    cent may go either way).  A coupon that applies to an item stores the
    item's [unit_cost] as its [list_price] and the discounted price as its
    [unit_cost]; 20% off $100.00 gives [unit_cost] $80.00 and [list_price]
    $100.00. *)
Theorem coupon_discount_math :
  (forall p c, 0 <= p <= 100 -> 0 <= c <= 10 ^ 12 ->
     let discount := c - CouponRedemption_get_discount_price p c in
     -50 <= 100 * discount - c * p <= 50) /\
  CouponRedemption_get_discount_price 20 10000 = 8000 /\
  (forall coupon order cart_items db db1,
     CouponRedemption_add_coupon_redemption coupon order cart_items db = (inr true, db1) ->
     exists item,
       In item cart_items /\
       matches_course (Coupon.course_id coupon) item = true /\
       In (coupon_discounted coupon item) (orderitems db1) /\
       OrderItem.list_price (coupon_discounted coupon item)
         = Some (OrderItem.unit_cost item) /\
       OrderItem.unit_cost (coupon_discounted coupon item)
         = CouponRedemption_get_discount_price (Coupon.percentage_discount coupon)
             (OrderItem.unit_cost item) /\
       (Coupon.percentage_discount coupon = 20 -> OrderItem.unit_cost item = 10000 ->
        OrderItem.unit_cost (coupon_discounted coupon item) = 8000 /\
        OrderItem.list_price (coupon_discounted coupon item) = Some 10000)).
Proof.
  split; [|split].
  - intros p c Hp Hc. cbv zeta. now apply get_discount_price_nearest.
  - vm_compute. reflexivity.
  - intros coupon order cart_items db db1 Hrun.
    apply add_coupon_redemption_applied in Hrun. destruct Hrun as [item [Hin [Hm Hrows]]].
    exists item. split; [assumption|]. split; [assumption|].
    split; [rewrite Hrows; apply save_row_in|].
    split; [reflexivity|]. split; [reflexivity|].
    intros Hp Hc. unfold coupon_discounted. simpl. rewrite Hp, Hc.
    split; vm_compute; reflexivity.
Qed.

(** ** Order.get_cart_for_user *)

Lemma newest_from (l : list Order.t) (a b : Order.t) :
  fold_left
    (fun acc o =>
       match acc with
       | None => Some o
       | Some a => if Nat.ltb (Order.id a) (Order.id o) then Some o else Some a
       end) l (Some a) = Some b ->
  (b = a \/ In b l) /\ (Order.id a <= Order.id b)%nat /\
  (forall x, In x l -> (Order.id x <= Order.id b)%nat).
Proof.
  revert a. induction l as [|x l IH]; intros a H; simpl in H.
  - injection H as <-. repeat split; auto. intros x [].
  - destruct (Nat.ltb (Order.id a) (Order.id x)) eqn:E.
    + apply Nat.ltb_lt in E. destruct (IH x H) as [Hin [Hle Hall]].
      split; [right; destruct Hin; [left; congruence | now right]|].
      split; [lia|]. intros y [<- | Hy]; [assumption | now apply Hall].
    + apply Nat.ltb_ge in E. destruct (IH a H) as [Hin [Hle Hall]].
      split; [destruct Hin; [now left | right; now right]|].
      split; [assumption|]. intros y [<- | Hy]; [lia | now apply Hall].
Qed.

Lemma newest_some (c : Order.t) (l : list Order.t) :
  exists o, newest (c :: l) = Some o /\ In o (c :: l) /\
            forall x, In x (c :: l) -> (Order.id x <= Order.id o)%nat.
Proof.
  unfold newest. simpl.
  destruct (fold_left _ l (Some c)) as [o|] eqn:E.
  - exists o. split; [reflexivity|]. apply newest_from in E.
    destruct E as [Hin [Hle Hall]].
    split; [destruct Hin; [left; congruence | now right]|].
    intros x [<- | Hx]; [assumption | now apply Hall].
  - exfalso. revert E. generalize c. induction l as [|x l IH]; intros a; simpl.
    + discriminate.
    + destruct (Nat.ltb (Order.id a) (Order.id x)); apply IH.
Qed.

Lemma newest_all_same (r : Order.t) (l : list Order.t) :
  l <> [] -> (forall x, In x l -> x = r) -> newest l = Some r.
Proof.
  intros Hne Hall. destruct l as [|c l]; [congruence|].
  assert (c = r) by (apply Hall; now left). subst c.
  unfold newest. simpl.
  assert (Hl : forall x, In x l -> x = r) by (intros x Hx; apply Hall; now right).
  clear Hne Hall. induction l as [|x l IH]; [reflexivity|].
  simpl. rewrite (Hl x (or_introl eq_refl)), Nat.ltb_irrefl.
  apply IH. intros y Hy. apply Hl. now right.
Qed.

(** After [r] is saved into a table without a row satisfying [p], the rows
    satisfying [p] are copies of [r]. *)
Lemma filter_save_row_fresh {R : Type} (pk : R -> Pk) (p : R -> bool) (r : R)
    (table : list R) :
  filter p table = [] -> p r = true ->
  filter p (save_row pk r table) <> [] /\
  forall x, In x (filter p (save_row pk r table)) -> x = r.
Proof.
  intros Hnone Hr. split.
  - intros Hnil.
    assert (Hin : In r (filter p (save_row pk r table))).
    { apply filter_In. split; [apply save_row_in | assumption]. }
    rewrite Hnil in Hin. destruct Hin.
  - intros x Hx. apply filter_In in Hx. destruct Hx as [Hx Hpx].
    apply in_save_row in Hx. destruct Hx as [-> | [Hx _]]; [reflexivity|].
    exfalso.
    assert (Hin : In x (filter p table)) by (apply filter_In; now split).
    rewrite Hnone in Hin. destruct Hin.
Qed.

Lemma get_cart_for_user_existing (user : Pk) (db : DB) (o : Order.t) :
  newest (filter (is_cart_of user) (orders db)) = Some o ->
  Order_get_cart_for_user user db = (inr o, db).
Proof.
  intros H. unfold Order_get_cart_for_user, bind at 1, read at 1. now rewrite H.
Qed.

(** X1.  [get_cart_for_user] always returns a stored order of the user in
    status 'cart'.  When the user has carts it returns the one with the
    greatest id and changes nothing; when the user has none it creates one
    with the next primary key.  Asking again returns the same order and
    changes nothing: no second cart is made. *)
Theorem get_cart_for_user_spec (user : Pk) (db : DB) :
  exists o db',
    Order_get_cart_for_user user db = (inr o, db') /\
    Order.user o = user /\ Order.status o = cart /\ In o (orders db') /\
    (forall c, In c (orders db) -> is_cart_of user c = true ->
               db' = db /\ In o (orders db) /\ (Order.id c <= Order.id o)%nat) /\
    ((forall c, In c (orders db) -> is_cart_of user c = false) ->
     o = Order.create (next_pk db) user cart /\ next_pk db' = S (next_pk db) /\
     orderitems db' = orderitems db) /\
    Order_get_cart_for_user user db' = (inr o, db').
Proof.
  unfold Order_get_cart_for_user at 1. unfold bind at 1. unfold read at 1.
  destruct (filter (is_cart_of user) (orders db)) as [|c l] eqn:Ef.
  - (* no cart: one is created *)
    change (newest []) with (@None Order.t). cbv iota.
    unfold bind at 1. unfold read at 1. rewrite Ef. run.
    set (o := Order.create (next_pk db) user cart).
    assert (Hp : is_cart_of user o = true).
    { unfold is_cart_of, o. simpl. now rewrite Nat.eqb_refl. }
    eexists. eexists. split; [reflexivity|].
    split; [reflexivity|]. split; [reflexivity|].
    split; [simpl; apply save_row_in|]. split; [|split].
    + intros c Hc Hcart. exfalso.
      assert (Hin : In c (filter (is_cart_of user) (orders db)))
        by (apply filter_In; now split).
      rewrite Ef in Hin. destruct Hin.
    + intros _. now repeat split.
    + apply get_cart_for_user_existing. simpl orders.
      destruct (filter_save_row_fresh Order.id (is_cart_of user) o (orders db) Ef Hp)
        as [Hne Hall].
      exact (newest_all_same o _ Hne Hall).
  - (* the newest cart is returned *)
    destruct (newest_some c l) as [o [Hnew [Hin Hmax]]]. rewrite Hnew. unfold ret.
    assert (Hino : In o (filter (is_cart_of user) (orders db))) by (rewrite Ef; exact Hin).
    apply filter_In in Hino. destruct Hino as [Hino Hcart].
    unfold is_cart_of in Hcart. apply andb_prop in Hcart. destruct Hcart as [Hu Hs].
    apply Nat.eqb_eq in Hu. apply status_eqb_eq in Hs.
    exists o, db. split; [reflexivity|]. split; [assumption|]. split; [assumption|].
    split; [assumption|]. split; [|split].
    + intros x Hx Hxc. split; [reflexivity|]. split; [assumption|].
      apply Hmax. rewrite <- Ef. apply filter_In. now split.
    + intros Hnone. specialize (Hnone o Hino). unfold is_cart_of in Hnone.
      rewrite Hu, Hs, Nat.eqb_refl in Hnone. discriminate.
    + apply get_cart_for_user_existing. now rewrite Ef.
Qed.

Lemma get_cart_for_user_created (user : Pk) (db : DB) :
  filter (is_cart_of user) (orders db) = [] ->
  Order_get_cart_for_user user db =
  (inr (Order.create (next_pk db) user cart),
   set_orders (set_next_pk db (S (next_pk db)))
     (save_row Order.id (Order.create (next_pk db) user cart) (orders db))).
Proof.
  intros Ef. unfold Order_get_cart_for_user, bind at 1, read at 1. rewrite Ef.
  change (newest []) with (@None Order.t). cbv iota.
  unfold bind at 1. unfold read at 1. rewrite Ef. reflexivity.
Qed.

(** The loop of [start_purchase] always returns; it touches nothing but item
    rows, and every row it leaves is an old row or the paying copy of a row
    it visited. *)
Lemma start_purchase_loop_frame (todo : list OrderItem.t) (db : DB) :
  exists ys db',
    for_each OrderItem_start_purchase todo db = (inr ys, db') /\
    orders db' = orders db /\ next_pk db' = next_pk db /\ effects db' = effects db /\
    (forall i, In i (orderitems db') ->
       In i (orderitems db) \/ exists x, In x todo /\ i = OrderItem.set_status x paying).
Proof.
  revert db. induction todo as [|x todo IH]; intros db.
  - exists [], db. repeat split; auto.
  - destruct (IH (set_orderitems db
                    (save_row OrderItem.id (OrderItem.set_status x paying) (orderitems db))))
      as [ys [db' [Hrun [Ho [Hn [He Hrows]]]]]].
    exists (OrderItem.set_status x paying :: ys), db'.
    split; [|split; [exact Ho|split; [exact Hn|split; [exact He|]]]].
    + simpl. rewrite (bind_run _ _ _ _ _ (OrderItem_start_purchase_run x db)).
      now rewrite (bind_run _ _ _ _ _ Hrun).
    + intros i Hi. destruct (Hrows i Hi) as [Hin | [y [Hy ->]]].
      * simpl in Hin. apply in_save_row in Hin. destruct Hin as [-> | [Hin _]].
        -- right. exists x. split; [now left | reflexivity].
        -- now left.
      * right. exists y. split; [now right | reflexivity].
Qed.

(** X2.  Once [start_purchase] has moved a user's only cart to 'paying',
    [get_cart_for_user] no longer returns it: it creates a new cart, with
    another id and without items, and the paying order stays stored. *)
Theorem start_purchase_then_new_cart (self : Order.t) (db : DB) :
  filter (is_cart_of (Order.user self)) (orders db) = [self] ->
  (Order.id self < next_pk db)%nat ->
  (forall i, In i (orderitems db) -> (OrderItem.order i < next_pk db)%nat) ->
  exists db1 fresh db2,
    Order_start_purchase self db = (inr (Order.set_status self paying), db1) /\
    Order_get_cart_for_user (Order.user self) db1 = (inr fresh, db2) /\
    fresh = Order.create (next_pk db) (Order.user self) cart /\
    Order.id fresh <> Order.id self /\
    Order_has_items fresh None db2 = false /\
    In (Order.set_status self paying) (orders db2).
Proof.
  intros Hcarts Hid Hrows.
  assert (Hself : In self (filter (is_cart_of (Order.user self)) (orders db)))
    by (rewrite Hcarts; now left).
  apply filter_In in Hself. destruct Hself as [Hin Hcart].
  unfold is_cart_of in Hcart. apply andb_prop in Hcart. destruct Hcart as [_ Hst].
  set (self' := Order.set_status self paying).
  set (db0 := set_orders db (save_row Order.id self' (orders db))).
  destruct (start_purchase_loop_frame (orderitem_set self' db0) db0)
    as [ys [db1 [Hloop [Ho [Hn [_ Hfrom]]]]]].
  assert (Hrun : Order_start_purchase self db = (inr self', db1)).
  { unfold Order_start_purchase. rewrite Hst. cbv zeta. fold self'.
    unfold bind at 1. unfold Order_save, write. fold db0.
    unfold bind at 1. unfold read. now rewrite (bind_run _ _ _ _ _ Hloop). }
  assert (Hnone : filter (is_cart_of (Order.user self)) (orders db1) = []).
  { rewrite Ho. simpl orders.
    destruct (filter _ (save_row Order.id self' (orders db))) as [|c l] eqn:Ef; [reflexivity|].
    exfalso.
    assert (Hc : In c (filter (is_cart_of (Order.user self))
                         (save_row Order.id self' (orders db)))) by (rewrite Ef; now left).
    apply filter_In in Hc. destruct Hc as [Hc Hcc].
    apply in_save_row in Hc. destruct Hc as [-> | [Hc Hne]].
    - unfold is_cart_of, self' in Hcc. simpl in Hcc. now rewrite andb_false_r in Hcc.
    - assert (Hc' : In c (filter (is_cart_of (Order.user self)) (orders db)))
        by (apply filter_In; now split).
      rewrite Hcarts in Hc'. destruct Hc' as [<- | []]. now apply Hne. }
  exists db1. eexists. eexists. split; [exact Hrun|].
  split; [apply (get_cart_for_user_created _ _ Hnone)|].
  rewrite Hn. simpl next_pk. split; [reflexivity|]. split; [simpl; lia|]. split.
  - unfold Order_has_items, orderitem_set. simpl orderitems. simpl Order.id.
    destruct (filter _ (orderitems db1)) as [|i l] eqn:Ef; [reflexivity|]. exfalso.
    assert (Hi : In i (filter (fun i => Nat.eqb (OrderItem.order i) (next_pk db))
                         (orderitems db1))) by (rewrite Ef; now left).
    apply filter_In in Hi. destruct Hi as [Hi Hord]. apply Nat.eqb_eq in Hord.
    destruct (Hfrom i Hi) as [Hold | [x [Hx ->]]].
    + apply Hrows in Hold. lia.
    + unfold orderitem_set in Hx. apply filter_In in Hx. destruct Hx as [Hx _].
      apply Hrows in Hx. simpl in Hord. lia.
  - simpl orders. rewrite Ho. apply save_row_keeps.
    + simpl. apply save_row_in.
    + simpl. lia.
Qed.

(** ** Order.purchase: what a run leaves behind *)

(** While [purchase] walks the rows [todo] of an order, every row of that
    order is already purchased or still to be visited. *)
Lemma purchase_loop_all_purchased (oid : Pk) (todo : list OrderItem.t) :
  (forall x, In x todo -> OrderItem.order x = oid) ->
  forall db ys db',
  (forall i, In i (orderitems db) -> OrderItem.order i = oid ->
             OrderItem.status i = purchased \/ In i todo) ->
  for_each (OrderItem_purchase_item env) todo db = (inr ys, db') ->
  forall i, In i (orderitems db') -> OrderItem.order i = oid ->
            OrderItem.status i = purchased.
Proof.
  induction todo as [|x todo IH]; intros Hall db ys db' Hinv Hrun i Hi Hord.
  - simpl in Hrun. unfold ret in Hrun. injection Hrun as _ <-.
    destruct (Hinv i Hi Hord) as [H | []]. exact H.
  - simpl in Hrun. apply bind_inr in Hrun. destruct Hrun as [y [db1 [Hx Hrun]]].
    apply bind_inr in Hrun. destruct Hrun as [ys' [db2 [Hl Hrun]]].
    unfold ret in Hrun. injection Hrun as _ <-.
    apply OrderItem_purchase_item_run in Hx. destruct Hx as [_ [Hrows _]].
    apply (IH (fun z Hz => Hall z (or_intror Hz)) db1 ys' db2); try assumption.
    intros j Hj Hjo. rewrite Hrows in Hj. apply in_save_row in Hj.
    destruct Hj as [-> | [Hj Hne]]; [now left|].
    destruct (Hinv j Hj Hjo) as [Hp | [Hx | Ht]]; [now left | | now right].
    subst j. simpl in Hne. congruence.
Qed.

Lemma purchase_loop_orders (todo : list OrderItem.t) (db db' : DB) (ys : list OrderItem.t) :
  for_each (OrderItem_purchase_item env) todo db = (inr ys, db') ->
  orders db' = orders db.
Proof.
  apply (for_each_inv (OrderItem_purchase_item env) (fun d => orders d = orders db) todo);
    [|reflexivity].
  intros x d y d' _ Hd Hx. apply OrderItem_purchase_item_run in Hx.
  destruct Hx as [_ [_ [Ho _]]]. congruence.
Qed.

(** The order instance and its saved row when [purchase] reaches the loop
    over the items. *)
Lemma purchase_reaches_loop (self o : Order.t) (db db1 : DB)
    (first last street1 street2 city state postalcode country ccnum cardtype
       processor_reply_dump : string) :
  let self0 := stamped env self first last street1 street2 city state postalcode country
                 ccnum cardtype processor_reply_dump in
  (if order_type_eqb (Order.order_type self0) BUSINESS
   then Order_update_order_type env self0
   else ret self0)
    (set_orders db (save_row Order.id self0 (orders db))) = (inr o, db1) ->
  In o (orders db1) /\ Order.id o = Order.id self /\ Order.status o = purchased /\
  Order.purchase_time o = Some (now env) /\ Order.bill o = Order.bill self0 /\
  Order.user o = Order.user self.
Proof.
  intros self0 H. destruct (order_type_eqb (Order.order_type self0) BUSINESS).
  - pose proof (Order_update_order_type_saved _ _ _ _ H) as Hsaved.
    apply Order_update_order_type_order in H. destruct H as [o1 [[c ->] ->]].
    now repeat split.
  - unfold ret in H. injection H as <- <-. split; [|now repeat split].
    simpl. apply save_row_in.
Qed.

(** X3.  When [purchase] returns normally on an order that was not yet
    purchased, the order it returns is stored, has the same id, status
    'purchased' and the purchase time; every item row of the order has
    status 'purchased'; and the last external effect is the confirmation
    e-mail, sent after all fulfilment. *)
Theorem purchase_marks_order_and_items (self self' : Order.t) (db db' : DB)
    (first last street1 street2 city state postalcode country ccnum cardtype
       processor_reply_dump : string) :
  Order.status self <> purchased ->
  Order_purchase env self first last street1 street2 city state postalcode country
    ccnum cardtype processor_reply_dump db = (inr self', db') ->
  In self' (orders db') /\ Order.id self' = Order.id self /\
  Order.status self' = purchased /\ Order.purchase_time self' = Some (now env) /\
  (forall i, In i (orderitems db') -> OrderItem.order i = Order.id self ->
             OrderItem.status i = purchased) /\
  exists before,
    effects db' =
    before ++ [ConfirmationEmails (Order.id self)
                 (order_type_eqb (Order.order_type self') BUSINESS)].
Proof.
  intros Hst Hrun.
  rewrite (Order_purchase_unfold _ _ _ _ _ _ _ _ _ _ _ _ Hst) in Hrun. cbv zeta in Hrun.
  apply bind_inr in Hrun. destruct Hrun as [[] [db0 [Hsave Hrun]]].
  unfold Order_save, write in Hsave. injection Hsave as <-.
  apply bind_inr in Hrun. destruct Hrun as [o [db1 [Hupd Hrun]]].
  apply bind_inr in Hrun. destruct Hrun as [its [db1' [Hread Hrun]]].
  unfold read in Hread. injection Hread as <- <-.
  apply bind_inr in Hrun. destruct Hrun as [ys [db2 [Hloop Hrun]]].
  run. injection Hrun as <- <-.
  destruct (purchase_reaches_loop _ _ _ _ _ _ _ _ _ _ _ _ _ _ _ Hupd)
    as [Hin [Hid [Hs [Ht _]]]].
  pose proof (purchase_loop_orders _ _ _ _ Hloop) as Ho.
  split; [simpl; now rewrite Ho|]. split; [assumption|]. split; [assumption|].
  split; [assumption|]. split.
  - intros i Hi Hord. simpl in Hi.
    apply (purchase_loop_all_purchased (Order.id o) (orderitem_set o db1)) with
      (db := db1) (ys := ys) (db' := db2); try assumption; try congruence.
    + intros x Hx. unfold orderitem_set in Hx. apply filter_In in Hx.
      destruct Hx as [_ Hx]. now apply Nat.eqb_eq in Hx.
    + intros j Hj Hjo. right. unfold orderitem_set. apply filter_In.
      split; [assumption|]. now apply Nat.eqb_eq.
  - exists (effects db2). simpl. now rewrite Hid.
Qed.

(** X4.  The billing snapshot [purchase] stores: name, city, state, country
    and postal code always; street lines, card number digits, card type
    and processor reply only when [STORE_BILLING_INFO] is on.  When it is
    off these five columns keep their former values. *)
Theorem purchase_billing_snapshot (self self' : Order.t) (db db' : DB)
    (first last street1 street2 city state postalcode country ccnum cardtype
       processor_reply_dump : string) :
  Order.status self <> purchased ->
  Order_purchase env self first last street1 street2 city state postalcode country
    ccnum cardtype processor_reply_dump db = (inr self', db') ->
  let b := Order.bill self' in
  let old := Order.bill self in
  In self' (orders db') /\
  Billing.bill_to_first b = first /\ Billing.bill_to_last b = last /\
  Billing.bill_to_city b = city /\ Billing.bill_to_state b = state /\
  Billing.bill_to_country b = country /\ Billing.bill_to_postalcode b = postalcode /\
  (STORE_BILLING_INFO env = true ->
   Billing.bill_to_street1 b = street1 /\ Billing.bill_to_street2 b = street2 /\
   Billing.bill_to_ccnum b = ccnum /\ Billing.bill_to_cardtype b = cardtype /\
   Billing.processor_reply_dump b = processor_reply_dump) /\
  (STORE_BILLING_INFO env = false ->
   Billing.bill_to_street1 b = Billing.bill_to_street1 old /\
   Billing.bill_to_street2 b = Billing.bill_to_street2 old /\
   Billing.bill_to_ccnum b = Billing.bill_to_ccnum old /\
   Billing.bill_to_cardtype b = Billing.bill_to_cardtype old /\
   Billing.processor_reply_dump b = Billing.processor_reply_dump old).
Proof.
  intros Hst Hrun.
  rewrite (Order_purchase_unfold _ _ _ _ _ _ _ _ _ _ _ _ Hst) in Hrun. cbv zeta in Hrun.
  apply bind_inr in Hrun. destruct Hrun as [[] [db0 [Hsave Hrun]]].
  unfold Order_save, write in Hsave. injection Hsave as <-.
  apply bind_inr in Hrun. destruct Hrun as [o [db1 [Hupd Hrun]]].
  apply bind_inr in Hrun. destruct Hrun as [its [db1' [Hread Hrun]]].
  unfold read in Hread. injection Hread as <- <-.
  apply bind_inr in Hrun. destruct Hrun as [ys [db2 [Hloop Hrun]]].
  run. injection Hrun as <- <-.
  destruct (purchase_reaches_loop _ _ _ _ _ _ _ _ _ _ _ _ _ _ _ Hupd)
    as [Hin [_ [_ [_ [Hb _]]]]].
  pose proof (purchase_loop_orders _ _ _ _ Hloop) as Ho.
  cbv zeta. rewrite Hb. split; [simpl; now rewrite Ho|]. simpl.
  repeat (split; [reflexivity|]).
  split; intros ->; repeat split; reflexivity.
Qed.

(** ** Fulfilment callbacks *)

Lemma for_each_emit_effects {A : Type} (g : A -> Effect) (l : list A) (db : DB) :
  exists ys db',
    for_each (fun x => emit (g x)) l db = (inr ys, db') /\
    effects db' = effects db ++ map g l /\
    orderitems db' = orderitems db /\ orders db' = orders db /\ next_pk db' = next_pk db.
Proof.
  revert db. induction l as [|x l IH]; intros db.
  - exists [], db. repeat split; try reflexivity. simpl. now rewrite app_nil_r.
  - destruct (IH (set_effects db (effects db ++ [g x]))) as [ys [db' [Hrun [He H]]]].
    exists (tt :: ys), db'. split; [|split; [|exact H]].
    + simpl. unfold bind at 1. unfold emit at 1, write.
      now rewrite (bind_run _ _ _ _ _ Hrun).
    + rewrite He. simpl. now rewrite <- app_assoc.
Qed.

Lemma map_const_seq {B : Type} (b : B) (n start : nat) :
  map (fun _ : nat => b) (seq start n) = repeat b n.
Proof.
  revert start. induction n as [|n IH]; intros start; simpl; [reflexivity|].
  now rewrite IH.
Qed.

(** X5.  The fulfilment callback of a bundle item whose course exists
    asks for exactly [qty] registration codes for the item's user, course
    and order (none when [qty] is not positive) and touches no row; when
    the course no longer exists it raises [PurchasedCallbackException]
    before any code is asked for. *)
Theorem bundle_callback_mints_qty_codes (item : OrderItem.t) (db : DB)
    (c : CourseKey) (m : string) :
  OrderItem.kind item = CourseRegCodeItem c m ->
  (has_course env c = true ->
   exists db',
     purchased_callback env item db = (inr tt, db') /\
     effects db' =
       effects db ++ repeat (SaveRegistrationCode (OrderItem.user item) c (OrderItem.order item))
                            (Z.to_nat (OrderItem.qty item)) /\
     (OrderItem.qty item <= 0 -> effects db' = effects db) /\
     orderitems db' = orderitems db /\ orders db' = orders db) /\
  (has_course env c = false ->
   purchased_callback env item db = (inl PurchasedCallbackException, db)).
Proof.
  intros Hk. unfold purchased_callback. rewrite Hk. split; intros Hc; rewrite Hc; simpl.
  - destruct (for_each_emit_effects
                (fun _ : nat => SaveRegistrationCode (OrderItem.user item) c (OrderItem.order item))
                (seq 0 (Z.to_nat (OrderItem.qty item))) db)
      as [ys [db' [Hrun [He [Hi [Ho _]]]]]].
    exists db'. rewrite (bind_run _ _ _ _ _ Hrun). split; [reflexivity|].
    rewrite map_const_seq in He. split; [exact He|]. split; [|now split].
    intros Hq. rewrite He. replace (Z.to_nat (OrderItem.qty item)) with 0%nat by lia.
    simpl. now rewrite app_nil_r.
  - reflexivity.
Qed.

(** Whatever a loop does, an invariant kept by every turn, normal or not,
    holds when the loop stops. *)
Lemma for_each_inv_any {A B : Type} (body : A -> M B) (P : DB -> Prop) (l : list A) :
  (forall x db r db', In x l -> P db -> body x db = (r, db') -> P db') ->
  forall db r db', P db -> for_each body l db = (r, db') -> P db'.
Proof.
  induction l as [|x l IH]; intros Hbody db r db' HP Hrun.
  - simpl in Hrun. unfold ret in Hrun. now inversion Hrun; subst.
  - simpl in Hrun. unfold bind at 1 in Hrun.
    destruct (body x db) as [[e|y] db1] eqn:Hx.
    + injection Hrun as _ <-. eapply Hbody; [now left | exact HP | exact Hx].
    + assert (HP1 : P db1) by (eapply Hbody; [now left | exact HP | exact Hx]).
      unfold bind at 1 in Hrun.
      destruct (for_each body l db1) as [[e|ys] db2] eqn:Hl.
      * injection Hrun as _ <-.
        eapply (IH (fun x0 d r0 d' H0 => Hbody x0 d r0 d' (or_intror H0))); eassumption.
      * unfold ret in Hrun. injection Hrun as _ <-.
        eapply (IH (fun x0 d r0 d' H0 => Hbody x0 d r0 d' (or_intror H0))); eassumption.
Qed.

(** A loop one of whose turns cannot return normally raises, and what it
    raises is what its turns raise. *)
Lemma for_each_raises {A B : Type} (body : A -> M B) (e : Exn) (l : list A) (bad : A) :
  In bad l ->
  (forall db y db', body bad db <> (inr y, db')) ->
  (forall x db e' db', In x l -> body x db = (inl e', db') -> e' = e) ->
  forall db, exists db', for_each body l db = (inl e, db').
Proof.
  induction l as [|x l IH]; intros Hin Hbad Hexn db; [destruct Hin|].
  simpl. unfold bind at 1. destruct (body x db) as [[e'|y] db1] eqn:Hx.
  - rewrite (Hexn x db e' db1 (or_introl eq_refl) Hx). now exists db1.
  - destruct Hin as [-> | Hin]; [exfalso; exact (Hbad db y db1 Hx)|].
    destruct (IH Hin Hbad (fun x0 d e0 d' H0 => Hexn x0 d e0 d' (or_intror H0)) db1)
      as [db2 Hl].
    exists db2. unfold bind at 1. now rewrite Hl.
Qed.

(** What [purchase_item] can raise, and what it leaves alone whatever the
    outcome. *)
Lemma purchased_callback_any (item : OrderItem.t) (db db' : DB) (r : Exn + unit) :
  purchased_callback env item db = (r, db') ->
  orders db' = orders db /\
  (forall b, In (ConfirmationEmails (OrderItem.order item) b) (effects db') ->
             In (ConfirmationEmails (OrderItem.order item) b) (effects db)) /\
  (forall e, r = inl e -> e = PurchasedCallbackException).
Proof.
  unfold purchased_callback.
  destruct (OrderItem.kind item) as [c m | c m | c e m | t c].
  - destruct (has_course env c); simpl.
    + run. intros H. injection H as <- <-. simpl. split; [reflexivity|]. split; [|discriminate].
      intros b Hb. apply in_app_iff in Hb. destruct Hb as [Hb | [Hb | []]];
        [assumption | discriminate].
    + unfold raise. intros H. injection H as <- <-. split; [reflexivity|].
      split; [auto|]. intros e He. now injection He as <-.
  - destruct (has_course env c); simpl.
    + destruct (for_each_emit_effects
                  (fun _ : nat => SaveRegistrationCode (OrderItem.user item) c
                                    (OrderItem.order item))
                  (seq 0 (Z.to_nat (OrderItem.qty item))) db)
        as [ys [db1 [Hrun [He [_ [Ho _]]]]]].
      rewrite (bind_run _ _ _ _ _ Hrun). unfold ret. intros H. injection H as <- <-.
      split; [assumption|]. split; [|discriminate].
      intros b Hb. rewrite He in Hb. apply in_app_iff in Hb.
      destruct Hb as [Hb | Hb]; [assumption|].
      apply in_map_iff in Hb. destruct Hb as [_ [Hb _]]. discriminate.
    + unfold raise. intros H. injection H as <- <-. split; [reflexivity|].
      split; [auto|]. intros e He. now injection He as <-.
  - run. intros H. injection H as <- <-. simpl. split; [reflexivity|]. split; [|discriminate].
    intros b Hb. rewrite !in_app_iff in Hb. simpl in Hb.
    destruct Hb as [[[Hb | [Hb | []]] | [Hb | []]] | [Hb | []]];
      [assumption | discriminate | discriminate | discriminate].
  - unfold ret. intros H. injection H as <- <-. split; [reflexivity|]. split; [auto|discriminate].
Qed.

Lemma OrderItem_purchase_item_any (item : OrderItem.t) (db db' : DB)
    (r : Exn + OrderItem.t) :
  OrderItem_purchase_item env item db = (r, db') ->
  orders db' = orders db /\
  (forall b, In (ConfirmationEmails (OrderItem.order item) b) (effects db') ->
             In (ConfirmationEmails (OrderItem.order item) b) (effects db)) /\
  (forall e, r = inl e -> e = PurchasedCallbackException).
Proof.
  unfold OrderItem_purchase_item, bind at 1.
  destruct (purchased_callback env item db) as [[e|[]] db1] eqn:Hcb;
    apply purchased_callback_any in Hcb; destruct Hcb as [Ho [He Hx]].
  - intros H. injection H as <- <-. split; [assumption|]. split; [assumption|].
    intros e' He'. injection He' as <-. now apply Hx.
  - run. intros H. injection H as <- <-. simpl. split; [assumption|]. split; [assumption|].
    discriminate.
Qed.

(** X6.  When an order classified 'personal' holds a seat or bundle item
    whose course no longer exists, [purchase] raises
    [PurchasedCallbackException]; the order has then already been saved as
    'purchased', and no confirmation e-mail has been sent. *)
Theorem purchase_fulfilment_failure (self : Order.t) (db : DB) (bad : OrderItem.t)
    (first last street1 street2 city state postalcode country ccnum cardtype
       processor_reply_dump : string) :
  Order.status self <> purchased ->
  Order.order_type self = PERSONAL ->
  In bad (orderitem_set self db) ->
  is_paidcourseregistration bad || is_courseregcodeitem bad = true ->
  has_course env (OrderItem.course_id bad) = false ->
  exists db',
    Order_purchase env self first last street1 street2 city state postalcode country
      ccnum cardtype processor_reply_dump db = (inl PurchasedCallbackException, db') /\
    In (stamped env self first last street1 street2 city state postalcode country
          ccnum cardtype processor_reply_dump) (orders db') /\
    (forall b, In (ConfirmationEmails (Order.id self) b) (effects db') ->
               In (ConfirmationEmails (Order.id self) b) (effects db)).
Proof.
  intros Hst Hty Hbad Hkind Hcourse.
  rewrite (Order_purchase_unfold _ _ _ _ _ _ _ _ _ _ _ _ Hst). cbv zeta.
  set (self0 := stamped env self first last street1 street2 city state postalcode country
                  ccnum cardtype processor_reply_dump).
  set (db0 := set_orders db (save_row Order.id self0 (orders db))).
  assert (Hfail : forall d y d', OrderItem_purchase_item env bad d <> (inr y, d')).
  { intros d y d'. unfold OrderItem_purchase_item, bind at 1, purchased_callback.
    unfold is_paidcourseregistration, is_courseregcodeitem, OrderItem.course_id in *.
    destruct (OrderItem.kind bad) as [c m | c m | c e m | t c]; try discriminate;
      rewrite Hcourse; simpl; discriminate. }
  destruct (for_each_raises (OrderItem_purchase_item env) PurchasedCallbackException
              (orderitem_set self0 db0) bad Hbad Hfail) with (db := db0) as [db' Hloop].
  { intros x d e' d' _ Hx. apply OrderItem_purchase_item_any in Hx.
    destruct Hx as [_ [_ Hx]]. now apply Hx. }
  exists db'. split; [|split].
  - unfold bind at 1. unfold Order_save, write. fold db0.
    change (Order.order_type self0) with (Order.order_type self). rewrite Hty. simpl.
    unfold bind at 1. unfold ret at 1. unfold bind at 1. unfold read.
    unfold bind at 1. now rewrite Hloop.
  - assert (Ho : orders db' = orders db0).
    { apply (for_each_inv_any (OrderItem_purchase_item env) (fun d => orders d = orders db0)
               (orderitem_set self0 db0)) with (db := db0) (r := inl PurchasedCallbackException);
        [|reflexivity|exact Hloop].
      intros x d r d' _ Hd Hx. apply OrderItem_purchase_item_any in Hx.
      destruct Hx as [Ho _]. congruence. }
    rewrite Ho. simpl. apply save_row_in.
  - intros b.
    apply (for_each_inv_any (OrderItem_purchase_item env)
             (fun d => In (ConfirmationEmails (Order.id self) b) (effects d) ->
                       In (ConfirmationEmails (Order.id self) b) (effects db))
             (orderitem_set self0 db0)) with (db := db0) (r := inl PurchasedCallbackException);
      [|auto|exact Hloop].
    intros x d r d' Hx Hd Hrun Hb. apply Hd.
    apply OrderItem_purchase_item_any in Hrun. destruct Hrun as [_ [He _]].
    unfold orderitem_set in Hx. apply filter_In in Hx. destruct Hx as [_ Hx].
    apply Nat.eqb_eq in Hx. simpl in Hx. rewrite <- Hx. apply He. now rewrite Hx.
Qed.

(** ** The add-to-order factories *)

Lemma OrderItem_add_to_order_accepts (order : Order.t) (currency : string) (db : DB) :
  currency_accepted order currency db ->
  OrderItem_add_to_order order currency db = (inr tt, db).
Proof.
  unfold OrderItem_add_to_order, bind, read. intros [He | ->].
  - rewrite He. now rewrite andb_false_r.
  - now rewrite String.eqb_refl.
Qed.

Lemma OrderItem_add_to_order_rejects (order : Order.t) (currency : string) (db : DB) :
  orderitem_set order db <> [] -> currency <> Order.currency order ->
  OrderItem_add_to_order order currency db = (inl InvalidCartItem, db).
Proof.
  unfold OrderItem_add_to_order, bind, read. intros Hne Hc.
  destruct (orderitem_set order db); [congruence|].
  destruct (String.eqb_spec (Order.currency order) currency); [congruence|reflexivity].
Qed.

Lemma paid_lookup_none (order : Order.t) (course_id : CourseKey) (db : DB) :
  PaidCourseRegistration_contained_in_order order course_id db = false ->
  filter (fun i => is_paidcourseregistration i
                   && Nat.eqb (OrderItem.order i) (Order.id order)
                   && Nat.eqb (OrderItem.user i) (Order.user order)
                   && course_key_eqb (OrderItem.course_id i) course_id) (orderitems db) = [].
Proof.
  intros Hc. destruct (filter _ (orderitems db)) as [|x l] eqn:E; [reflexivity|]. exfalso.
  assert (Hin : In x (filter (fun i => is_paidcourseregistration i
                   && Nat.eqb (OrderItem.order i) (Order.id order)
                   && Nat.eqb (OrderItem.user i) (Order.user order)
                   && course_key_eqb (OrderItem.course_id i) course_id) (orderitems db)))
    by (rewrite E; now left).
  apply filter_In in Hin. destruct Hin as [Hin Hl].
  apply andb_prop in Hl. destruct Hl as [Hl Hk].
  apply andb_prop in Hl. destruct Hl as [Hl _].
  apply andb_prop in Hl. destruct Hl as [Hp Ho].
  unfold PaidCourseRegistration_contained_in_order in Hc.
  assert (Hex : existsb (course_key_eqb course_id)
            (map OrderItem.course_id
               (filter is_paidcourseregistration (orderitem_set order db))) = true).
  { apply existsb_exists. exists (OrderItem.course_id x). split.
    - apply in_map. apply filter_In. split; [|assumption].
      unfold orderitem_set. apply filter_In. now split.
    - now rewrite course_key_eqb_sym. }
  congruence.
Qed.

Lemma bundle_lookup_none (order : Order.t) (course_id : CourseKey) (db : DB) :
  CourseRegCodeItem_contained_in_order order course_id db = false ->
  filter (fun i => is_courseregcodeitem i
                   && Nat.eqb (OrderItem.order i) (Order.id order)
                   && Nat.eqb (OrderItem.user i) (Order.user order)
                   && course_key_eqb (OrderItem.course_id i) course_id) (orderitems db) = [].
Proof.
  intros Hc. destruct (filter _ (orderitems db)) as [|x l] eqn:E; [reflexivity|]. exfalso.
  assert (Hin : In x (filter (fun i => is_courseregcodeitem i
                   && Nat.eqb (OrderItem.order i) (Order.id order)
                   && Nat.eqb (OrderItem.user i) (Order.user order)
                   && course_key_eqb (OrderItem.course_id i) course_id) (orderitems db)))
    by (rewrite E; now left).
  apply filter_In in Hin. destruct Hin as [Hin Hl].
  apply andb_prop in Hl. destruct Hl as [Hl Hk].
  apply andb_prop in Hl. destruct Hl as [Hl _].
  apply andb_prop in Hl. destruct Hl as [Hp Ho].
  unfold CourseRegCodeItem_contained_in_order in Hc.
  assert (Hex : existsb (course_key_eqb course_id)
            (map OrderItem.course_id
               (filter is_courseregcodeitem (orderitem_set order db))) = true).
  { apply existsb_exists. exists (OrderItem.course_id x). split.
    - apply in_map. apply filter_In. split; [|assumption].
      unfold orderitem_set. apply filter_In. now split.
    - now rewrite course_key_eqb_sym. }
  congruence.
Qed.

(** A row of the order for the course makes [contained_in_order] true. *)
Lemma paid_contained (order : Order.t) (course_id : CourseKey) (db : DB) (i : OrderItem.t)
    (m : string) :
  In i (orderitems db) -> OrderItem.order i = Order.id order ->
  OrderItem.kind i = PaidCourseRegistration course_id m ->
  PaidCourseRegistration_contained_in_order order course_id db = true.
Proof.
  intros Hin Ho Hk. unfold PaidCourseRegistration_contained_in_order.
  apply existsb_exists. exists course_id. split; [|apply course_key_eqb_refl].
  apply in_map_iff. exists i. split; [unfold OrderItem.course_id; now rewrite Hk|].
  apply filter_In. split; [|unfold is_paidcourseregistration; now rewrite Hk].
  unfold orderitem_set. apply filter_In. split; [assumption | now apply Nat.eqb_eq].
Qed.

Lemma bundle_contained (order : Order.t) (course_id : CourseKey) (db : DB) (i : OrderItem.t)
    (m : string) :
  In i (orderitems db) -> OrderItem.order i = Order.id order ->
  OrderItem.kind i = CourseRegCodeItem course_id m ->
  CourseRegCodeItem_contained_in_order order course_id db = true.
Proof.
  intros Hin Ho Hk. unfold CourseRegCodeItem_contained_in_order.
  apply existsb_exists. exists course_id. split; [|apply course_key_eqb_refl].
  apply in_map_iff. exists i. split; [unfold OrderItem.course_id; now rewrite Hk|].
  apply filter_In. split; [|unfold is_courseregcodeitem; now rewrite Hk].
  unfold orderitem_set. apply filter_In. split; [assumption | now apply Nat.eqb_eq].
Qed.

(** X7.  [PaidCourseRegistration.add_to_order] validates in this order and
    changes nothing when it rejects: an unknown course raises
    [CourseDoesNotExistException]; a course already in the order as a seat
    raises [ItemAlreadyInCartException]; a user already enrolled raises
    [AlreadyEnrolledInCourseException]; a currency other than the order's,
    on an order that has items, raises [InvalidCartItem]. *)
Theorem seat_add_to_order_rejections (order : Order.t) (course_id : CourseKey)
    (mode_slug : string) (cost : option Money) (currency : option string) (db : DB) :
  let run := PaidCourseRegistration_add_to_order env order course_id mode_slug cost
               currency db in
  (get_course env course_id = None -> run = (inl CourseDoesNotExistException, db)) /\
  (get_course env course_id <> None ->
   PaidCourseRegistration_contained_in_order order course_id db = true ->
   run = (inl ItemAlreadyInCartException, db)) /\
  (get_course env course_id <> None ->
   PaidCourseRegistration_contained_in_order order course_id db = false ->
   is_enrolled env (Order.user order) course_id = true ->
   run = (inl AlreadyEnrolledInCourseException, db)) /\
  (get_course env course_id <> None ->
   PaidCourseRegistration_contained_in_order order course_id db = false ->
   is_enrolled env (Order.user order) course_id = false ->
   orderitem_set order db <> [] ->
   resolved_currency env course_id mode_slug currency <> Order.currency order ->
   run = (inl InvalidCartItem, db)).
Proof.
  cbv zeta. unfold PaidCourseRegistration_add_to_order.
  destruct (get_course env course_id) as [crs|]; repeat split; try congruence.
  - intros _ Hc. unfold bind, read. now rewrite Hc.
  - intros _ Hc He. unfold bind at 1, read at 1. now rewrite Hc, He.
  - intros _ Hc He Hne Hcur. unfold bind at 1, read at 1. rewrite Hc, He.
    fold (resolved_mode env course_id mode_slug).
    fold (resolved_currency env course_id mode_slug currency).
    now rewrite (bind_raise _ _ _ _ _ (OrderItem_add_to_order_rejects _ _ _ Hne Hcur)).
Qed.

(** The run of [PaidCourseRegistration.add_to_order] once its validations
    pass. *)
Lemma seat_add_to_order_accepted (order : Order.t) (course_id : CourseKey)
    (mode_slug : string) (cost : option Money) (currency : option string) (db : DB)
    (crs : Course.t) :
  get_course env course_id = Some crs ->
  PaidCourseRegistration_contained_in_order order course_id db = false ->
  is_enrolled env (Order.user order) course_id = false ->
  currency_accepted order (resolved_currency env course_id mode_slug currency) db ->
  let item := new_seat env (next_pk db) order course_id mode_slug cost currency crs in
  let order' := Order.set_currency order (resolved_currency env course_id mode_slug currency) in
  PaidCourseRegistration_add_to_order env order course_id mode_slug cost currency db =
  (inr (order', item),
   mkDB (save_row Order.id order' (orders db))
        (save_row OrderItem.id item
           (save_row OrderItem.id
              (OrderItem.create (next_pk db) (Order.id order) (Order.user order)
                 (PaidCourseRegistration course_id (DEFAULT_MODE_SLUG env)))
              (orderitems db)))
        (coupons db) (couponredemptions db) (regcoderedemptions db)
        (S (next_pk db)) (effects db)).
Proof.
  intros Hcrs Hc He Hcur. cbv zeta. unfold PaidCourseRegistration_add_to_order.
  rewrite Hcrs. unfold bind at 1, read at 1. rewrite Hc, He.
  fold (resolved_mode env course_id mode_slug).
  fold (resolved_cost env course_id mode_slug cost).
  fold (resolved_currency env course_id mode_slug currency).
  rewrite (bind_run _ _ _ _ _ (OrderItem_add_to_order_accepts _ _ _ Hcur)).
  unfold get_or_create. unfold bind at 1. unfold bind at 1. unfold read at 1.
  rewrite (paid_lookup_none _ _ _ Hc). reflexivity.
Qed.

(** The run of [CourseRegCodeItem.add_to_order] once its validations pass. *)
Lemma bundle_add_to_order_accepted (order : Order.t) (course_id : CourseKey) (qty : Z)
    (mode_slug : string) (cost : option Money) (currency : option string) (db : DB)
    (crs : Course.t) :
  get_course env course_id = Some crs ->
  CourseRegCodeItem_contained_in_order order course_id db = false ->
  is_enrolled env (Order.user order) course_id = false ->
  currency_accepted order (resolved_currency env course_id mode_slug currency) db ->
  let item := new_bundle env (next_pk db) order course_id qty mode_slug cost currency crs in
  let order' := Order.set_currency order (resolved_currency env course_id mode_slug currency) in
  CourseRegCodeItem_add_to_order env order course_id qty mode_slug cost currency db =
  (inr (order', item),
   mkDB (save_row Order.id order' (orders db))
        (save_row OrderItem.id item
           (save_row OrderItem.id
              (OrderItem.create (next_pk db) (Order.id order) (Order.user order)
                 (CourseRegCodeItem course_id (DEFAULT_MODE_SLUG env)))
              (orderitems db)))
        (coupons db) (couponredemptions db) (regcoderedemptions db)
        (S (next_pk db)) (effects db)).
Proof.
  intros Hcrs Hc He Hcur. cbv zeta. unfold CourseRegCodeItem_add_to_order.
  rewrite Hcrs. unfold bind at 1, read at 1. rewrite Hc, He.
  fold (resolved_mode env course_id mode_slug).
  fold (resolved_cost env course_id mode_slug cost).
  fold (resolved_currency env course_id mode_slug currency).
  rewrite (bind_run _ _ _ _ _ (OrderItem_add_to_order_accepts _ _ _ Hcur)).
  unfold get_or_create. unfold bind at 1. unfold bind at 1. unfold read at 1.
  rewrite (bundle_lookup_none _ _ _ Hc). reflexivity.
Qed.

(** X8.  When its validations pass, [PaidCourseRegistration.add_to_order]
    returns a new seat row with the next primary key, the order's status,
    quantity 1, the given cost (the course mode's minimum price when the
    cost is missing or zero) and no list price; the row and the order, now
    in the item's currency, are stored.  Adding the same course to that
    order again, with whatever mode and cost, raises
    [ItemAlreadyInCartException] and changes nothing. *)
Theorem seat_add_to_order_then_duplicate (order : Order.t) (course_id : CourseKey)
    (mode_slug : string) (cost : option Money) (currency : option string) (db : DB)
    (crs : Course.t) :
  get_course env course_id = Some crs ->
  PaidCourseRegistration_contained_in_order order course_id db = false ->
  is_enrolled env (Order.user order) course_id = false ->
  currency_accepted order (resolved_currency env course_id mode_slug currency) db ->
  exists order' item db',
    PaidCourseRegistration_add_to_order env order course_id mode_slug cost currency db
      = (inr (order', item), db') /\
    item = new_seat env (next_pk db) order course_id mode_slug cost currency crs /\
    order' = Order.set_currency order (OrderItem.currency item) /\
    In item (orderitems db') /\ In order' (orders db') /\
    effects db' = effects db /\
    forall mode_slug2 cost2 currency2,
      PaidCourseRegistration_add_to_order env order' course_id mode_slug2 cost2 currency2 db'
      = (inl ItemAlreadyInCartException, db').
Proof.
  intros Hcrs Hc He Hcur.
  pose proof (seat_add_to_order_accepted order course_id mode_slug cost currency db crs
                Hcrs Hc He Hcur) as Hrun. cbv zeta in Hrun.
  eexists. eexists. eexists. split; [exact Hrun|].
  split; [reflexivity|]. split; [reflexivity|].
  split; [simpl; apply save_row_in|]. split; [simpl; apply save_row_in|].
  split; [reflexivity|].
  intros mode_slug2 cost2 currency2. unfold PaidCourseRegistration_add_to_order.
  rewrite Hcrs. unfold bind at 1, read at 1.
  erewrite paid_contained; [reflexivity | simpl; apply save_row_in | reflexivity | reflexivity].
Qed.

(** X9.  When its validations pass, [CourseRegCodeItem.add_to_order]
    returns a new bundle row with the next primary key, the order's
    status, the requested quantity and the resolved cost; the row and the
    order are stored.  Adding a bundle for the same course to that order
    again raises [ItemAlreadyInCartException] and changes nothing; an
    unknown course raises [CourseDoesNotExistException]. *)
Theorem bundle_add_to_order_then_duplicate (order : Order.t) (course_id : CourseKey)
    (qty : Z) (mode_slug : string) (cost : option Money) (currency : option string)
    (db : DB) (crs : Course.t) :
  get_course env course_id = Some crs ->
  CourseRegCodeItem_contained_in_order order course_id db = false ->
  is_enrolled env (Order.user order) course_id = false ->
  currency_accepted order (resolved_currency env course_id mode_slug currency) db ->
  exists order' item db',
    CourseRegCodeItem_add_to_order env order course_id qty mode_slug cost currency db
      = (inr (order', item), db') /\
    item = new_bundle env (next_pk db) order course_id qty mode_slug cost currency crs /\
    order' = Order.set_currency order (OrderItem.currency item) /\
    In item (orderitems db') /\ In order' (orders db') /\
    effects db' = effects db /\
    (forall qty2 mode_slug2 cost2 currency2,
       CourseRegCodeItem_add_to_order env order' course_id qty2 mode_slug2 cost2 currency2 db'
       = (inl ItemAlreadyInCartException, db')) /\
    (forall unknown qty2 mode_slug2 cost2 currency2,
       get_course env unknown = None ->
       CourseRegCodeItem_add_to_order env order' unknown qty2 mode_slug2 cost2 currency2 db'
       = (inl CourseDoesNotExistException, db')).
Proof.
  intros Hcrs Hc He Hcur.
  pose proof (bundle_add_to_order_accepted order course_id qty mode_slug cost currency db crs
                Hcrs Hc He Hcur) as Hrun. cbv zeta in Hrun.
  eexists. eexists. eexists. split; [exact Hrun|].
  split; [reflexivity|]. split; [reflexivity|].
  split; [simpl; apply save_row_in|]. split; [simpl; apply save_row_in|].
  split; [reflexivity|]. split.
  - intros qty2 mode_slug2 cost2 currency2. unfold CourseRegCodeItem_add_to_order.
    rewrite Hcrs. unfold bind at 1, read at 1.
    erewrite bundle_contained; [reflexivity | simpl; apply save_row_in | reflexivity | reflexivity].
  - intros unknown qty2 mode_slug2 cost2 currency2 Hu. unfold CourseRegCodeItem_add_to_order.
    now rewrite Hu.
Qed.

Lemma save_row_at_end {R : Type} (pk : R -> Pk) (a b : R) (table : list R) :
  (forall r, In r table -> pk r <> pk a) -> pk b = pk a ->
  save_row pk b (table ++ [a]) = table ++ [b].
Proof.
  intros Hfresh Hpk. unfold save_row. rewrite existsb_app. simpl.
  rewrite Hpk, Nat.eqb_refl, orb_true_r. simpl. rewrite map_app. simpl.
  rewrite Nat.eqb_refl. f_equal.
  rewrite <- (map_id table) at 2. apply map_ext_in. intros r Hr.
  destruct (Nat.eqb (pk r) (pk a)) eqn:E; [|reflexivity].
  apply Nat.eqb_eq in E. now apply Hfresh in Hr.
Qed.

Lemma save_row_new {R : Type} (pk : R -> Pk) (a : R) (table : list R) :
  (forall r, In r table -> pk r <> pk a) -> save_row pk a table = table ++ [a].
Proof.
  intros Hfresh. apply save_row_absent. intros Hin.
  apply in_map_iff in Hin. destruct Hin as [r [Hr Hin]]. now apply (Hfresh r).
Qed.

(** X10.  [CertificateItem.add_to_order] rejects a currency other than the
    order's (on an order with items) before anything happens, and rejects a
    mode the course does not offer with [InvalidCartItem] after the
    enrollment was got or created, without adding a row.  When it accepts,
    it appends one certificate row at the given cost; adding the same
    certificate again rewrites that row with the new cost instead of
    adding a second one. *)
Theorem certificate_add_to_order_spec (order : Order.t) (course_id : CourseKey)
    (cost cost2 : Money) (mode currency : string) (db : DB) :
  (orderitem_set order db <> [] -> currency <> Order.currency order ->
   CertificateItem_add_to_order env order course_id cost mode currency db
   = (inl InvalidCartItem, db)) /\
  (currency_accepted order currency db ->
   dict_get mode (modes_for_course_dict env course_id) = None ->
   CertificateItem_add_to_order env order course_id cost mode currency db
   = (inl InvalidCartItem,
      set_effects db (effects db ++ [GetOrCreateEnrollment (Order.user order) course_id]))) /\
  (forall mode_info crs,
     ids_below_counter db ->
     currency_accepted order currency db ->
     dict_get mode (modes_for_course_dict env course_id) = Some mode_info ->
     get_course env course_id = Some crs ->
     filter (certificate_lookup env order course_id mode) (orderitems db) = [] ->
     let order' := Order.set_currency order currency in
     let item := new_certificate env (next_pk db) order course_id cost mode currency
                   mode_info crs in
     let item2 := new_certificate env (next_pk db) order course_id cost2 mode currency
                    mode_info crs in
     exists db1 db2,
       CertificateItem_add_to_order env order course_id cost mode currency db
         = (inr (order', item), db1) /\
       orderitems db1 = orderitems db ++ [item] /\
       In order' (orders db1) /\
       CertificateItem_add_to_order env order' course_id cost2 mode currency db1
         = (inr (order', item2), db2) /\
       orderitems db2 = orderitems db ++ [item2]).
Proof.
  split; [|split].
  - intros Hne Hcur. unfold CertificateItem_add_to_order.
    rewrite (commit_on_success_raise _ db db InvalidCartItem); [now destruct db|].
    now rewrite (bind_raise _ _ _ _ _ (OrderItem_add_to_order_rejects _ _ _ Hne Hcur)).
  - intros Hacc Hmode. unfold CertificateItem_add_to_order.
    rewrite (commit_on_success_raise _ db
               (set_effects db
                  (effects db ++ [GetOrCreateEnrollment (Order.user order) course_id]))
               InvalidCartItem); [reflexivity|].
    rewrite (bind_run _ _ _ _ _ (OrderItem_add_to_order_accepts _ _ _ Hacc)).
    unfold bind at 1. unfold emit at 1, write. now rewrite Hmode.
  - intros mode_info crs Hbelow Hacc Hmode Hcrs Hnone. cbv zeta.
    assert (Hfresh : forall r, In r (orderitems db) -> OrderItem.id r <> next_pk db).
    { intros r Hr. apply Hbelow in Hr. lia. }
    set (item := new_certificate env (next_pk db) order course_id cost mode currency
                   mode_info crs).
    set (item2 := new_certificate env (next_pk db) order course_id cost2 mode currency
                    mode_info crs).
    set (order' := Order.set_currency order currency).
    set (item0 := OrderItem.create (next_pk db) (Order.id order) (Order.user order)
                    (CertificateItem course_id
                       (get_or_create_enrollment env (Order.user order) course_id) mode)).
    assert (Hrows1 : save_row OrderItem.id item (save_row OrderItem.id item0 (orderitems db))
                     = orderitems db ++ [item]).
    { rewrite (save_row_new OrderItem.id item0) by exact Hfresh.
      apply save_row_at_end; [exact Hfresh | reflexivity]. }
    set (db1 := mkDB (save_row Order.id order' (orders db)) (orderitems db ++ [item])
                  (coupons db) (couponredemptions db) (regcoderedemptions db)
                  (S (next_pk db))
                  (effects db ++ [GetOrCreateEnrollment (Order.user order) course_id])).
    assert (Hrun1 : CertificateItem_add_to_order env order course_id cost mode currency db
                    = (inr (order', item), db1)).
    { unfold CertificateItem_add_to_order. apply commit_on_success_run.
      rewrite (bind_run _ _ _ _ _ (OrderItem_add_to_order_accepts _ _ _ Hacc)).
      unfold bind at 1. unfold emit at 1, write. rewrite Hmode.
      unfold get_or_create. unfold bind at 1. unfold bind at 1. unfold read at 1.
      fold (certificate_lookup env order course_id mode).
      change (orderitems (set_effects db
                (effects db ++ [GetOrCreateEnrollment (Order.user order) course_id])))
        with (orderitems db).
      rewrite Hnone.
      unfold bind, fresh_pk, OrderItem_save, Order_save, write, ret. cbv beta iota.
      rewrite Hcrs. cbv beta iota. unfold db1. rewrite <- Hrows1. reflexivity. }
    assert (Hlook : filter (certificate_lookup env order' course_id mode) (orderitems db1)
                    = [item]).
    { simpl orderitems. rewrite filter_app.
      change (certificate_lookup env order' course_id mode)
        with (certificate_lookup env order course_id mode).
      rewrite Hnone. simpl. unfold certificate_lookup. simpl.
      now rewrite !Nat.eqb_refl, course_key_eqb_refl, String.eqb_refl. }
    exists db1. eexists. split; [exact Hrun1|]. split; [reflexivity|].
    split; [simpl; apply save_row_in|]. split.
    + unfold CertificateItem_add_to_order. apply commit_on_success_run.
      rewrite (bind_run _ _ _ _ _
                 (OrderItem_add_to_order_accepts order' currency db1 (or_intror eq_refl))).
      unfold bind at 1. unfold emit at 1, write. rewrite Hmode.
      unfold get_or_create. unfold bind at 1. unfold bind at 1. unfold read at 1.
      fold (certificate_lookup env order' course_id mode).
      change (orderitems (set_effects db1
                (effects db1 ++ [GetOrCreateEnrollment (Order.user order') course_id])))
        with (orderitems db1).
      rewrite Hlook.
      unfold bind, OrderItem_save, Order_save, write, ret. cbv beta iota.
      rewrite Hcrs. cbv beta iota. reflexivity.
    + simpl. apply save_row_at_end; [exact Hfresh | reflexivity].
Qed.

(** X11.  [Donation.add_to_order] rejects a currency other than the order's
    (on an order with items) with [InvalidCartItem] and a donation for an
    unknown course with [CourseDoesNotExistException], changing nothing.
    Otherwise it stores one donation row of quantity 1 at the donated
    amount, of type "course" when a course is given and "general" when
    none is, and leaves the order rows (also the order's currency) as they
    are.  The fulfilment callback of a donation does nothing. *)
Theorem donation_add_to_order_spec (order : Order.t) (donation_amount : Money)
    (course_id : CourseKey) (currency : string) (db : DB) :
  (orderitem_set order db <> [] -> currency <> Order.currency order ->
   Donation_add_to_order env order donation_amount course_id currency db
   = (inl InvalidCartItem, db)) /\
  (currency_accepted order currency db ->
   course_id <> None -> get_course env course_id = None ->
   Donation_add_to_order env order donation_amount course_id currency db
   = (inl CourseDoesNotExistException, db)) /\
  (currency_accepted order currency db ->
   (course_id = None \/ get_course env course_id <> None) ->
   exists description item db',
     Donation_add_to_order env order donation_amount course_id currency db
       = (inr item, db') /\
     item = new_donation (next_pk db) order donation_amount course_id currency description /\
     In item (orderitems db') /\
     orders db' = orders db /\ effects db' = effects db /\
     purchased_callback env item db' = (inr tt, db')).
Proof.
  split; [|split].
  - intros Hne Hcur. unfold Donation_add_to_order.
    now rewrite (bind_raise _ _ _ _ _ (OrderItem_add_to_order_rejects _ _ _ Hne Hcur)).
  - intros Hacc Hsome Hnone. unfold Donation_add_to_order.
    rewrite (bind_run _ _ _ _ _ (OrderItem_add_to_order_accepts _ _ _ Hacc)).
    unfold bind at 1. unfold Donation_line_item_description.
    destruct course_id as [k|]; [|congruence]. now rewrite Hnone.
  - intros Hacc Hcourse. unfold Donation_add_to_order.
    rewrite (bind_run _ _ _ _ _ (OrderItem_add_to_order_accepts _ _ _ Hacc)).
    unfold bind at 1. unfold Donation_line_item_description.
    destruct course_id as [k|].
    + destruct Hcourse as [Hc | Hc]; [discriminate|].
      destruct (get_course env (Some k)) as [c|]; [|congruence].
      eexists. eexists. eexists. split; [reflexivity|].
      split; [reflexivity|]. split; [simpl; apply save_row_in|]. now repeat split.
    + eexists. eexists. eexists. split; [reflexivity|].
      split; [reflexivity|]. split; [simpl; apply save_row_in|]. now repeat split.
Qed.

(** ** Redeeming registration codes and coupons *)

Lemma not_redeemed_filter (code : CourseRegistrationCode.t) (db : DB) :
  ~ already_redeemed code db ->
  filter (fun r => Nat.eqb (RegistrationCodeRedemption.registration_code r)
                     (CourseRegistrationCode.id code))
         (regcoderedemptions db) = [].
Proof.
  intros Hn. destruct (filter _ (regcoderedemptions db)) as [|r l] eqn:E; [reflexivity|].
  exfalso. apply Hn.
  assert (Hin : In r (filter (fun r => Nat.eqb (RegistrationCodeRedemption.registration_code r)
                     (CourseRegistrationCode.id code)) (regcoderedemptions db)))
    by (rewrite E; now left).
  apply filter_In in Hin. destruct Hin as [Hin Hr]. apply Nat.eqb_eq in Hr. now exists r.
Qed.

Lemma add_reg_code_redemption_loop_fresh
    (code : CourseRegistrationCode.t) (order : Order.t) (db : DB) :
  ~ already_redeemed code db ->
  forall cart_items,
    add_reg_code_redemption_loop env code order cart_items db =
    match find (matches_course (CourseRegistrationCode.course_id code)) cart_items with
    | None => (inl ItemDoesNotExistAgainstRegCodeException, db)
    | Some item =>
        (inr code,
         mkDB (orders db) (save_row OrderItem.id (reg_code_discounted item) (orderitems db))
              (coupons db) (couponredemptions db)
              (regcoderedemptions db ++ [new_code_redemption env (next_pk db) code order])
              (S (next_pk db)) (effects db))
    end.
Proof.
  intros Hn. pose proof (not_redeemed_filter code db Hn) as Hf.
  induction cart_items as [|item rest IH]; [reflexivity|].
  simpl. unfold matches_course at 1.
  destruct (truthy_key (OrderItem.course_id item)
            && course_key_eqb (OrderItem.course_id item)
                 (CourseRegistrationCode.course_id code)).
  - unfold bind at 1, read at 1. rewrite Hf. reflexivity.
  - exact IH.
Qed.

(** X12.  Redeeming a registration code that has no redemption record: when
    the order holds no item of the code's course the call raises
    [ItemDoesNotExistAgainstRegCodeException] and changes nothing;
    otherwise the first such item gets [unit_cost] 0 with its former cost
    as [list_price], one redemption record for the order and its user is
    added, and from then on every attempt to redeem the code, against
    whatever order, raises and changes nothing. *)
Theorem reg_code_redemption_first_time
    (code : CourseRegistrationCode.t) (order : Order.t) (db : DB) :
  ~ already_redeemed code db ->
  match find (matches_course (CourseRegistrationCode.course_id code))
             (orderitem_set order db) with
  | None =>
      RegistrationCodeRedemption_add_reg_code_redemption env code order db
      = (inl ItemDoesNotExistAgainstRegCodeException, db)
  | Some item =>
      exists db1,
        RegistrationCodeRedemption_add_reg_code_redemption env code order db
          = (inr code, db1) /\
        orderitems db1 = save_row OrderItem.id (reg_code_discounted item) (orderitems db) /\
        OrderItem.unit_cost (reg_code_discounted item) = 0 /\
        OrderItem.list_price (reg_code_discounted item) = Some (OrderItem.unit_cost item) /\
        regcoderedemptions db1
          = regcoderedemptions db ++ [new_code_redemption env (next_pk db) code order] /\
        orders db1 = orders db /\ effects db1 = effects db /\
        forall order2, exists e,
          RegistrationCodeRedemption_add_reg_code_redemption env code order2 db1
          = (inl e, db1)
  end.
Proof.
  intros Hn.
  assert (Hrun :
    RegistrationCodeRedemption_add_reg_code_redemption env code order db
    = add_reg_code_redemption_loop env code order (orderitem_set order db) db)
    by reflexivity.
  rewrite (add_reg_code_redemption_loop_fresh code order db Hn) in Hrun.
  destruct (find _ (orderitem_set order db)) as [item|]; [|exact Hrun].
  eexists. split; [exact Hrun|]. repeat (split; [reflexivity|]).
  intros order2. eexists.
  unfold RegistrationCodeRedemption_add_reg_code_redemption, bind, read.
  apply add_reg_code_redemption_loop_redeemed.
  eexists. split; [simpl; apply in_app_iff; right; left; reflexivity | reflexivity].
Qed.

(** X13.  A redemption recorded for an invoice-generated code carries no
    order.  It makes the code already redeemed, so redeeming the code on an
    order raises and changes nothing; and [delete_registration_redemption]
    never removes it, for whatever user and cart. *)
Theorem invoice_redemption_is_final (code : CourseRegistrationCode.t) (user : Pk) (db : DB) :
  exists db1,
    RegistrationCodeRedemption_create_invoice_generated_registration_redemption
      env code user db = (inr tt, db1) /\
    regcoderedemptions db1 =
      regcoderedemptions db
      ++ [RegistrationCodeRedemption.mk (next_pk db) None (CourseRegistrationCode.id code)
            user (Some (class_load_time env))] /\
    orderitems db1 = orderitems db /\
    (forall order, exists e,
       RegistrationCodeRedemption_add_reg_code_redemption env code order db1 = (inl e, db1)) /\
    (forall u cart, exists db2,
       RegistrationCodeRedemption_delete_registration_redemption u cart db1 = (inr tt, db2) /\
       already_redeemed code db2).
Proof.
  eexists. split.
  { unfold RegistrationCodeRedemption_create_invoice_generated_registration_redemption.
    cbv beta iota zeta delta [bind fresh_pk write]. reflexivity. }
  split; [reflexivity|]. split; [reflexivity|]. split.
  - intros order. eexists.
    unfold RegistrationCodeRedemption_add_reg_code_redemption, bind, read.
    apply add_reg_code_redemption_loop_redeemed.
    eexists. split; [simpl; apply in_app_iff; right; left; reflexivity | reflexivity].
  - intros u cart. eexists. split; [apply delete_registration_redemption_run|].
    exists (RegistrationCodeRedemption.mk (next_pk db) None (CourseRegistrationCode.id code)
              user (Some (class_load_time env))).
    split; [|reflexivity].
    simpl. apply filter_In. split.
    + apply in_app_iff. right. now left.
    + unfold redemption_of. simpl. now rewrite andb_false_r.
Qed.

Lemma add_coupon_redemption_loop_run
    (coupon : Coupon.t) (order : Order.t) (db : DB) (cart_items : list OrderItem.t) :
  add_coupon_redemption_loop coupon order cart_items db =
  match find (matches_course (Coupon.course_id coupon)) cart_items with
  | None => (inr false, db)
  | Some item =>
      (inr true,
       mkDB (orders db) (save_row OrderItem.id (coupon_discounted coupon item) (orderitems db))
            (coupons db)
            (couponredemptions db
             ++ [CouponRedemption.mk (next_pk db) (Order.id order) (Order.user order)
                   (Coupon.id coupon)])
            (regcoderedemptions db) (S (next_pk db)) (effects db))
  end.
Proof.
  induction cart_items as [|item rest IH]; [reflexivity|].
  simpl. unfold matches_course at 1.
  destruct (truthy_key (OrderItem.course_id item)
            && course_key_eqb (OrderItem.course_id item) (Coupon.course_id coupon)).
  - reflexivity.
  - exact IH.
Qed.

Lemma add_coupon_redemption_no_prior
    (coupon : Coupon.t) (order : Order.t) (cart_items : list OrderItem.t) (db : DB) :
  filter (coupon_redemption_of (Order.user order) order) (couponredemptions db) = [] ->
  CouponRedemption_add_coupon_redemption coupon order cart_items db
  = add_coupon_redemption_loop coupon order cart_items db.
Proof.
  intros Hnone. unfold CouponRedemption_add_coupon_redemption, bind at 1, read at 1.
  rewrite Hnone. reflexivity.
Qed.

(** X14.  Applying a coupon to an order that has no coupon redemption of
    its user: when no cart item is of the coupon's course the call returns
    False and changes nothing; otherwise it returns True, only the first
    such item is repriced (its former cost kept as [list_price]) and one
    redemption record is added.  If the coupon is a stored one, applying
    it again to the order raises [MultipleCouponsNotAllowedException] and
    changes nothing. *)
Theorem coupon_redemption_first_time
    (coupon : Coupon.t) (order : Order.t) (cart_items : list OrderItem.t) (db : DB) :
  filter (coupon_redemption_of (Order.user order) order) (couponredemptions db) = [] ->
  match find (matches_course (Coupon.course_id coupon)) cart_items with
  | None =>
      CouponRedemption_add_coupon_redemption coupon order cart_items db = (inr false, db)
  | Some item =>
      exists db1,
        CouponRedemption_add_coupon_redemption coupon order cart_items db = (inr true, db1) /\
        orderitems db1 = save_row OrderItem.id (coupon_discounted coupon item) (orderitems db) /\
        couponredemptions db1 =
          couponredemptions db
          ++ [CouponRedemption.mk (next_pk db) (Order.id order) (Order.user order)
                (Coupon.id coupon)] /\
        orders db1 = orders db /\ effects db1 = effects db /\
        (In coupon (coupons db) ->
         forall cart_items2,
           CouponRedemption_add_coupon_redemption coupon order cart_items2 db1
           = (inl MultipleCouponsNotAllowedException, db1))
  end.
Proof.
  intros Hnone.
  pose proof (add_coupon_redemption_no_prior coupon order cart_items db Hnone) as Hrun.
  rewrite add_coupon_redemption_loop_run in Hrun.
  destruct (find _ cart_items) as [item|]; [|exact Hrun].
  eexists. split; [exact Hrun|]. repeat (split; [reflexivity|]).
  intros Hstored cart_items2.
  unfold CouponRedemption_add_coupon_redemption, bind at 1, read at 1.
  simpl couponredemptions. rewrite filter_app, Hnone. simpl.
  unfold coupon_redemption_of at 1. simpl. rewrite !Nat.eqb_refl. simpl.
  unfold bind at 1. unfold bind at 1.
  unfold check_coupon_redemption at 1, bind, read, coupon_of. simpl.
  destruct (find (fun c => Nat.eqb (Coupon.id c) (Coupon.id coupon)) (coupons db))
    as [c|] eqn:Ef.
  - apply find_some in Ef. destruct Ef as [_ Ec].
    unfold coupon_conflict. now rewrite Ec, orb_true_r.
  - exfalso. apply (find_none _ _ Ef) in Hstored. now rewrite Nat.eqb_refl in Hstored.
Qed.

(** X15.  On an order without a coupon redemption of its user, applying a
    coupon and then calling [delete_coupon_redemption] for that user and
    order brings the redemption table back to what it was, while the
    repriced item stays repriced. *)
Theorem coupon_add_then_delete
    (coupon : Coupon.t) (order : Order.t) (cart_items : list OrderItem.t) (db db1 : DB) :
  filter (coupon_redemption_of (Order.user order) order) (couponredemptions db) = [] ->
  CouponRedemption_add_coupon_redemption coupon order cart_items db = (inr true, db1) ->
  exists db2,
    CouponRedemption_delete_coupon_redemption (Order.user order) order db1 = (inr tt, db2) /\
    couponredemptions db2 = couponredemptions db /\
    orderitems db2 = orderitems db1 /\
    exists item, In item cart_items /\ In (coupon_discounted coupon item) (orderitems db2).
Proof.
  intros Hnone Hrun.
  rewrite (add_coupon_redemption_no_prior coupon order cart_items db Hnone) in Hrun.
  rewrite add_coupon_redemption_loop_run in Hrun.
  destruct (find _ cart_items) as [item|] eqn:Ef; [|discriminate].
  injection Hrun as <-.
  eexists. split; [apply delete_coupon_redemption_run|].
  split; [|split; [reflexivity|]].
  - simpl. rewrite filter_app, (filter_none_negb _ _ Hnone). simpl.
    unfold coupon_redemption_of at 1. simpl. rewrite !Nat.eqb_refl. simpl.
    apply app_nil_r.
  - exists item. apply find_some in Ef. split; [tauto|]. simpl. apply save_row_in.
Qed.

(** ** CourseRegistrationCode.free_user_enrollment *)

Lemma free_enrollment_loop (cart : Order.t) (todo : list OrderItem.t) :
  (forall x, In x todo -> OrderItem.order x = Order.id cart) ->
  forall db,
  (forall i, In i (orderitems db) -> OrderItem.order i = Order.id cart ->
             OrderItem.status i = purchased \/ In i todo) ->
  exists ys db',
    for_each
      (fun item =>
         emit (Enroll (Order.user cart) (OrderItem.course_id item) None) ;;
         let item := OrderItem.set_status item purchased in
         OrderItem_save item ;;
         ret item) todo db = (inr ys, db') /\
    (forall i, In i (orderitems db') -> OrderItem.order i = Order.id cart ->
               OrderItem.status i = purchased) /\
    orders db' = orders db /\
    effects db' =
      effects db ++ map (fun i => Enroll (Order.user cart) (OrderItem.course_id i) None) todo.
Proof.
  induction todo as [|x todo IH]; intros Hall db Hinv.
  - exists [], db. split; [reflexivity|]. split; [|split; [reflexivity|]].
    + intros i Hi Ho. destruct (Hinv i Hi Ho) as [H | []]. exact H.
    + simpl. now rewrite app_nil_r.
  - set (db1 := set_orderitems
                  (set_effects db
                     (effects db ++ [Enroll (Order.user cart) (OrderItem.course_id x) None]))
                  (save_row OrderItem.id (OrderItem.set_status x purchased) (orderitems db))).
    destruct (IH (fun i Hi => Hall i (or_intror Hi)) db1)
      as [ys [db' [Hrun [Hfin [Ho He]]]]].
    + intros i Hin Hord. simpl in Hin. apply in_save_row in Hin.
      destruct Hin as [-> | [Hin Hne]]; [now left|].
      destruct (Hinv i Hin Hord) as [Hp | [Hx | Ht]]; [now left | | now right].
      subst i. simpl in Hne. congruence.
    + exists (OrderItem.set_status x purchased :: ys), db'.
      split; [|split; [exact Hfin|split; [exact Ho|]]].
      * change (for_each ?f (x :: todo) db) with
          (bind (f x) (fun y => bind (for_each f todo) (fun ys => ret (y :: ys))) db).
        unfold bind at 1. cbv beta.
        change ((emit (Enroll (Order.user cart) (OrderItem.course_id x) None) ;;
                 OrderItem_save (OrderItem.set_status x purchased) ;;
                 ret (OrderItem.set_status x purchased)) db)
          with (@inr Exn _ (OrderItem.set_status x purchased), db1).
        cbv beta iota. now rewrite (bind_run _ _ _ _ _ Hrun).
      * rewrite He. simpl. now rewrite <- app_assoc.
Qed.

(** X16.  [free_user_enrollment] does nothing on a cart without items.  On
    a cart with items it enrolls the user once per item, in item order, with
    no other external effect (no fulfilment callback, no e-mail), sets the
    status of every item of the cart to 'purchased' (no item row is added
    or removed, every row of the cart in the resulting table is
    'purchased', and with unique item keys the resulting table is the
    former one with each row of the cart replaced by its copy in status
    'purchased' and every other row as it was), and stores the cart as
    'purchased' with the purchase time. *)
Theorem free_user_enrollment_spec (cart : Order.t) (db : DB) :
  (orderitem_set cart db = [] ->
   CourseRegistrationCode_free_user_enrollment env cart db = (inr cart, db)) /\
  (orderitem_set cart db <> [] ->
   let cart' := Order.set_purchase_time (Order.set_status cart purchased) (Some (now env)) in
   exists db',
     CourseRegistrationCode_free_user_enrollment env cart db = (inr cart', db') /\
     In cart' (orders db') /\
     (forall i, In i (orderitems db') -> OrderItem.order i = Order.id cart ->
                OrderItem.status i = purchased) /\
     map OrderItem.id (orderitems db') = map OrderItem.id (orderitems db) /\
     (unique_item_ids db ->
      orderitems db' =
        map (fun i => if Nat.eqb (OrderItem.order i) (Order.id cart)
                      then OrderItem.set_status i purchased else i) (orderitems db)) /\
     effects db' =
       effects db
       ++ map (fun i => Enroll (Order.user cart) (OrderItem.course_id i) None)
              (orderitem_set cart db)).
Proof.
  split.
  - intros He. unfold CourseRegistrationCode_free_user_enrollment, bind, read.
    now rewrite He.
  - intros Hne. cbv zeta.
    destruct (free_enrollment_loop cart (orderitem_set cart db)) with (db := db)
      as [ys [db1 [Hrun [Hall [Ho He]]]]].
    { intros x Hx. unfold orderitem_set in Hx. apply filter_In in Hx.
      destruct Hx as [_ Hx]. now apply Nat.eqb_eq in Hx. }
    { intros i Hi Hord. right. unfold orderitem_set. apply filter_In.
      split; [assumption | now apply Nat.eqb_eq]. }
    assert (Hbody : forall x d y d',
              (emit (Enroll (Order.user cart) (OrderItem.course_id x) None) ;;
               OrderItem_save (OrderItem.set_status x purchased) ;;
               ret (OrderItem.set_status x purchased)) d = (inr y, d') ->
              orderitems d' =
                save_row OrderItem.id (OrderItem.set_status x purchased) (orderitems d)).
    { intros x d y d' Hx. cbv [bind emit OrderItem_save write ret] in Hx.
      now injection Hx as _ <-. }
    pose (body := fun item : OrderItem.t =>
            emit (Enroll (Order.user cart) (OrderItem.course_id item) None) ;;
            let item := OrderItem.set_status item purchased in
            OrderItem_save item ;;
            ret item).
    assert (Hkeys : map OrderItem.id (orderitems db1) = map OrderItem.id (orderitems db)).
    { apply (row_saving_loop_keys body (fun i => OrderItem.set_status i purchased)
               (fun x => eq_refl) (orderitem_set cart db)) with (ys := ys);
        [|exact Hrun|].
      - intros x d y d' _ Hx. exact (Hbody x d y d' Hx).
      - intros x Hx. unfold orderitem_set in Hx. apply filter_In in Hx.
        apply in_map. tauto. }
    assert (Hrows : unique_item_ids db ->
              orderitems db1 =
                map (fun i => if Nat.eqb (OrderItem.order i) (Order.id cart)
                              then OrderItem.set_status i purchased else i) (orderitems db)).
    { intros Hu.
      rewrite (row_rewriting_loop body (fun i => OrderItem.set_status i purchased)
                 (fun x => eq_refl) (orderitem_set cart db))
        with (db := db) (ys := ys) (db' := db1); try assumption.
      - apply map_ext_in. intros i Hi. now rewrite (listed_orderitem_set cart db i Hu Hi).
      - intros x d y d' _ Hx. left. exact (Hbody x d y d' Hx).
      - apply NoDup_map_filter. exact Hu.
      - intros x Hx. unfold orderitem_set in Hx. apply filter_In in Hx. tauto. }
    unfold CourseRegistrationCode_free_user_enrollment. unfold bind at 1. unfold read at 1.
    destruct (orderitem_set cart db) as [|x l] eqn:Eitems; [congruence|].
    rewrite (bind_run _ _ _ _ _ Hrun).
    eexists. split; [reflexivity|]. split; [simpl; apply save_row_in|].
    split; [exact Hall|]. split; [exact Hkeys|]. split; [exact Hrows|]. exact He.
Qed.

(** ** CertificateItem.refund_cert_callback *)

Lemma filter_after_rewrite (p : OrderItem.t -> bool) (c c' : OrderItem.t)
    (l rest : list OrderItem.t) :
  NoDup (map OrderItem.id l) -> filter p l = c :: rest ->
  p c' = false -> 
  filter p (map (fun x => if Nat.eqb (OrderItem.id x) (OrderItem.id c) then c' else x) l)
  = rest.
Proof.
  revert rest. induction l as [|x l IH]; intros rest Hnd Hf Hc'; [discriminate|].
  inversion Hnd as [|? ? Hnx Hnd']; subst. simpl in Hf. simpl.
  destruct (p x) eqn:Epx.
  - injection Hf as -> <-. rewrite Nat.eqb_refl, Hc'.
    assert (Hsame : map (fun x => if Nat.eqb (OrderItem.id x) (OrderItem.id c) then c' else x) l
                    = l).
    { rewrite <- (map_id l) at 2. apply map_ext_in. intros y Hy.
      destruct (Nat.eqb (OrderItem.id y) (OrderItem.id c)) eqn:E; [|reflexivity].
      apply Nat.eqb_eq in E. exfalso. apply Hnx. rewrite <- E. now apply in_map. }
    now rewrite Hsame.
  - assert (Hcin : In c l).
    { assert (H : In c (filter p l)) by (rewrite Hf; now left).
      apply filter_In in H. tauto. }
    destruct (Nat.eqb (OrderItem.id x) (OrderItem.id c)) eqn:E.
    + apply Nat.eqb_eq in E. exfalso. apply Hnx. rewrite E. now apply in_map.
    + rewrite Epx. now apply IH.
Qed.

Lemma refund_cert_callback_unfold (course_enrollment : CourseEnrollment.t) (db : DB) :
  CertificateItem_refund_cert_callback env course_enrollment db =
  if negb (CourseEnrollment.refundable course_enrollment) then (inr None, db)
  else
    match filter (refund_target course_enrollment) (orderitems db) with
    | [] => (inr None, db)
    | cert :: _ =>
        let db1 := set_orderitems db
                     (save_row OrderItem.id (refunded_copy env cert) (orderitems db)) in
        match find (fun o => Nat.eqb (Order.id o) (OrderItem.order cert)) (orders db) with
        | None => (inl DoesNotExist, db1)
        | Some order =>
            (inr (Some (refunded_copy env cert)),
             set_effects
               (set_orders db1 (save_row Order.id (Order.set_status order refunded) (orders db)))
               (effects db ++ [RefundEmail (OrderItem.order cert)]))
        end
    end.
Proof.
  unfold CertificateItem_refund_cert_callback.
  destruct (negb (CourseEnrollment.refundable course_enrollment)); [reflexivity|].
  unfold bind at 1. unfold read at 1.
  change (filter _ (orderitems db))
    with (filter (refund_target course_enrollment) (orderitems db)).
  destruct (filter (refund_target course_enrollment) (orderitems db)) as [|cert rest];
    [reflexivity|].
  cbv zeta. unfold bind at 1. unfold OrderItem_save at 1, write.
  unfold bind at 1. unfold read at 1.
  change (find _ (orders (set_orderitems db _)))
    with (find (fun o => Nat.eqb (Order.id o) (OrderItem.order cert)) (orders db)).
  destruct (find (fun o => Nat.eqb (Order.id o) (OrderItem.order cert)) (orders db));
    reflexivity.
Qed.

(** X17.  [refund_cert_callback] returns nothing and changes nothing when
    the enrollment is not refundable or the user has no purchased verified
    certificate for the course.  Otherwise it marks the first such
    certificate 'refunded' with the request time, sets the certificate's
    order to 'refunded' and asks for one refund e-mail; with unique item
    keys the certificate is then no longer a candidate, so a repeated
    unenrollment does not refund it again. *)
Theorem refund_cert_callback_spec (course_enrollment : CourseEnrollment.t) (db : DB) :
  (CourseEnrollment.refundable course_enrollment = false \/
   filter (refund_target course_enrollment) (orderitems db) = [] ->
   CertificateItem_refund_cert_callback env course_enrollment db = (inr None, db)) /\
  (forall cert rest order,
     CourseEnrollment.refundable course_enrollment = true ->
     filter (refund_target course_enrollment) (orderitems db) = cert :: rest ->
     find (fun o => Nat.eqb (Order.id o) (OrderItem.order cert)) (orders db) = Some order ->
     unique_item_ids db ->
     exists db',
       CertificateItem_refund_cert_callback env course_enrollment db
         = (inr (Some (refunded_copy env cert)), db') /\
       In (refunded_copy env cert) (orderitems db') /\
       In (Order.set_status order refunded) (orders db') /\
       effects db' = effects db ++ [RefundEmail (OrderItem.order cert)] /\
       filter (refund_target course_enrollment) (orderitems db') = rest).
Proof.
  split.
  - intros H. rewrite refund_cert_callback_unfold.
    destruct (negb (CourseEnrollment.refundable course_enrollment)) eqn:E; [reflexivity|].
    destruct H as [H | H]; [rewrite H in E; discriminate | now rewrite H].
  - intros cert rest order Hr Hf Ho Hu. rewrite refund_cert_callback_unfold.
    rewrite Hr, Hf. cbv zeta. rewrite Ho. simpl negb. cbv iota.
    eexists. split; [reflexivity|]. split; [simpl; apply save_row_in|].
    split; [simpl; apply save_row_in|]. split; [reflexivity|].
    simpl orderitems.
    assert (Hin : In cert (orderitems db)).
    { assert (H : In cert (filter (refund_target course_enrollment) (orderitems db)))
        by (rewrite Hf; now left).
      apply filter_In in H. tauto. }
    rewrite (save_row_unique OrderItem.id cert (refunded_copy env cert) (orderitems db) Hu Hin)
      by reflexivity.
    apply filter_after_rewrite; [exact Hu | exact Hf |].
    unfold refund_target, refunded_copy. simpl.
    destruct (OrderItem.kind cert); try reflexivity.
    now rewrite andb_false_r.
Qed.

(** ** Order.total_cost *)

Lemma num_digits_small (n : Z) : 0 <= n < 10 ^ 28 -> num_digits n <= 28.
Proof.
  intros [H0 Hn]. destruct (Z.eq_dec n 0) as [-> | Hne]; [vm_compute; discriminate|].
  destruct (num_digits_lower n ltac:(lia)) as [Hlow _].
  destruct (Z_le_gt_dec (num_digits n) 28) as [H | H]; [exact H|]. exfalso.
  assert (Hpow : 10 ^ 28 <= 10 ^ (num_digits n - 1)) by (apply Z.pow_le_mono_r; lia).
  lia.
Qed.

(** The context leaves a coefficient of at most 28 digits as it is. *)
Lemma fix_small (c e : Z) :
  Z.abs c < 10 ^ 28 -> Decimal._fix (Decimal.mk c e) = Decimal.mk c e.
Proof.
  intros H. unfold Decimal._fix. cbn [Decimal.coeff Decimal.exp].
  assert (Hd : num_digits (Z.abs c) <= 28) by (apply num_digits_small; lia).
  unfold Decimal.prec. apply Z.leb_le in Hd. now rewrite Hd.
Qed.

Lemma line_cost_small (i : OrderItem.t) :
  Z.abs (qty_times_unit_cost i) < 10 ^ 28 ->
  OrderItem_line_cost i = Decimal.of_cents (qty_times_unit_cost i).
Proof.
  intros H. unfold OrderItem_line_cost, Decimal.mul, Decimal.of_int, Decimal.of_cents.
  cbn [Decimal.coeff Decimal.exp]. change (0 + -2) with (-2). now apply fix_small.
Qed.

(** Adding a line cost to the running total of [sum], which starts as the
    [int] 0 and is a number of cents from the first addition on. *)
Lemma add_small (acc : Decimal.t) (s p : Z) :
  acc = Decimal.of_cents s \/ (acc = Decimal.of_int 0 /\ s = 0) ->
  Z.abs (s + p) < 10 ^ 28 ->
  Decimal.add acc (Decimal.of_cents p) = Decimal.of_cents (s + p).
Proof.
  intros [-> | [-> ->]] H; unfold Decimal.add, Decimal.of_cents, Decimal.of_int;
    cbn [Decimal.coeff Decimal.exp].
  - change (Z.min (-2) (-2)) with (-2). change (-2 - -2) with 0. change (10 ^ 0) with 1.
    rewrite !Z.mul_1_r. now apply fix_small.
  - change (Z.min 0 (-2)) with (-2). change (-2 - -2) with 0. change (10 ^ 0) with 1.
    rewrite Z.mul_0_l, Z.mul_1_r. now apply fix_small.
Qed.

Lemma total_fold_exact (l : list OrderItem.t) :
  forall acc s,
  acc = Decimal.of_cents s \/ (acc = Decimal.of_int 0 /\ s = 0) ->
  Z.abs s + fold_right Z.add 0 (map (fun i => Z.abs (qty_times_unit_cost i)) l) < 10 ^ 28 ->
  Decimal.to_cents (fold_left Decimal.add (map OrderItem_line_cost l) acc)
  = s + fold_right Z.add 0 (map qty_times_unit_cost l).
Proof.
  induction l as [|i l IH]; intros acc s Hacc Hb.
  - simpl. destruct Hacc as [-> | [-> ->]]; unfold Decimal.to_cents; simpl; lia.
  - cbn [map fold_left fold_right] in *.
    assert (Hrest : 0 <= fold_right Z.add 0 (map (fun i => Z.abs (qty_times_unit_cost i)) l)).
    { clear. induction l as [|x l IH]; simpl; [lia|].
      pose proof (Z.abs_nonneg (qty_times_unit_cost x)). lia. }
    rewrite line_cost_small by lia.
    rewrite (add_small acc s (qty_times_unit_cost i) Hacc) by lia.
    rewrite (IH _ (s + qty_times_unit_cost i)); [lia | now left | lia].
Qed.

Lemma expected_total_filtered (self : Order.t) (rows : list OrderItem.t) :
  expected_total self rows
  = fold_right Z.add 0
      (map qty_times_unit_cost
         (filter (fun i => status_eqb (OrderItem.status i) (Order.status self))
            (filter (fun i => Nat.eqb (OrderItem.order i) (Order.id self)) rows))).
Proof.
  induction rows as [|i rows IH]; [reflexivity|].
  cbn [expected_total filter]. rewrite IH.
  destruct (Nat.eqb (OrderItem.order i) (Order.id self)); cbn [andb filter]; [|lia].
  destruct (status_eqb (OrderItem.status i) (Order.status self)); cbn [map fold_right];
    unfold qty_times_unit_cost; lia.
Qed.

Lemma expected_magnitude_filtered (self : Order.t) (rows : list OrderItem.t) :
  expected_magnitude self rows
  = fold_right Z.add 0
      (map (fun i => Z.abs (qty_times_unit_cost i))
         (filter (fun i => status_eqb (OrderItem.status i) (Order.status self))
            (filter (fun i => Nat.eqb (OrderItem.order i) (Order.id self)) rows))).
Proof.
  induction rows as [|i rows IH]; [reflexivity|].
  cbn [expected_magnitude filter]. rewrite IH.
  destruct (Nat.eqb (OrderItem.order i) (Order.id self)); cbn [andb filter]; [|lia].
  destruct (status_eqb (OrderItem.status i) (Order.status self)); cbn [map fold_right];
    unfold qty_times_unit_cost; lia.
Qed.

(** C8.  When the line costs that count add up, in absolute value, to less
    than 10^28 cents, [total_cost] is the sum of [qty * unit_cost] over
    exactly the rows of the order whose status equals the order's current
    status.  Whatever the amounts, a row whose status differs contributes
    nothing: without it the total is the same. *)
Theorem total_cost_spec (self : Order.t) (db : DB) :
  (expected_magnitude self (orderitems db) < 10 ^ 28 ->
   Decimal.to_cents (Order_total_cost self db) = expected_total self (orderitems db)) /\
  (forall pre i post,
      orderitems db = pre ++ i :: post ->
      OrderItem.status i <> Order.status self ->
      Order_total_cost self db = Order_total_cost self (set_orderitems db (pre ++ post))).
Proof.
  split.
  - intros Hb. rewrite expected_magnitude_filtered in Hb. rewrite expected_total_filtered.
    unfold Order_total_cost, orderitem_set.
    rewrite (total_fold_exact _ (Decimal.of_int 0) 0); [lia | now right | simpl Z.abs; lia].
  - intros pre i post Hrows Hne. unfold Order_total_cost, orderitem_set.
    cbn [orderitems set_orderitems]. rewrite Hrows, !filter_app. cbn [filter].
    apply status_eqb_neq in Hne.
    destruct (Nat.eqb (OrderItem.order i) (Order.id self)); [|reflexivity].
    cbn [filter]. now rewrite Hne.
Qed.

(** ** Order.has_items, Order.clear, Order.user_cart_has_items *)

(** X18.  [has_items] without an item type says whether the order has any
    row, and agrees with asking for the base class; a subclass found
    implies that the order has items.  After [clear] the order has no items
    of any type and its total cost is zero, while the rows of other orders
    are untouched. *)
Theorem has_items_and_clear (self : Order.t) (db : DB) :
  (Order_has_items self None db = true <->
   exists i, In i (orderitems db) /\ OrderItem.order i = Order.id self) /\
  Order_has_items self (Some OrderItem_class) db = Order_has_items self None db /\
  (forall item_type, Order_has_items self (Some item_type) db = true ->
                     Order_has_items self None db = true) /\
  exists db',
    Order_clear self db = (inr tt, db') /\
    (forall item_type, Order_has_items self item_type db' = false) /\
    Order_total_cost self db' = Decimal.of_int 0 /\
    (forall i, In i (orderitems db') <->
               In i (orderitems db) /\ OrderItem.order i <> Order.id self) /\
    orders db' = orders db.
Proof.
  split; [|split; [|split]].
  - unfold Order_has_items, orderitem_set. split.
    + destruct (filter _ (orderitems db)) as [|i l] eqn:E; [discriminate|]. intros _.
      assert (H : In i (filter (fun i => Nat.eqb (OrderItem.order i) (Order.id self))
                          (orderitems db))) by (rewrite E; now left).
      apply filter_In in H. destruct H as [H Ho]. apply Nat.eqb_eq in Ho. now exists i.
    + intros [i [Hi Ho]].
      assert (H : In i (filter (fun i => Nat.eqb (OrderItem.order i) (Order.id self))
                          (orderitems db))).
      { apply filter_In. split; [assumption | now apply Nat.eqb_eq]. }
      destruct (filter _ (orderitems db)); [destruct H | reflexivity].
  - unfold Order_has_items. now destruct (orderitem_set self db).
  - intros item_type. unfold Order_has_items.
    destruct (orderitem_set self db); [discriminate | reflexivity].
  - assert (Hempty : orderitem_set self
              (set_orderitems db
                 (filter (fun i => negb (Nat.eqb (OrderItem.order i) (Order.id self)))
                         (orderitems db))) = []).
    { unfold orderitem_set. simpl.
      induction (orderitems db) as [|i l IH]; [reflexivity|]. simpl.
      destruct (Nat.eqb (OrderItem.order i) (Order.id self)) eqn:E; simpl; [exact IH|].
      now rewrite E. }
    eexists. split; [reflexivity|]. split; [|split; [|split; [|reflexivity]]].
    + intros [item_type|]; unfold Order_has_items; now rewrite Hempty.
    + unfold Order_total_cost. now rewrite Hempty.
    + intros i. simpl. rewrite filter_In, negb_true_iff, Nat.eqb_neq. tauto.
Qed.

(** X19.  [user_cart_has_items] answers False for a user who is not
    authenticated and does not touch the database.  For an authenticated
    user it goes through [get_cart_for_user]: when the user has no cart
    (and no item row points to the next order key) the answer is False,
    whatever item types are asked for, and a cart has been created. *)
Theorem user_cart_has_items_spec (user : Pk) (item_types : option (list ItemClass))
    (db : DB) :
  Order_user_cart_has_items user false item_types db = (inr false, db) /\
  (filter (is_cart_of user) (orders db) = [] ->
   (forall i, In i (orderitems db) -> OrderItem.order i <> next_pk db) ->
   exists db',
     Order_user_cart_has_items user true item_types db = (inr false, db') /\
     In (Order.create (next_pk db) user cart) (orders db') /\
     orderitems db' = orderitems db).
Proof.
  split; [reflexivity|]. intros Hnone Hrows.
  set (o := Order.create (next_pk db) user cart).
  set (db' := set_orders (set_next_pk db (S (next_pk db))) (save_row Order.id o (orders db))).
  assert (Hempty : orderitem_set o db' = []).
  { unfold orderitem_set. simpl.
    destruct (filter _ (orderitems db)) as [|i l] eqn:E; [reflexivity|]. exfalso.
    assert (H : In i (filter (fun i => Nat.eqb (OrderItem.order i) (next_pk db))
                        (orderitems db))) by (rewrite E; now left).
    apply filter_In in H. destruct H as [H Ho]. apply Nat.eqb_eq in Ho.
    exact (Hrows i H Ho). }
  assert (Hfalse : forall t, Order_has_items o t db' = false).
  { intros [t|]; unfold Order_has_items; now rewrite Hempty. }
  exists db'. split; [|split; [simpl; apply save_row_in | reflexivity]].
  unfold Order_user_cart_has_items. change (negb true) with false. cbv iota.
  rewrite (bind_run _ _ _ _ _ (get_cart_for_user_created user db Hnone)).
  fold o. fold db'.
  destruct item_types as [[|t l]|]; unfold read; try now rewrite Hfalse.
  f_equal. f_equal. apply not_true_is_false. intros H.
  apply existsb_exists in H. destruct H as [t' [_ H]]. now rewrite Hfalse in H.
Qed.

(** ** Composition of price resets and status transitions *)

Lemma reset_price_idempotent (item : OrderItem.t) :
  reset_price (reset_price item) = reset_price item.
Proof.
  destruct (OrderItem.list_price item) as [p|] eqn:E.
  - destruct (p =? 0) eqn:Ep.
    + assert (H : reset_price item = item) by (unfold reset_price; now rewrite E, Ep).
      now rewrite !H.
    + assert (H : reset_price item
                  = OrderItem.set_list_price (OrderItem.set_unit_cost item p) None)
        by (unfold reset_price; now rewrite E, Ep).
      rewrite H. reflexivity.
  - assert (H : reset_price item = item) by (unfold reset_price; now rewrite E).
    now rewrite !H.
Qed.

(** X20.  With unique item keys, [reset_cart_items_prices] is idempotent:
    a second reset changes no row.  It never changes a quantity, a status
    or a key, and after it no row of the order has a list price other than
    unset or zero. *)
Theorem reset_cart_items_prices_idempotent (self : Order.t) (db : DB) :
  unique_item_ids db ->
  exists db1 db2,
    Order_reset_cart_items_prices self db = (inr tt, db1) /\
    Order_reset_cart_items_prices self db1 = (inr tt, db2) /\
    orderitems db2 = orderitems db1 /\
    map (fun i => (OrderItem.id i, OrderItem.order i, OrderItem.status i, OrderItem.qty i))
        (orderitems db1)
    = map (fun i => (OrderItem.id i, OrderItem.order i, OrderItem.status i, OrderItem.qty i))
          (orderitems db) /\
    (forall i, In i (orderitems db1) -> OrderItem.order i = Order.id self ->
               OrderItem.list_price i = None \/ OrderItem.list_price i = Some 0).
Proof.
  intros Hu.
  destruct (Order_reset_cart_items_prices_run self db Hu) as [db1 [Hrun1 [Hrows1 _]]].
  assert (Hproj : forall i,
            (OrderItem.id (reset_price i), OrderItem.order (reset_price i),
             OrderItem.status (reset_price i), OrderItem.qty (reset_price i))
            = (OrderItem.id i, OrderItem.order i, OrderItem.status i, OrderItem.qty i)).
  { intros i. unfold reset_price. destruct (OrderItem.list_price i) as [p|]; [|reflexivity].
    now destruct (p =? 0). }
  assert (Hu1 : unique_item_ids db1).
  { unfold unique_item_ids. rewrite Hrows1, map_map.
    erewrite map_ext; [exact Hu|]. intros i. cbv beta.
    destruct (Nat.eqb (OrderItem.order i) (Order.id self)); [|reflexivity].
    apply reset_price_id. }
  destruct (Order_reset_cart_items_prices_run self db1 Hu1) as [db2 [Hrun2 [Hrows2 _]]].
  exists db1, db2. split; [assumption|]. split; [assumption|]. split; [|split].
  - rewrite Hrows2, Hrows1, map_map. apply map_ext. intros i.
    destruct (Nat.eqb (OrderItem.order i) (Order.id self)) eqn:E.
    + assert (Ho : OrderItem.order (reset_price i) = OrderItem.order i)
        by (pose proof (Hproj i) as H; now injection H).
      rewrite Ho, E. apply reset_price_idempotent.
    + now rewrite E.
  - rewrite Hrows1, map_map. apply map_ext. intros i.
    destruct (Nat.eqb (OrderItem.order i) (Order.id self)); [apply Hproj | reflexivity].
  - intros i Hi Ho. rewrite Hrows1 in Hi. apply in_map_iff in Hi.
    destruct Hi as [i0 [Hi0 _]].
    destruct (Nat.eqb (OrderItem.order i0) (Order.id self)) eqn:E.
    + subst i. unfold reset_price. destruct (OrderItem.list_price i0) as [p|] eqn:Ep.
      * destruct (p =? 0) eqn:Ez; [|now left].
        apply Z.eqb_eq in Ez. right. now rewrite Ep, Ez.
      * left. exact Ep.
    + subst i. apply Nat.eqb_neq in E. contradiction.
Qed.

Lemma counted_rows_rewritten (o o' : Order.t) (g : OrderItem.t -> OrderItem.t)
    (rows : list OrderItem.t) :
  Order.id o' = Order.id o ->
  (forall i, OrderItem.order (g i) = OrderItem.order i /\
             OrderItem.qty (g i) = OrderItem.qty i /\
             OrderItem.unit_cost (g i) = OrderItem.unit_cost i /\
             OrderItem.status (g i) = Order.status o') ->
  (forall i, In i rows -> OrderItem.order i = Order.id o ->
             OrderItem.status i = Order.status o) ->
  map OrderItem_line_cost
    (filter (fun i => status_eqb (OrderItem.status i) (Order.status o'))
       (filter (fun i => Nat.eqb (OrderItem.order i) (Order.id o'))
          (map (fun i => if Nat.eqb (OrderItem.order i) (Order.id o) then g i else i) rows)))
  = map OrderItem_line_cost
      (filter (fun i => status_eqb (OrderItem.status i) (Order.status o))
         (filter (fun i => Nat.eqb (OrderItem.order i) (Order.id o)) rows)).
Proof.
  intros Hid Hg. rewrite Hid.
  induction rows as [|i rows IH]; intros Hmirror; [reflexivity|].
  assert (IH' := IH (fun j Hj => Hmirror j (or_intror Hj))). clear IH.
  cbn [map filter]. destruct (Hg i) as [Ho [Hq [Hc Hs]]].
  destruct (Nat.eqb (OrderItem.order i) (Order.id o)) eqn:E.
  - rewrite Ho, E. cbn [filter]. rewrite Hs, status_eqb_refl.
    apply Nat.eqb_eq in E. rewrite (Hmirror i (or_introl eq_refl) E), status_eqb_refl.
    cbn [map]. rewrite IH'. f_equal.
    unfold OrderItem_line_cost. now rewrite Hq, Hc.
  - rewrite E. exact IH'.
Qed.

Lemma Order_start_purchase_rows (self : Order.t) (db : DB) :
  unique_item_ids db -> Order.status self = cart ->
  exists db',
    Order_start_purchase self db = (inr (Order.set_status self paying), db') /\
    orderitems db' =
      map (fun i => if Nat.eqb (OrderItem.order i) (Order.id self)
                    then OrderItem.set_status i paying else i) (orderitems db).
Proof.
  intros Hu Hst.
  set (self' := Order.set_status self paying).
  set (db0 := set_orders db (save_row Order.id self' (orders db))).
  destruct (start_purchase_loop_frame (orderitem_set self' db0) db0)
    as [ys [db1 [Hloop _]]].
  exists db1. split.
  - unfold Order_start_purchase. rewrite Hst. change (status_eqb cart cart) with true.
    cbv iota zeta. fold self'.
    unfold bind at 1. unfold Order_save, write. fold db0.
    unfold bind at 1. unfold read. now rewrite (bind_run _ _ _ _ _ Hloop).
  - rewrite (row_rewriting_loop OrderItem_start_purchase
               (fun i => OrderItem.set_status i paying) (fun x => eq_refl)
               (orderitem_set self' db0)) with (db := db0) (ys := ys) (db' := db1);
      try assumption.
    + apply map_ext_in. intros i Hi.
      now rewrite (listed_orderitem_set self' db0 i Hu Hi).
    + intros x d y d' _ Hx. left. rewrite OrderItem_start_purchase_run in Hx.
      now injection Hx as _ <-.
    + apply NoDup_map_filter. exact Hu.
    + intros x Hx. unfold orderitem_set in Hx. apply filter_In in Hx. tauto.
Qed.

(** C7.  [Order.start_purchase] leaves an order that is not in status 'cart'
    and the whole database untouched.  On an order in status 'cart' it
    returns normally, sets the order's status to 'paying' (on the instance
    and in its saved row) and sets the status of every item of the order to
    'paying': no item row is added or removed, every row of the order in
    the resulting table is 'paying', and with unique item keys the
    resulting table is the former one with each row of the order replaced
    by its copy in status 'paying' and every other row as it was. *)
Theorem start_purchase_spec (self : Order.t) (db : DB) :
  (Order.status self <> cart -> Order_start_purchase self db = (inr self, db)) /\
  (Order.status self = cart ->
   exists db',
     Order_start_purchase self db = (inr (Order.set_status self paying), db') /\
     In (Order.set_status self paying) (orders db') /\
     (forall i, In i (orderitems db') -> OrderItem.order i = Order.id self ->
                OrderItem.status i = paying) /\
     map OrderItem.id (orderitems db') = map OrderItem.id (orderitems db) /\
     (unique_item_ids db ->
      orderitems db' =
        map (fun i => if Nat.eqb (OrderItem.order i) (Order.id self)
                      then OrderItem.set_status i paying else i) (orderitems db))).
Proof.
  split; intros Hst.
  - unfold Order_start_purchase. apply status_eqb_neq in Hst. now rewrite Hst.
  - set (self' := Order.set_status self paying).
    set (db1 := set_orders db (save_row Order.id self' (orders db))).
    destruct (start_purchase_loop (Order.id self) (orderitem_set self' db1)) with (db := db1)
      as [ys [db' [Hrun [Hfin [Ho He]]]]].
    { intros i Hi. unfold orderitem_set in Hi. apply filter_In in Hi.
      destruct Hi as [_ Hi]. now apply Nat.eqb_eq in Hi. }
    { intros i Hin Hord. right. unfold orderitem_set. apply filter_In.
      split; [assumption|]. now apply Nat.eqb_eq. }
    assert (Hwhole : Order_start_purchase self db = (inr self', db')).
    { unfold Order_start_purchase. rewrite Hst. change (status_eqb cart cart) with true.
      cbv iota zeta. fold self'.
      unfold bind at 1. unfold Order_save, write. fold db1.
      unfold bind at 1. unfold read. now rewrite (bind_run _ _ _ _ _ Hrun). }
    exists db'. split; [exact Hwhole|]. split; [|split; [|split]].
    + rewrite Ho. simpl. apply save_row_in.
    + intros i Hin Hord. destruct (Hfin i Hin Hord) as [H | []]. exact H.
    + change (orderitems db) with (orderitems db1).
      apply (row_saving_loop_keys OrderItem_start_purchase
               (fun i => OrderItem.set_status i paying) (fun x => eq_refl)
               (orderitem_set self' db1)) with (ys := ys); [|exact Hrun|].
      * intros x d y d' _ Hx. rewrite OrderItem_start_purchase_run in Hx.
        now injection Hx as _ <-.
      * intros x Hx. unfold orderitem_set in Hx. apply filter_In in Hx.
        apply in_map. tauto.
    + intros Hu. destruct (Order_start_purchase_rows self db Hu Hst) as [db2 [Hrun2 Hrows]].
      fold self' in Hrun2. rewrite Hwhole in Hrun2. injection Hrun2 as <-. exact Hrows.
Qed.

(** X21.  When every item of an order mirrors the order's status and item
    keys are unique, the status transitions keep the order's total:
    [start_purchase] on a cart, and [purchase] on an order classified
    'personal', return an order whose [total_cost] is the one it had
    before. *)
Theorem total_cost_survives_transitions (self : Order.t) (db : DB) :
  unique_item_ids db ->
  (forall i, In i (orderitems db) -> OrderItem.order i = Order.id self ->
             OrderItem.status i = Order.status self) ->
  (Order.status self = cart ->
   exists self' db',
     Order_start_purchase self db = (inr self', db') /\
     Order.status self' = paying /\
     Order_total_cost self' db' = Order_total_cost self db) /\
  (forall self' db' first last street1 street2 city state postalcode country ccnum
          cardtype processor_reply_dump,
     Order.status self <> purchased -> Order.order_type self = PERSONAL ->
     Order_purchase env self first last street1 street2 city state postalcode country
       ccnum cardtype processor_reply_dump db = (inr self', db') ->
     Order_total_cost self' db' = Order_total_cost self db).
Proof.
  intros Hu Hmirror. split.
  - intros Hst. destruct (Order_start_purchase_rows self db Hu Hst) as [db' [Hrun Hrows]].
    exists (Order.set_status self paying), db'. split; [assumption|]. split; [reflexivity|].
    unfold Order_total_cost, orderitem_set. rewrite Hrows. f_equal.
    apply counted_rows_rewritten; [reflexivity | now repeat split | exact Hmirror].
  - intros self' db' first last street1 street2 city state postalcode country ccnum
           cardtype processor_reply_dump Hst Hty Hrun.
    rewrite (Order_purchase_unfold _ _ _ _ _ _ _ _ _ _ _ _ Hst) in Hrun. cbv zeta in Hrun.
    set (self0 := stamped env self first last street1 street2 city state postalcode country
                    ccnum cardtype processor_reply_dump) in *.
    apply bind_inr in Hrun. destruct Hrun as [[] [db0 [Hsave Hrun]]].
    unfold Order_save, write in Hsave. injection Hsave as <-.
    change (Order.order_type self0) with (Order.order_type self) in Hrun.
    rewrite Hty in Hrun. simpl order_type_eqb in Hrun. cbv iota in Hrun.
    apply bind_inr in Hrun. destruct Hrun as [o [db1 [Hret Hrun]]].
    unfold ret in Hret. injection Hret as <- <-.
    apply bind_inr in Hrun. destruct Hrun as [its [db1' [Hread Hrun]]].
    unfold read in Hread. injection Hread as <- <-.
    apply bind_inr in Hrun. destruct Hrun as [ys [db2 [Hloop Hrun]]].
    run. injection Hrun as <- <-.
    destruct (purchase_loop_run self0
                (set_orders db (save_row Order.id self0 (orders db))) db2 ys Hu Hloop)
      as [Hrows _].
    unfold Order_total_cost, orderitem_set. simpl orderitems. rewrite Hrows.
    simpl orderitems. f_equal.
    apply (counted_rows_rewritten self self0 (purchased_copy env));
      [reflexivity | now repeat split | exact Hmirror].
Qed.

(** X22.  For a percentage from 0 to 100 and a value from $0.00 to
    $10,000,000,000.00 the discounted price lies between zero and the
    value; 0% leaves the value as it is and 100% gives zero. *)
Theorem discount_price_bounds (percentage_discount : Z) (value : Money) :
  0 <= percentage_discount <= 100 -> 0 <= value <= 10 ^ 12 ->
  0 <= CouponRedemption_get_discount_price percentage_discount value <= value /\
  (percentage_discount = 0 ->
   CouponRedemption_get_discount_price percentage_discount value = value) /\
  (percentage_discount = 100 ->
   CouponRedemption_get_discount_price percentage_discount value = 0).
Proof.
  intros Hp Hc.
  pose proof (get_discount_price_nearest percentage_discount value Hp Hc) as Hn.
  set (r := CouponRedemption_get_discount_price percentage_discount value) in *.
  assert (H0 : 0 <= value * percentage_discount <= value * 100) by nia.
  split; [split; lia|]. split; intros ->; lia.
Qed.

(** ** Order.update_order_type on its own *)

(** What a successful [PaidCourseRegistration.add_to_order] did. *)
Lemma PaidCourseRegistration_add_to_order_run
    (order : Order.t) (course_id : CourseKey) (mode_slug : string)
    (cost : option Money) (currency : option string)
    (db db' : DB) (order' : Order.t) (item : OrderItem.t) :
  PaidCourseRegistration_add_to_order env order course_id mode_slug cost currency db
    = (inr (order', item), db') ->
  OrderItem.id item = next_pk db /\
  OrderItem.order item = Order.id order /\
  OrderItem.qty item = 1 /\
  (exists m, OrderItem.kind item = PaidCourseRegistration course_id m) /\
  next_pk db' = S (next_pk db) /\
  orderitems db' =
    save_row OrderItem.id item
      (save_row OrderItem.id
         (OrderItem.create (next_pk db) (Order.id order) (Order.user order)
            (PaidCourseRegistration course_id (DEFAULT_MODE_SLUG env)))
         (orderitems db)).
Proof.
  unfold PaidCourseRegistration_add_to_order.
  destruct (get_course env course_id) as [crs|]; [|discriminate].
  intros H. apply bind_inr in H. destruct H as [contained [db1 [Hc H]]].
  unfold read in Hc. injection Hc as Econt Hdb. subst db1.
  destruct contained; [discriminate|].
  destruct (is_enrolled env (Order.user order) course_id); [discriminate|].
  apply bind_inr in H. destruct H as [[] [db1 [Hcur H]]].
  apply OrderItem_add_to_order_run in Hcur. subst db1.
  apply bind_inr in H. destruct H as [it0 [db1 [Hgoc H]]].
  apply get_or_create_run in Hgoc.
  destruct Hgoc as [[Hfound _] | [Hfound [Hit0 Hdb1]]].
  - exfalso. rewrite (paid_lookup_none _ _ _ Econt) in Hfound. discriminate.
  - run. inversion H; subst. clear H. simpl.
    repeat split; try reflexivity. eexists. reflexivity.
Qed.

Lemma PaidCourseRegistration_add_to_order_appends
    (order : Order.t) (course_id : CourseKey) (mode_slug : string)
    (cost : option Money) (currency : option string)
    (db db' : DB) (order' : Order.t) (item : OrderItem.t) :
  ids_below_counter db ->
  PaidCourseRegistration_add_to_order env order course_id mode_slug cost currency db
    = (inr (order', item), db') ->
  orderitems db' = orderitems db ++ [item].
Proof.
  intros Hbelow Hrun. apply PaidCourseRegistration_add_to_order_run in Hrun.
  destruct Hrun as [Hid [_ [_ [_ [_ Hrows]]]]]. rewrite Hrows.
  assert (Hfresh : forall r, In r (orderitems db) -> OrderItem.id r <> next_pk db).
  { intros r Hr. apply Hbelow in Hr. lia. }
  rewrite (save_row_new OrderItem.id
             (OrderItem.create (next_pk db) (Order.id order) (Order.user order)
                (PaidCourseRegistration course_id (DEFAULT_MODE_SLUG env)))) by exact Hfresh.
  apply save_row_at_end; [exact Hfresh | exact Hid].
Qed.

(** The loop of the personal branch of [update_order_type]: every bundle row
    it visits gets a single-seat row of quantity 1 with a fresh key. *)
Lemma to_single_fold (todo : list OrderItem.t) :
  forall o dels db o' dels' db',
  wf_items db ->
  for_fold (to_single_step env) (o, dels) todo db = (inr (o', dels'), db') ->
  wf_items db' /\ (next_pk db <= next_pk db')%nat /\
  same_but_currency o o' /\
  dels' = dels ++ filter is_courseregcodeitem todo /\
  (forall r, In r (orderitems db) -> In r (orderitems db')) /\
  (forall r, In r (orderitems db') ->
     In r (orderitems db) \/
     ((next_pk db <= OrderItem.id r)%nat /\ is_paidcourseregistration r = true)) /\
  (forall c, In c todo -> is_courseregcodeitem c = true ->
     exists j m, In j (orderitems db') /\ (next_pk db <= OrderItem.id j)%nat /\
       OrderItem.order j = Order.id o /\
       OrderItem.kind j = PaidCourseRegistration (OrderItem.course_id c) m /\
       OrderItem.qty j = 1).
Proof.
  induction todo as [|x todo IH]; intros o dels db o' dels' db' Hwf Hrun.
  - simpl in Hrun. unfold ret in Hrun. injection Hrun as <- <- <-.
    split; [assumption|]. split; [lia|]. split; [apply same_but_currency_refl|].
    split; [now rewrite app_nil_r|]. split; [auto|]. split; [auto|].
    intros c [].
  - simpl in Hrun. apply bind_inr in Hrun. destruct Hrun as [[o1 dels1] [db1 [Hstep Hrun]]].
    unfold to_single_step in Hstep.
    destruct (is_courseregcodeitem x) eqn:Ex.
    + apply bind_inr in Hstep. destruct Hstep as [[o2 j] [db2 [Hadd Hstep]]].
      unfold ret in Hstep. simpl in Hstep. injection Hstep as <- <- <-.
      destruct Hwf as [Hu Hb].
      pose proof (PaidCourseRegistration_add_to_order_appends _ _ _ _ _ _ _ _ _ Hb Hadd)
        as Hrows.
      pose proof (PaidCourseRegistration_add_to_order_order _ _ _ _ _ _ _ _ _ Hadd) as Hsame.
      apply PaidCourseRegistration_add_to_order_run in Hadd.
      destruct Hadd as [Hjid [Hjord [Hjqty [[m Hjkind] [Hnext _]]]]].
      assert (Hwf1 : wf_items db2).
      { split.
        - unfold unique_item_ids. rewrite Hrows, map_app. simpl.
          apply NoDup_app; [exact Hu | repeat constructor; intros [] |].
          intros n Hn [<- | []]. apply in_map_iff in Hn. destruct Hn as [r [Hr Hin]].
          apply Hb in Hin. lia.
        - intros r Hr. rewrite Hrows in Hr. rewrite Hnext.
          apply in_app_iff in Hr. destruct Hr as [Hr | [<- | []]].
          + apply Hb in Hr. lia.
          + lia. }
      destruct (IH o2 (dels ++ [x]) db2 o' dels' db' Hwf1 Hrun)
        as [Hwf' [Hle [Hs [Hdels [Hold [Hnew Hcp]]]]]].
      split; [assumption|]. split; [lia|].
      split; [eapply same_but_currency_trans; eassumption|].
      split; [simpl; rewrite Ex, Hdels, <- app_assoc; reflexivity|].
      split; [|split].
      * intros r Hr. apply Hold. rewrite Hrows. apply in_app_iff. now left.
      * intros r Hr. destruct (Hnew r Hr) as [Hr1 | [Hge Hcr]].
        -- rewrite Hrows in Hr1. apply in_app_iff in Hr1.
           destruct Hr1 as [Hr1 | [<- | []]]; [now left|]. right.
           split; [lia|]. unfold is_paidcourseregistration. now rewrite Hjkind.
        -- right. split; [lia | assumption].
      * intros c [<- | Hc] Hk.
        -- exists j, m. split.
           ++ apply Hold. rewrite Hrows. apply in_app_iff. right. now left.
           ++ repeat split; try assumption. lia.
        -- destruct (Hcp c Hc Hk) as [j' [m' [Hin' [Hge' [Hord' [Hk' Hq']]]]]].
           exists j', m'. repeat split; try assumption; [lia|].
           apply same_but_currency_fields in Hsame. destruct Hsame as [Hid _]. congruence.
    + unfold ret in Hstep. injection Hstep as <- <- <-.
      destruct (IH o dels db o' dels' db' Hwf Hrun)
        as [Hwf' [Hle [Hs [Hdels [Hold [Hnew Hcp]]]]]].
      split; [assumption|]. split; [assumption|]. split; [assumption|].
      split; [simpl; now rewrite Ex|]. split; [assumption|]. split; [assumption|].
      intros c [<- | Hc] Hk; [congruence|]. now apply Hcp.
Qed.

(** After the replacing loop, deleting the rows of kind [isK] of the order:
    none of them is left, the rows added by the loop (of kind [isK']) and
    all other old rows stay. *)
Lemma replaced_rows (isK isK' : OrderItem.t -> bool) (self : Order.t)
    (db : DB) (rows1 rows2 : list OrderItem.t) :
  wf_items db ->
  (forall r, isK r = true -> isK' r = true -> False) ->
  (forall r, In r (orderitems db) -> In r rows1) ->
  (forall r, In r rows1 ->
     In r (orderitems db) \/ ((next_pk db <= OrderItem.id r)%nat /\ isK' r = true)) ->
  rows2 = filter (fun r => negb (listed (filter isK (orderitem_set self db)) r)) rows1 ->
  (forall r, In r rows2 -> OrderItem.order r = Order.id self -> isK r = false) /\
  (forall i, In i (orderitems db) -> OrderItem.order i = Order.id self -> isK i = true ->
             forall r, In r rows2 -> OrderItem.id r <> OrderItem.id i) /\
  (forall j, In j rows1 -> (next_pk db <= OrderItem.id j)%nat -> In j rows2) /\
  (forall r, In r (orderitems db) -> OrderItem.order r <> Order.id self \/ isK r = false ->
             In r rows2).
Proof.
  intros [Hu Hb] Hexcl Hold Hnew ->.
  assert (Hlisted : forall r i, In i (orderitems db) -> OrderItem.order i = Order.id self ->
            isK i = true -> OrderItem.id r = OrderItem.id i ->
            listed (filter isK (orderitem_set self db)) r = true).
  { intros r i Hi Ho Hp Hri. apply existsb_exists. exists i. split.
    - apply filter_In. split; [|assumption]. unfold orderitem_set. apply filter_In.
      split; [assumption|]. now apply Nat.eqb_eq.
    - apply Nat.eqb_eq. congruence. }
  assert (Hunlisted : forall r, listed (filter isK (orderitem_set self db)) r = true ->
            exists z, In z (orderitems db) /\ OrderItem.order z = Order.id self /\
                      isK z = true /\ OrderItem.id z = OrderItem.id r).
  { intros r Hl. apply existsb_exists in Hl. destruct Hl as [z [Hz Hzr]].
    apply Nat.eqb_eq in Hzr. apply filter_In in Hz. destruct Hz as [Hz Hk].
    unfold orderitem_set in Hz. apply filter_In in Hz. destruct Hz as [Hz Ho].
    apply Nat.eqb_eq in Ho. now exists z. }
  split; [|split; [|split]].
  - intros r Hr Hord. apply filter_In in Hr. destruct Hr as [Hr Hnl].
    apply negb_true_iff in Hnl. destruct (isK r) eqn:Ek; [|reflexivity]. exfalso.
    destruct (Hnew r Hr) as [Hr0 | [_ Hk']].
    + rewrite (Hlisted r r) in Hnl; (assumption || reflexivity || discriminate).
    + exact (Hexcl r Ek Hk').
  - intros i Hi Hord Hk r Hr Hri. apply filter_In in Hr. destruct Hr as [_ Hnl].
    apply negb_true_iff in Hnl. rewrite (Hlisted r i) in Hnl; (assumption || discriminate).
  - intros j Hj Hge. apply filter_In. split; [assumption|].
    apply negb_true_iff. apply not_true_is_false. intros Hl.
    destruct (Hunlisted j Hl) as [z [Hz [_ [_ Hzj]]]]. apply Hb in Hz. lia.
  - intros r Hr Hkeep. apply filter_In. split; [now apply Hold|].
    apply negb_true_iff. apply not_true_is_false. intros Hl.
    destruct (Hunlisted r Hl) as [z [Hz [Ho [Hk Hzr]]]].
    assert (z = r) by now apply (NoDup_map_in_eq OrderItem.id z r (orderitems db)).
    subst z. destruct Hkeep; congruence.
Qed.

(** X23.  [update_order_type], when it returns normally in a database with
    unique item keys below the key counter, stores the order it returns.
    If some item of the order has a quantity above 1 the order becomes
    'business' and each of its single-seat rows is replaced by a bundle row
    of the same course and quantity; otherwise the order becomes 'personal'
    and each of its bundle rows is replaced by a single-seat row of the
    same course with quantity 1.  Rows of other orders and rows of the
    order that are not of the replaced kind stay as they are. *)
Theorem update_order_type_spec (self self' : Order.t) (db db' : DB) :
  wf_items db ->
  Order_update_order_type env self db = (inr self', db') ->
  In self' (orders db') /\ Order.id self' = Order.id self /\
  (existsb (fun i => 1 <? OrderItem.qty i) (orderitem_set self db) = true ->
   Order.order_type self' = BUSINESS /\
   (forall r, In r (orderitems db') -> OrderItem.order r = Order.id self ->
              is_paidcourseregistration r = false) /\
   (forall i, In i (orderitems db) -> OrderItem.order i = Order.id self ->
              is_paidcourseregistration i = true ->
      (forall r, In r (orderitems db') -> OrderItem.id r <> OrderItem.id i) /\
      exists j m, In j (orderitems db') /\ OrderItem.order j = Order.id self /\
        OrderItem.kind j = CourseRegCodeItem (OrderItem.course_id i) m /\
        OrderItem.qty j = OrderItem.qty i) /\
   (forall r, In r (orderitems db) ->
      OrderItem.order r <> Order.id self \/ is_paidcourseregistration r = false ->
      In r (orderitems db'))) /\
  (existsb (fun i => 1 <? OrderItem.qty i) (orderitem_set self db) = false ->
   Order.order_type self' = PERSONAL /\
   (forall r, In r (orderitems db') -> OrderItem.order r = Order.id self ->
              is_courseregcodeitem r = false) /\
   (forall i, In i (orderitems db) -> OrderItem.order i = Order.id self ->
              is_courseregcodeitem i = true ->
      (forall r, In r (orderitems db') -> OrderItem.id r <> OrderItem.id i) /\
      exists j m, In j (orderitems db') /\ OrderItem.order j = Order.id self /\
        OrderItem.kind j = PaidCourseRegistration (OrderItem.course_id i) m /\
        OrderItem.qty j = 1) /\
   (forall r, In r (orderitems db) ->
      OrderItem.order r <> Order.id self \/ is_courseregcodeitem r = false ->
      In r (orderitems db'))).
Proof.
  intros Hwf Hrun.
  pose proof (Order_update_order_type_saved _ _ _ _ Hrun) as Hsaved.
  split; [exact Hsaved|].
  unfold Order_update_order_type in Hrun.
  apply bind_inr in Hrun. destruct Hrun as [cart_items [db0 [Hr Hrun]]].
  unfold read in Hr. injection Hr as <- <-.
  apply bind_inr in Hrun. destruct Hrun as [[o dels] [db1 [Hfold Hrun]]].
  apply bind_inr in Hrun. destruct Hrun as [ys [db2 [Hdel Hrun]]].
  run. injection Hrun as <- <-.
  destruct (delete_loop_run dels db1) as [ys' [db2' [Hdel' [Hrows _]]]].
  rewrite Hdel in Hdel'. injection Hdel' as _ <-.
  assert (Hin_set : forall i, In i (orderitems db) -> OrderItem.order i = Order.id self ->
                              In i (orderitem_set self db)).
  { intros i Hi Ho. unfold orderitem_set. apply filter_In.
    split; [assumption | now apply Nat.eqb_eq]. }
  destruct (existsb _ (orderitem_set self db)) eqn:Ebig.
  - destruct (to_bundle_fold _ _ _ _ _ _ _ Hwf Hfold)
      as [_ [_ [Hsame [Hdels [Hold [Hnew Hcp]]]]]].
    simpl in Hdels. subst dels.
    apply same_but_currency_fields in Hsame. destruct Hsame as [Hid _]. simpl in Hid.
    destruct (replaced_rows is_paidcourseregistration is_courseregcodeitem self db
                (orderitems db1) (orderitems db2) Hwf is_pcr_not_crci Hold Hnew Hrows)
      as [Hnone [Hgone [Hkeepnew Hkeepold]]].
    split; [exact Hid|]. split; [|discriminate]. intros _. simpl.
    split; [reflexivity|]. split; [exact Hnone|]. split; [|exact Hkeepold].
    intros i Hi Ho Hk. split; [now apply Hgone|].
    destruct (Hcp i (Hin_set i Hi Ho) Hk) as [j [m [Hj [Hge [Hjo [Hjk Hjq]]]]]].
    exists j, m. split; [now apply Hkeepnew | now repeat split].
  - destruct (to_single_fold _ _ _ _ _ _ _ Hwf Hfold)
      as [_ [_ [Hsame [Hdels [Hold [Hnew Hcp]]]]]].
    simpl in Hdels. subst dels.
    apply same_but_currency_fields in Hsame. destruct Hsame as [Hid _]. simpl in Hid.
    destruct (replaced_rows is_courseregcodeitem is_paidcourseregistration self db
                (orderitems db1) (orderitems db2) Hwf
                (fun r a b => is_pcr_not_crci r b a) Hold Hnew Hrows)
      as [Hnone [Hgone [Hkeepnew Hkeepold]]].
    split; [exact Hid|]. split; [discriminate|]. intros _. simpl.
    split; [reflexivity|]. split; [exact Hnone|]. split; [|exact Hkeepold].
    intros i Hi Ho Hk. split; [now apply Hgone|].
    destruct (Hcp i (Hin_set i Hi Ho) Hk) as [j [m [Hj [Hge [Hjo [Hjk Hjq]]]]]].
    exists j, m. split; [now apply Hkeepnew | now repeat split].
Qed.

(** ** Revenue of a course *)

(** Summing a purchased-rows aggregate after the rows of one order, none of
    them purchased before, were rewritten to purchased copies. *)
Lemma purchased_sum_after_rewrite (K : OrderItem.t -> bool) (oid : Pk)
    (rows : list OrderItem.t) :
  (forall i, K (purchased_copy env i) = K i) ->
  (forall i, In i rows -> OrderItem.order i = oid -> OrderItem.status i <> purchased) ->
  fold_right Z.add 0
    (map qty_times_unit_cost
       (filter (fun i => K i && status_eqb (OrderItem.status i) purchased)
          (map (fun i => if Nat.eqb (OrderItem.order i) oid
                         then purchased_copy env i else i) rows)))
  = fold_right Z.add 0
      (map qty_times_unit_cost
         (filter (fun i => K i && status_eqb (OrderItem.status i) purchased) rows))
    + fold_right Z.add 0
        (map qty_times_unit_cost
           (filter K (filter (fun i => Nat.eqb (OrderItem.order i) oid) rows))).
Proof.
  intros HK. induction rows as [|i rows IH]; intros Hnew; [reflexivity|].
  assert (IH' := IH (fun j Hj => Hnew j (or_intror Hj))). clear IH.
  cbn [map filter]. destruct (Nat.eqb (OrderItem.order i) oid) eqn:Eo.
  - apply Nat.eqb_eq in Eo.
    pose proof (Hnew i (or_introl eq_refl) Eo) as Hs. apply status_eqb_neq in Hs.
    rewrite Hs, andb_false_r, HK.
    change (OrderItem.status (purchased_copy env i)) with purchased.
    rewrite status_eqb_refl, andb_true_r. cbn [filter].
    destruct (K i).
    + cbn [map fold_right]. rewrite IH'.
      change (qty_times_unit_cost (purchased_copy env i)) with (qty_times_unit_cost i).
      lia.
    + exact IH'.
  - destruct (K i && status_eqb (OrderItem.status i) purchased).
    + cbn [map fold_right]. rewrite IH'. lia.
    + exact IH'.
Qed.

(** The item rows after a successful [purchase] of an order classified
    'personal'. *)
Lemma Order_purchase_personal_rows (self self' : Order.t) (db db' : DB)
    (first last street1 street2 city state postalcode country ccnum cardtype
       processor_reply_dump : string) :
  unique_item_ids db ->
  Order.status self <> purchased -> Order.order_type self = PERSONAL ->
  Order_purchase env self first last street1 street2 city state postalcode country
    ccnum cardtype processor_reply_dump db = (inr self', db') ->
  orderitems db' =
    map (fun i => if Nat.eqb (OrderItem.order i) (Order.id self)
                  then purchased_copy env i else i) (orderitems db).
Proof.
  intros Hu Hst Hty Hrun.
  rewrite (Order_purchase_unfold _ _ _ _ _ _ _ _ _ _ _ _ Hst) in Hrun. cbv zeta in Hrun.
  set (self0 := stamped env self first last street1 street2 city state postalcode country
                  ccnum cardtype processor_reply_dump) in *.
  apply bind_inr in Hrun. destruct Hrun as [[] [db0 [Hsave Hrun]]].
  unfold Order_save, write in Hsave. injection Hsave as <-.
  change (Order.order_type self0) with (Order.order_type self) in Hrun.
  rewrite Hty in Hrun. simpl order_type_eqb in Hrun. cbv iota in Hrun.
  apply bind_inr in Hrun. destruct Hrun as [o [db1 [Hret Hrun]]].
  unfold ret in Hret. injection Hret as <- <-.
  apply bind_inr in Hrun. destruct Hrun as [its [db1' [Hread Hrun]]].
  unfold read in Hread. injection Hread as <- <-.
  apply bind_inr in Hrun. destruct Hrun as [ys [db2 [Hloop Hrun]]].
  run. injection Hrun as <- <-.
  destruct (purchase_loop_run self0
              (set_orders db (save_row Order.id self0 (orders db))) db2 ys Hu Hloop)
    as [Hrows _].
  simpl orderitems. rewrite Hrows. reflexivity.
Qed.

(** X24.  Purchasing an order classified 'personal', none of whose items
    was purchased before, raises the amount
    [get_total_amount_of_purchased_item] reports for a course by the line
    costs ([qty * unit_cost]) of the order's items of that class and course:
    single seats for [PaidCourseRegistration], bundles for
    [CourseRegCodeItem]. *)
Theorem purchase_adds_course_revenue (self self' : Order.t) (db db' : DB)
    (first last street1 street2 city state postalcode country ccnum cardtype
       processor_reply_dump : string) (course_key : CourseKey) :
  unique_item_ids db ->
  (forall i, In i (orderitems db) -> OrderItem.order i = Order.id self ->
             OrderItem.status i <> purchased) ->
  Order.status self <> purchased -> Order.order_type self = PERSONAL ->
  Order_purchase env self first last street1 street2 city state postalcode country
    ccnum cardtype processor_reply_dump db = (inr self', db') ->
  PaidCourseRegistration_get_total_amount_of_purchased_item course_key db'
  = PaidCourseRegistration_get_total_amount_of_purchased_item course_key db
    + fold_right Z.add 0
        (map qty_times_unit_cost
           (filter (fun i => is_paidcourseregistration i
                             && course_key_eqb (OrderItem.course_id i) course_key)
                   (orderitem_set self db))) /\
  CourseRegCodeItem_get_total_amount_of_purchased_item course_key db'
  = CourseRegCodeItem_get_total_amount_of_purchased_item course_key db
    + fold_right Z.add 0
        (map qty_times_unit_cost
           (filter (fun i => is_courseregcodeitem i
                             && course_key_eqb (OrderItem.course_id i) course_key)
                   (orderitem_set self db))).
Proof.
  intros Hu Hnew Hst Hty Hrun.
  pose proof (Order_purchase_personal_rows _ _ _ _ _ _ _ _ _ _ _ _ _ _ _ Hu Hst Hty Hrun)
    as Hrows.
  unfold PaidCourseRegistration_get_total_amount_of_purchased_item,
    CourseRegCodeItem_get_total_amount_of_purchased_item, orderitem_set.
  rewrite Hrows. split.
  - apply (purchased_sum_after_rewrite
             (fun i => is_paidcourseregistration i
                       && course_key_eqb (OrderItem.course_id i) course_key));
      [reflexivity | exact Hnew].
  - apply (purchased_sum_after_rewrite
             (fun i => is_courseregcodeitem i
                       && course_key_eqb (OrderItem.course_id i) course_key));
      [reflexivity | exact Hnew].
Qed.

(** ** Billing details of a business order *)

Lemma Order_purchase_details (self self' : Order.t) (db db' : DB)
    (first last street1 street2 city state postalcode country ccnum cardtype
       processor_reply_dump : string) :
  Order_purchase env self first last street1 street2 city state postalcode country
    ccnum cardtype processor_reply_dump db = (inr self', db') ->
  Order.details self' = Order.details self.
Proof.
  intros Hrun. destruct (status_eqb (Order.status self) purchased) eqn:Est.
  - unfold Order_purchase in Hrun. rewrite Est in Hrun. unfold ret in Hrun.
    now injection Hrun as <- _.
  - apply status_eqb_neq in Est.
    rewrite (Order_purchase_unfold _ _ _ _ _ _ _ _ _ _ _ _ Est) in Hrun. cbv zeta in Hrun.
    apply bind_inr in Hrun. destruct Hrun as [[] [db0 [Hsave Hrun]]].
    apply bind_inr in Hrun. destruct Hrun as [o [db1 [Hupd Hrun]]].
    apply bind_inr in Hrun. destruct Hrun as [its [db1' [Hread Hrun]]].
    apply bind_inr in Hrun. destruct Hrun as [ys [db2 [Hloop Hrun]]].
    run. injection Hrun as <- _.
    destruct (order_type_eqb _ BUSINESS).
    + apply Order_update_order_type_order in Hupd. destruct Hupd as [o1 [[c ->] ->]].
      reflexivity.
    + unfold ret in Hupd. now injection Hupd as <- _.
Qed.

(** X25.  [add_billing_details] stores the order with the six details given
    and touches nothing else: not the order's status, classification or
    billing snapshot, not the rows of other orders, not the items.  A later
    [purchase] of the order keeps the details. *)
Theorem add_billing_details_spec (self : Order.t)
    (company_name company_contact_name company_contact_email recipient_name
       recipient_email customer_reference_number : string) (db : DB) :
  exists self1 db1,
    Order_add_billing_details self company_name company_contact_name
      company_contact_email recipient_name recipient_email customer_reference_number db
      = (inr self1, db1) /\
    In self1 (orders db1) /\
    Order.details self1 =
      BillingDetails.mk (Some company_name) (Some company_contact_name)
        (Some company_contact_email) (Some recipient_name) (Some recipient_email)
        (Some customer_reference_number) /\
    Order.id self1 = Order.id self /\ Order.status self1 = Order.status self /\
    Order.order_type self1 = Order.order_type self /\ Order.bill self1 = Order.bill self /\
    (forall o, In o (orders db) -> Order.id o <> Order.id self -> In o (orders db1)) /\
    (forall o, In o (orders db1) -> o = self1 \/ In o (orders db)) /\
    orderitems db1 = orderitems db /\ effects db1 = effects db /\
    forall self2 db2 db3 first last street1 street2 city state postalcode country ccnum
           cardtype processor_reply_dump,
      Order_purchase env self1 first last street1 street2 city state postalcode country
        ccnum cardtype processor_reply_dump db2 = (inr self2, db3) ->
      Order.details self2 = Order.details self1.
Proof.
  eexists. eexists. split; [reflexivity|].
  split; [apply save_row_in|]. repeat (split; [reflexivity|]).
  split; [intros o Ho Hne; now apply save_row_keeps|].
  split; [intros o Ho; apply in_save_row in Ho; tauto|].
  repeat (split; [reflexivity|]).
  intros. eapply Order_purchase_details. eassumption.
Qed.

(** ** Reports on verified certificates *)

(** A filtered sum as a sum of weights. *)
Lemma filtered_sum_weights (p : OrderItem.t -> bool) (f : OrderItem.t -> Z)
    (l : list OrderItem.t) :
  fold_right Z.add 0 (map f (filter p l))
  = fold_right Z.add 0 (map (fun i => if p i then f i else 0) l).
Proof.
  induction l as [|x l IH]; [reflexivity|]. simpl. destruct (p x); simpl; lia.
Qed.

Lemma filtered_length_weights (p : OrderItem.t -> bool) (l : list OrderItem.t) :
  Z.of_nat (List.length (filter p l))
  = fold_right Z.add 0 (map (fun i => if p i then 1 else 0) l).
Proof.
  induction l as [|x l IH]; [reflexivity|]. cbn [filter map fold_right].
  destruct (p x); [cbn [List.length]; rewrite Nat2Z.inj_succ|]; lia.
Qed.

(** Replacing the row of key [id c] by [c'] moves the weight of [c] out of
    a sum over the table and the weight of [c'] in. *)
Lemma weights_after_rewrite (w : OrderItem.t -> Z) (c c' : OrderItem.t)
    (l : list OrderItem.t) :
  NoDup (map OrderItem.id l) -> In c l ->
  fold_right Z.add 0
    (map w (map (fun x => if Nat.eqb (OrderItem.id x) (OrderItem.id c) then c' else x) l))
  + w c
  = fold_right Z.add 0 (map w l) + w c'.
Proof.
  induction l as [|x l IH]; intros Hnd Hin; [destruct Hin|].
  inversion Hnd as [|? ? Hnx Hnd']; subst. simpl.
  destruct Hin as [-> | Hin].
  - rewrite Nat.eqb_refl.
    assert (Hsame : map (fun x => if Nat.eqb (OrderItem.id x) (OrderItem.id c) then c' else x) l
                    = l).
    { rewrite <- (map_id l) at 2. apply map_ext_in. intros y Hy.
      destruct (Nat.eqb (OrderItem.id y) (OrderItem.id c)) eqn:E; [|reflexivity].
      apply Nat.eqb_eq in E. exfalso. apply Hnx. rewrite <- E. now apply in_map. }
    rewrite Hsame. lia.
  - destruct (Nat.eqb (OrderItem.id x) (OrderItem.id c)) eqn:E.
    + apply Nat.eqb_eq in E. exfalso. apply Hnx. rewrite E. now apply in_map.
    + specialize (IH Hnd' Hin). lia.
Qed.

(** X26.  A refund moves exactly one certificate between the reports on
    verified certificates.  With unique item keys, when
    [refund_cert_callback] refunds the certificate [cert] of a refundable
    enrollment, the count of 'purchased' verified certificates of the
    course drops by one and the count of 'refunded' ones grows by one; the
    sums of a money column move by the certificate's value of that column;
    and the reports for any other status do not change. *)
Theorem refund_moves_certificate_between_reports
    (course_enrollment : CourseEnrollment.t) (db : DB)
    (cert : OrderItem.t) (rest : list OrderItem.t) (order : Order.t) :
  CourseEnrollment.refundable course_enrollment = true ->
  filter (refund_target course_enrollment) (orderitems db) = cert :: rest ->
  find (fun o => Nat.eqb (Order.id o) (OrderItem.order cert)) (orders db) = Some order ->
  unique_item_ids db ->
  let k := CourseEnrollment.course_id course_enrollment in
  exists db',
    CertificateItem_refund_cert_callback env course_enrollment db
      = (inr (Some (refunded_copy env cert)), db') /\
    CertificateItem_verified_certificates_count k purchased db
      = S (CertificateItem_verified_certificates_count k purchased db') /\
    CertificateItem_verified_certificates_count k refunded db'
      = S (CertificateItem_verified_certificates_count k refunded db) /\
    (forall field,
       CertificateItem_verified_certificates_monetary_field_sum k purchased field db'
       = CertificateItem_verified_certificates_monetary_field_sum k purchased field db
         - monetary_field field cert /\
       CertificateItem_verified_certificates_monetary_field_sum k refunded field db'
       = CertificateItem_verified_certificates_monetary_field_sum k refunded field db
         + monetary_field field cert) /\
    (forall course_id status field,
       status <> purchased -> status <> refunded ->
       CertificateItem_verified_certificates_count course_id status db'
       = CertificateItem_verified_certificates_count course_id status db /\
       CertificateItem_verified_certificates_monetary_field_sum course_id status field db'
       = CertificateItem_verified_certificates_monetary_field_sum course_id status field db).
Proof.
  intros Hr Hf Ho Hu k. rewrite refund_cert_callback_unfold.
  rewrite Hr, Hf. cbv zeta. rewrite Ho. simpl negb. cbv iota.
  eexists. split; [reflexivity|].
  assert (Hin : In cert (filter (refund_target course_enrollment) (orderitems db)))
    by (rewrite Hf; now left).
  apply filter_In in Hin. destruct Hin as [Hin Htarget].
  unfold CertificateItem_verified_certificates_count,
    CertificateItem_verified_certificates_monetary_field_sum.
  simpl orderitems.
  rewrite (save_row_unique OrderItem.id cert (refunded_copy env cert) (orderitems db) Hu Hin)
    by reflexivity.
  (* what the filters say about the certificate and its refunded copy *)
  unfold refund_target in Htarget.
  destruct (OrderItem.kind cert) as [| |c e m|] eqn:Ekind; try discriminate.
  apply andb_prop in Htarget. destruct Htarget as [Htarget Hm].
  apply andb_prop in Htarget. destruct Htarget as [Htarget Hs].
  apply andb_prop in Htarget. destruct Htarget as [Hc _].
  fold k in Hc.
  assert (Hold : forall s, verified_certificate_with k s cert = status_eqb purchased s).
  { intros s. unfold verified_certificate_with. rewrite Ekind, Hc, Hm.
    apply status_eqb_eq in Hs. now rewrite Hs. }
  assert (Hnew : forall s,
             verified_certificate_with k s (refunded_copy env cert) = status_eqb refunded s).
  { intros s. unfold verified_certificate_with.
    change (OrderItem.kind (refunded_copy env cert)) with (OrderItem.kind cert).
    change (OrderItem.status (refunded_copy env cert)) with refunded.
    now rewrite Ekind, Hc, Hm. }
  assert (Hother : forall course_id s, s <> purchased -> s <> refunded ->
             verified_certificate_with course_id s cert = false /\
             verified_certificate_with course_id s (refunded_copy env cert) = false).
  { intros course_id s Hp Hrf. unfold verified_certificate_with.
    change (OrderItem.kind (refunded_copy env cert)) with (OrderItem.kind cert).
    change (OrderItem.status (refunded_copy env cert)) with refunded.
    rewrite Ekind. apply status_eqb_eq in Hs. rewrite Hs.
    assert (E1 : status_eqb purchased s = false) by (apply status_eqb_neq; congruence).
    assert (E2 : status_eqb refunded s = false) by (apply status_eqb_neq; congruence).
    rewrite E1, E2, !andb_false_r. now split. }
  assert (Hcount : forall course_id s,
    Z.of_nat (List.length (filter (verified_certificate_with course_id s)
      (map (fun x => if Nat.eqb (OrderItem.id x) (OrderItem.id cert)
                     then refunded_copy env cert else x) (orderitems db))))
    + (if verified_certificate_with course_id s cert then 1 else 0)
    = Z.of_nat (List.length (filter (verified_certificate_with course_id s) (orderitems db)))
      + (if verified_certificate_with course_id s (refunded_copy env cert) then 1 else 0)).
  { intros course_id s. rewrite !filtered_length_weights.
    apply (weights_after_rewrite
             (fun i => if verified_certificate_with course_id s i then 1 else 0));
      assumption. }
  assert (Hsum : forall course_id s field,
    fold_right Z.add 0 (map (monetary_field field)
      (filter (verified_certificate_with course_id s)
        (map (fun x => if Nat.eqb (OrderItem.id x) (OrderItem.id cert)
                       then refunded_copy env cert else x) (orderitems db))))
    + (if verified_certificate_with course_id s cert then monetary_field field cert else 0)
    = fold_right Z.add 0 (map (monetary_field field)
        (filter (verified_certificate_with course_id s) (orderitems db)))
      + (if verified_certificate_with course_id s (refunded_copy env cert)
         then monetary_field field (refunded_copy env cert) else 0)).
  { intros course_id s field. rewrite !filtered_sum_weights.
    apply (weights_after_rewrite
             (fun i => if verified_certificate_with course_id s i
                       then monetary_field field i else 0));
      assumption. }
  assert (Hfield : forall field,
            monetary_field field (refunded_copy env cert) = monetary_field field cert)
    by (intros []; reflexivity).
  split; [|split; [|split]].
  - pose proof (Hcount k purchased) as H. rewrite Hold, Hnew in H. simpl in H. lia.
  - pose proof (Hcount k refunded) as H. rewrite Hold, Hnew in H. simpl in H. lia.
  - intros field. split.
    + pose proof (Hsum k purchased field) as H. rewrite Hold, Hnew in H. simpl in H. lia.
    + pose proof (Hsum k refunded field) as H. rewrite Hold, Hnew, Hfield in H.
      simpl in H. lia.
  - intros course_id s field Hp Hrf. destruct (Hother course_id s Hp Hrf) as [E1 E2]. split.
    + pose proof (Hcount course_id s) as H. rewrite E1, E2 in H. lia.
    + pose proof (Hsum course_id s field) as H. rewrite E1, E2 in H. lia.
Qed.

End Properties.

(** * Concrete runs *)

(** ** Instances of the theorems *)

Lemma refund_scenario_run : refund_scenario empty_db = refund_outcome.
Proof. vm_compute. reflexivity. Qed.

Lemma wf_items_db_1_3 (s : Status) (t : OrderTypes) : wf_items (db_1_3 s t).
Proof.
  split.
  - unfold unique_item_ids. simpl. repeat constructor; simpl; intuition discriminate.
  - intros i [<- | [<- | []]]; simpl; lia.
Defined.

Lemma purchase_twice_is_noop_witness :
  Order.status (test_order purchased PERSONAL) = purchased /\
  Order_purchase test_env (test_order purchased PERSONAL)
    "Jo" "Doe" "" "" "" "" "" "US" "" "" "" (db_1_3 purchased PERSONAL)
  = (inr (test_order purchased PERSONAL), db_1_3 purchased PERSONAL).
Proof.
  split; [reflexivity|].
  apply (proj1 (purchase_twice_is_noop test_env (test_order purchased PERSONAL)
                  (db_1_3 purchased PERSONAL) "Jo" "Doe" "" "" "" "" "" "US" "" "" "")).
  reflexivity.
Defined.

Lemma start_purchase_spec_witness :
  Order.status (test_order cart PERSONAL) = cart /\
  unique_item_ids (db_1_3 cart PERSONAL) /\
  exists db',
    Order_start_purchase (test_order cart PERSONAL) (db_1_3 cart PERSONAL)
    = (inr (Order.set_status (test_order cart PERSONAL) paying), db') /\
    In (Order.set_status (test_order cart PERSONAL) paying) (orders db') /\
    orderitems db' =
      [seat 2%nat test_course paying 1 5000 None; seat 3%nat other_course paying 3 5000 None].
Proof.
  assert (Hu : unique_item_ids (db_1_3 cart PERSONAL)) by apply wf_items_db_1_3.
  split; [reflexivity|]. split; [exact Hu|].
  destruct (proj2 (start_purchase_spec (test_order cart PERSONAL) (db_1_3 cart PERSONAL))
              eq_refl) as [db' [Hrun [Hin [_ [_ Hrows]]]]].
  exists db'. split; [exact Hrun|]. split; [exact Hin|].
  rewrite (Hrows Hu). reflexivity.
Defined.

Lemma total_cost_spec_witness :
  expected_magnitude (test_order purchased PERSONAL) (orderitems db_item_refunded)
    < 10 ^ 28 /\
  Decimal.to_cents (Order_total_cost (test_order purchased PERSONAL) db_item_refunded)
    = 5000 /\
  orderitems db_item_refunded
    = [seat 2%nat test_course purchased 1 5000 None]
      ++ seat 3%nat other_course refunded 3 5000 None :: [] /\
  OrderItem.status (seat 3%nat other_course refunded 3 5000 None)
    <> Order.status (test_order purchased PERSONAL) /\
  Order_total_cost (test_order purchased PERSONAL) db_item_refunded
  = Order_total_cost (test_order purchased PERSONAL)
      (set_orderitems db_item_refunded
         ([seat 2%nat test_course purchased 1 5000 None] ++ [])).
Proof.
  assert (Hb : expected_magnitude (test_order purchased PERSONAL)
                 (orderitems db_item_refunded) < 10 ^ 28) by (vm_compute; reflexivity).
  split; [exact Hb|]. split.
  { exact (proj1 (total_cost_spec (test_order purchased PERSONAL) db_item_refunded) Hb). }
  split; [reflexivity|]. split; [discriminate|].
  apply (proj2 (total_cost_spec (test_order purchased PERSONAL) db_item_refunded)
           [seat 2%nat test_course purchased 1 5000 None]
           (seat 3%nat other_course refunded 3 5000 None) []).
  - reflexivity.
  - discriminate.
Defined.

Lemma reg_code_redeemed_at_most_once_witness :
  already_redeemed test_code (db_redeemed test_course) /\
  RegistrationCodeRedemption_add_reg_code_redemption test_env test_code
    (test_order cart PERSONAL) (db_redeemed test_course)
  = (inl RegCodeAlreadyExistException, db_redeemed test_course).
Proof.
  assert (H : already_redeemed test_code (db_redeemed test_course)).
  { eexists. split; [left; reflexivity | reflexivity]. }
  split; [exact H|].
  exact (reg_code_redeemed_at_most_once test_env test_code (test_order cart PERSONAL)
           (db_redeemed test_course) H).
Defined.

Lemma coupons_resolve_db_coupon : coupons_resolve db_coupon.
Proof. intros r [<- | []]. vm_compute. discriminate. Defined.

Lemma add_coupon_redemption_conflict_witness :
  coupons_resolve db_coupon /\
  CouponRedemption_add_coupon_redemption coupon_b (test_order cart PERSONAL)
    (orderitem_set (test_order cart PERSONAL) db_coupon) db_coupon
  = (inl MultipleCouponsNotAllowedException, db_coupon) /\
  CouponRedemption_add_coupon_redemption coupon_a (test_order cart PERSONAL)
    (orderitem_set (test_order cart PERSONAL) db_coupon) db_coupon
  = (inl MultipleCouponsNotAllowedException, db_coupon).
Proof.
  split; [exact coupons_resolve_db_coupon|]. split.
  - apply (proj1 (proj2 (proj2
             (add_coupon_redemption_conflict coupon_b (test_order cart PERSONAL)
                (orderitem_set (test_order cart PERSONAL) db_coupon) db_coupon
                coupons_resolve_db_coupon)))
             (CouponRedemption.mk 30%nat 1%nat 1%nat 20%nat) coupon_a).
    + left. reflexivity.
    + reflexivity.
    + discriminate.
  - apply (proj2 (proj2 (proj2
             (add_coupon_redemption_conflict coupon_a (test_order cart PERSONAL)
                (orderitem_set (test_order cart PERSONAL) db_coupon) db_coupon
                coupons_resolve_db_coupon)))
             (CouponRedemption.mk 30%nat 1%nat 1%nat 20%nat)).
    + left. reflexivity.
    + reflexivity.
Defined.

Lemma coupon_discount_math_witness :
  0 <= 20 <= 100 /\ 0 <= 10000 <= 10 ^ 12 /\
  -50 <= 100 * (10000 - CouponRedemption_get_discount_price 20 10000) - 10000 * 20 <= 50.
Proof.
  assert (Hp : 0 <= 20 <= 100) by lia.
  assert (Hc : 0 <= 10000 <= 10 ^ 12) by (split; vm_compute; discriminate).
  split; [exact Hp|]. split; [exact Hc|].
  exact (proj1 coupon_discount_math 20 10000 Hp Hc).
Defined.

Lemma purchase_reclassification_witness :
  wf_items (db_1_3 paying BUSINESS) /\
  Order.status (test_order paying BUSINESS) <> purchased /\
  Order_purchase test_env (test_order paying BUSINESS)
    "Jo" "Doe" "" "" "" "" "" "US" "" "" "" (db_1_3 paying BUSINESS)
  = (inr (purchase_1_3_order BUSINESS), snd (purchase_1_3 BUSINESS)) /\
  Order.order_type (purchase_1_3_order BUSINESS) = BUSINESS /\
  (forall r, In r (orderitems (snd (purchase_1_3 BUSINESS))) -> 
             OrderItem.order r = 1%nat -> is_paidcourseregistration r = false) /\
  exists j m,
    In j (orderitems (snd (purchase_1_3 BUSINESS))) /\ OrderItem.order j = 1%nat /\
    OrderItem.kind j = CourseRegCodeItem other_course m /\ OrderItem.qty j = 3.
Proof.
  assert (Hwf := wf_items_db_1_3 paying BUSINESS).
  assert (Hst : Order.status (test_order paying BUSINESS) <> purchased) by discriminate.
  assert (Hrun :
    Order_purchase test_env (test_order paying BUSINESS)
      "Jo" "Doe" "" "" "" "" "" "US" "" "" "" (db_1_3 paying BUSINESS)
    = (inr (purchase_1_3_order BUSINESS), snd (purchase_1_3 BUSINESS)))
    by (vm_compute; reflexivity).
  split; [exact Hwf|]. split; [exact Hst|]. split; [exact Hrun|].
  destruct (purchase_reclassification test_env _ _ _ _ _ _ _ _ _ _ _ _ _ _ _ Hwf Hst Hrun)
    as [_ [_ [_ Hbus]]].
  destruct (Hbus eq_refl) as [Hty [Hnone Hrepl]].
  { exists (seat 3%nat other_course paying 3 5000 None).
    split; [right; left; reflexivity | reflexivity]. }
  split; [exact Hty|]. split; [exact Hnone|].
  destruct (Hrepl (seat 3%nat other_course paying 3 5000 None)) as [_ Hj];
    [right; left; reflexivity | reflexivity | reflexivity | exact Hj].
Defined.

Lemma reset_cart_items_prices_spec_witness :
  unique_item_ids db_coupon /\
  exists db',
    Order_reset_cart_items_prices (test_order cart PERSONAL) db_coupon = (inr tt, db') /\
    orderitems db' =
      map (fun i => if Nat.eqb (OrderItem.order i) (Order.id (test_order cart PERSONAL))
                    then reset_price i else i) (orderitems db_coupon).
Proof.
  assert (Hu : unique_item_ids db_coupon).
  { unfold unique_item_ids. simpl. repeat constructor; simpl; intuition discriminate. }
  split; [exact Hu|].
  exact (proj1 (reset_cart_items_prices_spec test_env (test_order cart PERSONAL) db_coupon Hu)).
Defined.

(** ** Where the code departs from the specification *)

(** C2 as stated fails: [test_code] is already redeemed, yet redeeming it
    against an order without an item of its course raises
    [ItemDoesNotExistAgainstRegCodeException], not the already-redeemed
    error. *)
Lemma redeemed_code_other_exception :
  already_redeemed test_code (db_redeemed other_course) /\
  fst (RegistrationCodeRedemption_add_reg_code_redemption test_env test_code
         (test_order cart PERSONAL) (db_redeemed other_course))
  = inl ItemDoesNotExistAgainstRegCodeException /\
  fst (RegistrationCodeRedemption_add_reg_code_redemption test_env test_code
         (test_order cart PERSONAL) (db_redeemed other_course))
  <> inl RegCodeAlreadyExistException.
Proof.
  split; [|split].
  - eexists. split; [left; reflexivity | reflexivity].
  - vm_compute. reflexivity.
  - vm_compute. discriminate.
Qed.

(** C4 as stated fails: 50% of $0.01 is half a cent, which round-half-up
    turns into a discount of one cent, while the code discounts nothing; and
    on a value of 10^18 dollars the float factor of 10% is off by 555 cents. *)
Lemma discount_is_not_half_up :
  CouponRedemption_get_discount_price 50 1 = 1 /\
  discounted_half_up 50 1 = 0 /\
  CouponRedemption_get_discount_price 50 1 <> discounted_half_up 50 1 /\
  CouponRedemption_get_discount_price 10 (10 ^ 20) = 89999999999999999445 /\
  discounted_half_up 10 (10 ^ 20) = 90000000000000000000.
Proof. repeat split; vm_compute; congruence. Qed.

(** C5 as stated fails: an order classified 'personal' with quantities 1 and
    3 is purchased; it stays 'personal' and keeps its single-seat items. *)
Lemma personal_order_is_not_reclassified :
  (exists i, In i (orderitem_set (test_order paying PERSONAL) (db_1_3 paying PERSONAL))
             /\ 1 < OrderItem.qty i) /\
  fst (purchase_1_3 PERSONAL) = inr (purchase_1_3_order PERSONAL) /\
  Order.order_type (purchase_1_3_order PERSONAL) = PERSONAL /\
  Order.order_type (purchase_1_3_order PERSONAL) <> BUSINESS /\
  map (fun i => (is_paidcourseregistration i, OrderItem.qty i))
      (orderitems (snd (purchase_1_3 PERSONAL)))
  = [(true, 1); (true, 3)].
Proof.
  split; [|repeat split; vm_compute; congruence].
  exists (seat 3%nat other_course paying 3 5000 None).
  split; [right; left; reflexivity | reflexivity].
Qed.

(** C10 as stated fails: after a registration code is redeemed on a free
    seat its [list_price] is set (to zero), and [reset_cart_items_prices]
    leaves it set. *)
Lemma reset_keeps_zero_list_price :
  fst (redeem_then_reset db_free_cart) = inr tt /\
  map OrderItem.list_price (orderitems (snd (redeem_then_reset db_free_cart)))
  = [Some 0] /\
  map OrderItem.list_price (orderitems (snd (redeem_then_reset db_free_cart)))
  <> [None].
Proof. repeat split; vm_compute; congruence. Qed.

(** C6 fails on the code: after [refund_cert_callback] has refunded the
    certificate and set the order to 'refunded', the donation bought in the
    same order is still 'purchased'. *)
Theorem refund_leaves_sibling_item_purchased :
  (exists cert, fst (refund_scenario empty_db) = inr (Some cert)) /\
  exists o i,
    In o (orders (snd (refund_scenario empty_db))) /\
    In i (orderitems (snd (refund_scenario empty_db))) /\
    OrderItem.order i = Order.id o /\
    Order.status o = refunded /\
    OrderItem.status i = purchased /\
    OrderItem.status i <> Order.status o.
Proof.
  rewrite refund_scenario_run. unfold refund_outcome. simpl. split.
  - eexists. reflexivity.
  - eexists. eexists. split; [left; reflexivity|].
    split; [right; left; reflexivity|].
    repeat split; try reflexivity. discriminate.
Qed.

(** C3 as stated fails: order 1 has redeemed [coupon_a]; the coupon row 22
    is a different coupon that carries the same code, and applying it does
    not raise: it is accepted, a second redemption is recorded and the seat
    is discounted a second time. *)
Lemma same_code_other_coupon_is_accepted :
  filter (coupon_redemption_of 1%nat (test_order cart PERSONAL))
         (couponredemptions db_same_code)
    = [CouponRedemption.mk 30%nat 1%nat 1%nat 20%nat] /\
  Coupon.id coupon_a_again <> Coupon.id coupon_a /\
  Coupon.code coupon_a_again = Coupon.code coupon_a /\
  fst redeem_coupon_a_again = inr true /\
  fst redeem_coupon_a_again <> inl MultipleCouponsNotAllowedException /\
  couponredemptions (snd redeem_coupon_a_again)
    = [CouponRedemption.mk 30%nat 1%nat 1%nat 20%nat;
       CouponRedemption.mk 31%nat 1%nat 1%nat 22%nat] /\
  map OrderItem.unit_cost (orderitems (snd redeem_coupon_a_again)) = [6400].
Proof. repeat split; vm_compute; congruence. Qed.

(** C8 as stated fails: three seats at a price of 30 digits cost
    $3000000000000000000000000000.03, while [total_cost] answers
    $3000000000000000000000000000: the product is rounded to the 28
    significant digits of the decimal context. *)
Lemma total_cost_rounds_large_amounts :
  expected_total (test_order cart PERSONAL) (orderitems db_huge)
    = 300000000000000000000000000003 /\
  Decimal.to_cents (Order_total_cost (test_order cart PERSONAL) db_huge)
    = 300000000000000000000000000000 /\
  Decimal.to_cents (Order_total_cost (test_order cart PERSONAL) db_huge)
    <> expected_total (test_order cart PERSONAL) (orderitems db_huge).
Proof. repeat split; vm_compute; congruence. Qed.

(** ** Instances of the further properties *)

Lemma get_cart_for_user_spec_witness :
  (forall c, In c (orders empty_db) -> is_cart_of 1%nat c = false) /\
  exists db',
    Order_get_cart_for_user 1%nat empty_db = (inr (Order.create 1%nat 1%nat cart), db') /\
    next_pk db' = 2%nat.
Proof.
  assert (H : forall c, In c (orders empty_db) -> is_cart_of 1%nat c = false)
    by (intros c []).
  split; [exact H|].
  destruct (get_cart_for_user_spec 1%nat empty_db)
    as [o [db' [Hrun [_ [_ [_ [_ [Hnew _]]]]]]]].
  destruct (Hnew H) as [Ho [Hn _]]. subst o.
  exists db'. split; [exact Hrun | exact Hn].
Defined.

Lemma start_purchase_then_new_cart_witness :
  filter (is_cart_of 1%nat) (orders (db_1_3 cart PERSONAL)) = [test_order cart PERSONAL] /\
  exists db1 fresh db2,
    Order_start_purchase (test_order cart PERSONAL) (db_1_3 cart PERSONAL)
      = (inr (Order.set_status (test_order cart PERSONAL) paying), db1) /\
    Order_get_cart_for_user 1%nat db1 = (inr fresh, db2) /\
    fresh = Order.create 4%nat 1%nat cart /\
    Order_has_items fresh None db2 = false.
Proof.
  split; [reflexivity|].
  destruct (start_purchase_then_new_cart (test_order cart PERSONAL) (db_1_3 cart PERSONAL))
    as [db1 [fresh [db2 [H1 [H2 [H3 [_ [H5 _]]]]]]]].
  - reflexivity.
  - simpl. lia.
  - intros i [<- | [<- | []]]; simpl; lia.
  - exists db1, fresh, db2. repeat split; assumption.
Defined.

Lemma purchase_marks_order_and_items_witness :
  Order.status (test_order paying PERSONAL) <> purchased /\
  purchase_1_3 PERSONAL = (inr (purchase_1_3_order PERSONAL), snd (purchase_1_3 PERSONAL)) /\
  Order.status (purchase_1_3_order PERSONAL) = purchased /\
  Order.purchase_time (purchase_1_3_order PERSONAL) = Some 1000 /\
  (forall i, In i (orderitems (snd (purchase_1_3 PERSONAL))) ->
             OrderItem.order i = 1%nat -> OrderItem.status i = purchased).
Proof.
  assert (Hst : Order.status (test_order paying PERSONAL) <> purchased) by discriminate.
  assert (Hrun : purchase_1_3 PERSONAL
                 = (inr (purchase_1_3_order PERSONAL), snd (purchase_1_3 PERSONAL)))
    by (vm_compute; reflexivity).
  split; [exact Hst|]. split; [exact Hrun|].
  destruct (purchase_marks_order_and_items test_env (test_order paying PERSONAL)
              (purchase_1_3_order PERSONAL) (db_1_3 paying PERSONAL)
              (snd (purchase_1_3 PERSONAL))
              "Jo" "Doe" "" "" "" "" "" "US" "" "" "" Hst Hrun)
    as [_ [_ [Hs [Ht [Hitems _]]]]].
  split; [exact Hs|]. split; [exact Ht | exact Hitems].
Defined.

Lemma purchase_billing_snapshot_witness :
  Order.status (test_order paying PERSONAL) <> purchased /\
  purchase_1_3 PERSONAL = (inr (purchase_1_3_order PERSONAL), snd (purchase_1_3 PERSONAL)) /\
  STORE_BILLING_INFO test_env = false /\
  Billing.bill_to_first (Order.bill (purchase_1_3_order PERSONAL)) = "Jo" /\
  Billing.bill_to_country (Order.bill (purchase_1_3_order PERSONAL)) = "US" /\
  Billing.bill_to_ccnum (Order.bill (purchase_1_3_order PERSONAL))
    = Billing.bill_to_ccnum (Order.bill (test_order paying PERSONAL)).
Proof.
  assert (Hst : Order.status (test_order paying PERSONAL) <> purchased) by discriminate.
  assert (Hrun : purchase_1_3 PERSONAL
                 = (inr (purchase_1_3_order PERSONAL), snd (purchase_1_3 PERSONAL)))
    by (vm_compute; reflexivity).
  split; [exact Hst|]. split; [exact Hrun|]. split; [reflexivity|].
  destruct (purchase_billing_snapshot test_env (test_order paying PERSONAL)
              (purchase_1_3_order PERSONAL) (db_1_3 paying PERSONAL)
              (snd (purchase_1_3 PERSONAL))
              "Jo" "Doe" "" "" "" "" "" "US" "" "" "" Hst Hrun)
    as [_ [Hf [_ [_ [_ [Hc [_ [_ Hkeep]]]]]]]].
  split; [exact Hf|]. split; [exact Hc|].
  destruct (Hkeep eq_refl) as [_ [_ [Hcc _]]]. exact Hcc.
Defined.

Lemma bundle_callback_mints_qty_codes_witness :
  OrderItem.kind (bundle 2%nat test_course paying 3 5000) = CourseRegCodeItem test_course "honor" /\
  has_course test_env test_course = true /\
  exists db',
    purchased_callback test_env (bundle 2%nat test_course paying 3 5000)
      (db_bundle paying BUSINESS 3) = (inr tt, db') /\
    effects db' =
      effects (db_bundle paying BUSINESS 3)
      ++ repeat (SaveRegistrationCode 1%nat test_course 1%nat) 3.
Proof.
  split; [reflexivity|]. split; [reflexivity|].
  destruct (proj1 (bundle_callback_mints_qty_codes test_env
                     (bundle 2%nat test_course paying 3 5000) (db_bundle paying BUSINESS 3)
                     test_course "honor" eq_refl) eq_refl)
    as [db' [Hrun [Heff _]]].
  exists db'. split; [exact Hrun | exact Heff].
Defined.

Lemma purchase_fulfilment_failure_witness :
  Order.status (test_order paying PERSONAL) <> purchased /\
  In (seat 2%nat test_course paying 1 5000 None)
     (orderitem_set (test_order paying PERSONAL) (db_1_3 paying PERSONAL)) /\
  has_course closed_env test_course = false /\
  exists db',
    Order_purchase closed_env (test_order paying PERSONAL)
      "Jo" "Doe" "" "" "" "" "" "US" "" "" "" (db_1_3 paying PERSONAL)
    = (inl PurchasedCallbackException, db') /\
    In (stamped closed_env (test_order paying PERSONAL)
          "Jo" "Doe" "" "" "" "" "" "US" "" "" "") (orders db').
Proof.
  assert (Hst : Order.status (test_order paying PERSONAL) <> purchased) by discriminate.
  assert (Hin : In (seat 2%nat test_course paying 1 5000 None)
                   (orderitem_set (test_order paying PERSONAL) (db_1_3 paying PERSONAL)))
    by (left; reflexivity).
  split; [exact Hst|]. split; [exact Hin|]. split; [reflexivity|].
  destruct (purchase_fulfilment_failure closed_env (test_order paying PERSONAL)
              (db_1_3 paying PERSONAL) (seat 2%nat test_course paying 1 5000 None)
              "Jo" "Doe" "" "" "" "" "" "US" "" "" "" Hst eq_refl Hin eq_refl eq_refl)
    as [db' [Hrun [Hsaved _]]].
  exists db'. split; [exact Hrun | exact Hsaved].
Defined.

Lemma seat_add_to_order_rejections_witness :
  get_course test_env None = None /\
  PaidCourseRegistration_add_to_order test_env (test_order cart PERSONAL) None "honor"
    None None (db_1_3 cart PERSONAL)
  = (inl CourseDoesNotExistException, db_1_3 cart PERSONAL) /\
  get_course test_env test_course <> None /\
  PaidCourseRegistration_contained_in_order (test_order cart PERSONAL) test_course
    (db_1_3 cart PERSONAL) = true /\
  PaidCourseRegistration_add_to_order test_env (test_order cart PERSONAL) test_course "honor"
    None None (db_1_3 cart PERSONAL)
  = (inl ItemAlreadyInCartException, db_1_3 cart PERSONAL) /\
  resolved_currency test_env third_course "honor" (Some "eur")
    <> Order.currency (test_order cart PERSONAL) /\
  PaidCourseRegistration_add_to_order test_env (test_order cart PERSONAL) third_course "honor"
    None (Some "eur") (db_1_3 cart PERSONAL)
  = (inl InvalidCartItem, db_1_3 cart PERSONAL).
Proof.
  split; [reflexivity|]. split.
  { apply (proj1 (seat_add_to_order_rejections test_env (test_order cart PERSONAL) None
                    "honor" None None (db_1_3 cart PERSONAL))). reflexivity. }
  assert (Hc : get_course test_env test_course <> None) by discriminate.
  split; [exact Hc|]. split; [reflexivity|]. split.
  { apply (proj1 (proj2 (seat_add_to_order_rejections test_env (test_order cart PERSONAL)
                    test_course "honor" None None (db_1_3 cart PERSONAL)))).
    - exact Hc.
    - reflexivity. }
  assert (Hcur : resolved_currency test_env third_course "honor" (Some "eur")
                 <> Order.currency (test_order cart PERSONAL)) by discriminate.
  split; [exact Hcur|].
  apply (proj2 (proj2 (proj2 (seat_add_to_order_rejections test_env
                  (test_order cart PERSONAL) third_course "honor" None (Some "eur")
                  (db_1_3 cart PERSONAL))))).
  - discriminate.
  - reflexivity.
  - reflexivity.
  - discriminate.
  - exact Hcur.
Defined.

Lemma seat_add_to_order_then_duplicate_witness :
  get_course test_env third_course = Some (Course.mk "Test Course" "Test Course") /\
  PaidCourseRegistration_contained_in_order (test_order cart PERSONAL) third_course
    (db_1_3 cart PERSONAL) = false /\
  currency_accepted (test_order cart PERSONAL)
    (resolved_currency test_env third_course "honor" None) (db_1_3 cart PERSONAL) /\
  exists order' item db',
    PaidCourseRegistration_add_to_order test_env (test_order cart PERSONAL) third_course
      "honor" None None (db_1_3 cart PERSONAL) = (inr (order', item), db') /\
    In item (orderitems db') /\
    OrderItem.unit_cost item = 5000 /\
    PaidCourseRegistration_add_to_order test_env order' third_course "honor" None None db'
    = (inl ItemAlreadyInCartException, db').
Proof.
  assert (Hcur : currency_accepted (test_order cart PERSONAL)
                   (resolved_currency test_env third_course "honor" None)
                   (db_1_3 cart PERSONAL)) by (right; reflexivity).
  split; [reflexivity|]. split; [reflexivity|]. split; [exact Hcur|].
  destruct (seat_add_to_order_then_duplicate test_env (test_order cart PERSONAL)
              third_course "honor" None None (db_1_3 cart PERSONAL)
              (Course.mk "Test Course" "Test Course") eq_refl eq_refl eq_refl Hcur)
    as [order' [item [db' [Hrun [Hitem [_ [Hin [_ [_ Hdup]]]]]]]]].
  exists order', item, db'. split; [exact Hrun|]. split; [exact Hin|].
  split; [rewrite Hitem; reflexivity | apply Hdup].
Defined.

Lemma bundle_add_to_order_then_duplicate_witness :
  get_course test_env third_course = Some (Course.mk "Test Course" "Test Course") /\
  CourseRegCodeItem_contained_in_order (test_order cart BUSINESS) third_course
    (db_bundle cart BUSINESS 3) = false /\
  currency_accepted (test_order cart BUSINESS)
    (resolved_currency test_env third_course "honor" None) (db_bundle cart BUSINESS 3) /\
  exists order' item db',
    CourseRegCodeItem_add_to_order test_env (test_order cart BUSINESS) third_course 2
      "honor" None None (db_bundle cart BUSINESS 3) = (inr (order', item), db') /\
    In item (orderitems db') /\
    OrderItem.qty item = 2 /\
    CourseRegCodeItem_add_to_order test_env order' third_course 5 "honor" None None db'
    = (inl ItemAlreadyInCartException, db').
Proof.
  assert (Hcur : currency_accepted (test_order cart BUSINESS)
                   (resolved_currency test_env third_course "honor" None)
                   (db_bundle cart BUSINESS 3)) by (right; reflexivity).
  split; [reflexivity|]. split; [reflexivity|]. split; [exact Hcur|].
  destruct (bundle_add_to_order_then_duplicate test_env (test_order cart BUSINESS)
              third_course 2 "honor" None None (db_bundle cart BUSINESS 3)
              (Course.mk "Test Course" "Test Course") eq_refl eq_refl eq_refl Hcur)
    as [order' [item [db' [Hrun [Hitem [_ [Hin [_ [_ [Hdup _]]]]]]]]]].
  exists order', item, db'. split; [exact Hrun|]. split; [exact Hin|].
  split; [rewrite Hitem; reflexivity | apply Hdup].
Defined.

Lemma certificate_add_to_order_spec_witness :
  ids_below_counter db_cart /\
  currency_accepted (test_order cart PERSONAL) "usd" db_cart /\
  (exists db1 db2,
     CertificateItem_add_to_order test_env (test_order cart PERSONAL) test_course 3000
       "verified" "usd" db_cart
     = (inr (Order.set_currency (test_order cart PERSONAL) "usd",
             certificate 2%nat test_course cart 3000), db1) /\
     orderitems db1 = [certificate 2%nat test_course cart 3000] /\
     CertificateItem_add_to_order test_env (Order.set_currency (test_order cart PERSONAL) "usd")
       test_course 4000 "verified" "usd" db1
     = (inr (Order.set_currency (test_order cart PERSONAL) "usd",
             certificate 2%nat test_course cart 4000), db2) /\
     orderitems db2 = [certificate 2%nat test_course cart 4000]) /\
  CertificateItem_add_to_order test_env (test_order cart PERSONAL) test_course 3000
    "audit" "usd" db_cart
  = (inl InvalidCartItem,
     set_effects db_cart (effects db_cart ++ [GetOrCreateEnrollment 1%nat test_course])).
Proof.
  assert (Hb : ids_below_counter db_cart) by (intros i []).
  assert (Hcur : currency_accepted (test_order cart PERSONAL) "usd" db_cart)
    by (left; reflexivity).
  split; [exact Hb|]. split; [exact Hcur|]. split.
  - destruct (proj2 (proj2 (certificate_add_to_order_spec test_env
                (test_order cart PERSONAL) test_course 3000 4000 "verified" "usd" db_cart))
                (CourseMode.mk "verified" "Verified Certificate" 3000 "usd")
                (Course.mk "Test Course" "Test Course") Hb Hcur eq_refl eq_refl eq_refl)
      as [db1 [db2 [H1 [H2 [_ [H3 H4]]]]]].
    exists db1, db2. split; [exact H1|]. split; [exact H2|]. split; [exact H3 | exact H4].
  - apply (proj1 (proj2 (certificate_add_to_order_spec test_env
             (test_order cart PERSONAL) test_course 3000 3000 "audit" "usd" db_cart))).
    + exact Hcur.
    + reflexivity.
Defined.

Lemma donation_add_to_order_spec_witness :
  currency_accepted (test_order cart PERSONAL) "usd" (db_1_3 cart PERSONAL) /\
  (exists description item db',
     Donation_add_to_order test_env (test_order cart PERSONAL) 500 None "usd"
       (db_1_3 cart PERSONAL) = (inr item, db') /\
     item = new_donation 4%nat (test_order cart PERSONAL) 500 None "usd" description /\
     In item (orderitems db') /\
     purchased_callback test_env item db' = (inr tt, db')) /\
  get_course closed_env test_course = None /\
  Donation_add_to_order closed_env (test_order cart PERSONAL) 500 test_course "usd"
    (db_1_3 cart PERSONAL)
  = (inl CourseDoesNotExistException, db_1_3 cart PERSONAL) /\
  Donation_add_to_order test_env (test_order cart PERSONAL) 500 None "eur"
    (db_1_3 cart PERSONAL)
  = (inl InvalidCartItem, db_1_3 cart PERSONAL).
Proof.
  assert (Hcur : currency_accepted (test_order cart PERSONAL) "usd" (db_1_3 cart PERSONAL))
    by (right; reflexivity).
  split; [exact Hcur|]. split; [|split; [reflexivity|split]].
  - destruct (proj2 (proj2 (donation_add_to_order_spec test_env (test_order cart PERSONAL)
                500 None "usd" (db_1_3 cart PERSONAL))) Hcur (or_introl eq_refl))
      as [description [item [db' [H1 [H2 [H3 [_ [_ H4]]]]]]]].
    exists description, item, db'. repeat split; assumption.
  - apply (proj1 (proj2 (donation_add_to_order_spec closed_env (test_order cart PERSONAL)
             500 test_course "usd" (db_1_3 cart PERSONAL)))).
    + exact Hcur.
    + discriminate.
    + reflexivity.
  - apply (proj1 (donation_add_to_order_spec test_env (test_order cart PERSONAL)
             500 None "eur" (db_1_3 cart PERSONAL))); discriminate.
Defined.

Lemma reg_code_redemption_first_time_witness :
  ~ already_redeemed test_code db_free_cart /\
  exists db1,
    RegistrationCodeRedemption_add_reg_code_redemption test_env test_code
      (test_order cart PERSONAL) db_free_cart = (inr test_code, db1) /\
    regcoderedemptions db1
      = [new_code_redemption test_env 10%nat test_code (test_order cart PERSONAL)] /\
    exists e,
      RegistrationCodeRedemption_add_reg_code_redemption test_env test_code
        (test_order cart PERSONAL) db1 = (inl e, db1).
Proof.
  assert (H : ~ already_redeemed test_code db_free_cart) by (intros [r [[] _]]).
  split; [exact H|].
  pose proof (reg_code_redemption_first_time test_env test_code (test_order cart PERSONAL)
                db_free_cart H) as Hm.
  assert (Hf : find (matches_course (CourseRegistrationCode.course_id test_code))
                    (orderitem_set (test_order cart PERSONAL) db_free_cart)
               = Some (seat 2%nat test_course cart 1 0 None)) by reflexivity.
  rewrite Hf in Hm.
  destruct Hm as [db1 [Hrun [_ [_ [_ [Hred [_ [_ Hagain]]]]]]]].
  exists db1. split; [exact Hrun|]. split; [exact Hred|].
  apply Hagain.
Defined.

Lemma coupon_redemption_first_time_witness :
  filter (coupon_redemption_of 1%nat (test_order cart PERSONAL))
         (couponredemptions db_unredeemed) = [] /\
  exists db1,
    redeem_coupon_a = (inr true, db1) /\
    In (OrderItem.set_unit_cost
          (seat 2%nat test_course cart 1 10000 (Some 10000)) 8000) (orderitems db1) /\
    CouponRedemption_add_coupon_redemption coupon_a (test_order cart PERSONAL)
      (orderitem_set (test_order cart PERSONAL) db1) db1
    = (inl MultipleCouponsNotAllowedException, db1).
Proof.
  split; [reflexivity|].
  pose proof (coupon_redemption_first_time coupon_a (test_order cart PERSONAL)
                (orderitem_set (test_order cart PERSONAL) db_unredeemed)
                db_unredeemed eq_refl) as Hm.
  assert (Hf : find (matches_course (Coupon.course_id coupon_a))
                    (orderitem_set (test_order cart PERSONAL) db_unredeemed)
               = Some (seat 2%nat test_course cart 1 10000 None)) by reflexivity.
  rewrite Hf in Hm.
  destruct Hm as [db1 [Hrun [Hrows [_ [_ [_ Hagain]]]]]].
  exists db1. split; [exact Hrun|]. split.
  - rewrite Hrows. left. vm_compute. reflexivity.
  - apply Hagain. left. reflexivity.
Defined.

Lemma coupon_add_then_delete_witness :
  filter (coupon_redemption_of 1%nat (test_order cart PERSONAL))
         (couponredemptions db_unredeemed) = [] /\
  redeem_coupon_a = (inr true, snd redeem_coupon_a) /\
  exists db2,
    CouponRedemption_delete_coupon_redemption 1%nat (test_order cart PERSONAL)
      (snd redeem_coupon_a) = (inr tt, db2) /\
    couponredemptions db2 = [] /\
    orderitems db2 = orderitems (snd redeem_coupon_a).
Proof.
  assert (Hrun : redeem_coupon_a = (inr true, snd redeem_coupon_a))
    by (vm_compute; reflexivity).
  split; [reflexivity|]. split; [exact Hrun|].
  destruct (coupon_add_then_delete coupon_a (test_order cart PERSONAL)
              (orderitem_set (test_order cart PERSONAL) db_unredeemed)
              db_unredeemed (snd redeem_coupon_a) eq_refl Hrun)
    as [db2 [Hdel [Hred [Hrows _]]]].
  exists db2. split; [exact Hdel|]. split; [exact Hred | exact Hrows].
Defined.

Lemma free_user_enrollment_spec_witness :
  orderitem_set (test_order cart PERSONAL) db_cart = [] /\
  CourseRegistrationCode_free_user_enrollment test_env (test_order cart PERSONAL) db_cart
    = (inr (test_order cart PERSONAL), db_cart) /\
  orderitem_set (test_order cart PERSONAL) db_free_cart <> [] /\
  unique_item_ids db_free_cart /\
  exists db',
    CourseRegistrationCode_free_user_enrollment test_env (test_order cart PERSONAL)
      db_free_cart
    = (inr (Order.set_purchase_time (Order.set_status (test_order cart PERSONAL) purchased)
              (Some 1000)), db') /\
    orderitems db' = [seat 2%nat test_course purchased 1 0 None] /\
    effects db' = [Enroll 1%nat test_course None].
Proof.
  split; [reflexivity|]. split.
  { apply (proj1 (free_user_enrollment_spec test_env (test_order cart PERSONAL) db_cart)).
    reflexivity. }
  assert (Hne : orderitem_set (test_order cart PERSONAL) db_free_cart <> [])
    by discriminate.
  assert (Hu : unique_item_ids db_free_cart).
  { unfold unique_item_ids. simpl. repeat constructor; simpl; intuition discriminate. }
  split; [exact Hne|]. split; [exact Hu|].
  destruct (proj2 (free_user_enrollment_spec test_env (test_order cart PERSONAL)
                     db_free_cart) Hne) as [db' [Hrun [_ [_ [_ [Hrows Heff]]]]]].
  exists db'. split; [exact Hrun|]. split; [|exact Heff].
  rewrite (Hrows Hu). reflexivity.
Defined.

Lemma refund_cert_callback_spec_witness :
  filter (refund_target (CourseEnrollment.mk 7%nat 1%nat test_course true))
         (orderitems db_certificate)
    = [certificate 2%nat test_course purchased 3000] /\
  unique_item_ids db_certificate /\
  (exists db',
     CertificateItem_refund_cert_callback test_env
       (CourseEnrollment.mk 7%nat 1%nat test_course true) db_certificate
     = (inr (Some (refunded_copy test_env (certificate 2%nat test_course purchased 3000))),
        db') /\
     In (Order.set_status (test_order purchased PERSONAL) refunded) (orders db') /\
     effects db' = [RefundEmail 1%nat]) /\
  CertificateItem_refund_cert_callback test_env
    (CourseEnrollment.mk 7%nat 1%nat test_course false) db_certificate
  = (inr None, db_certificate).
Proof.
  assert (Hu : unique_item_ids db_certificate).
  { unfold unique_item_ids. simpl. repeat constructor; simpl; intuition discriminate. }
  split; [reflexivity|]. split; [exact Hu|]. split.
  - destruct (proj2 (refund_cert_callback_spec test_env
                (CourseEnrollment.mk 7%nat 1%nat test_course true) db_certificate)
                (certificate 2%nat test_course purchased 3000) []
                (test_order purchased PERSONAL) eq_refl eq_refl eq_refl Hu)
      as [db' [Hrun [_ [Ho [Heff _]]]]].
    exists db'. split; [exact Hrun|]. split; [exact Ho | exact Heff].
  - apply (proj1 (refund_cert_callback_spec test_env
             (CourseEnrollment.mk 7%nat 1%nat test_course false) db_certificate)).
    left. reflexivity.
Defined.

Lemma user_cart_has_items_spec_witness :
  filter (is_cart_of 1%nat) (orders empty_db) = [] /\
  exists db',
    Order_user_cart_has_items 1%nat true None empty_db = (inr false, db') /\
    In (Order.create 1%nat 1%nat cart) (orders db').
Proof.
  split; [reflexivity|].
  destruct (proj2 (user_cart_has_items_spec 1%nat None empty_db) eq_refl)
    as [db' [Hrun [Hin _]]].
  - intros i [].
  - exists db'. split; [exact Hrun | exact Hin].
Defined.

Lemma reset_cart_items_prices_idempotent_witness :
  unique_item_ids db_coupon /\
  exists db1 db2,
    Order_reset_cart_items_prices (test_order cart PERSONAL) db_coupon = (inr tt, db1) /\
    Order_reset_cart_items_prices (test_order cart PERSONAL) db1 = (inr tt, db2) /\
    orderitems db2 = orderitems db1.
Proof.
  assert (Hu : unique_item_ids db_coupon).
  { unfold unique_item_ids. simpl. repeat constructor; simpl; intuition discriminate. }
  split; [exact Hu|].
  destruct (reset_cart_items_prices_idempotent (test_order cart PERSONAL) db_coupon Hu)
    as [db1 [db2 [H1 [H2 [H3 _]]]]].
  exists db1, db2. split; [exact H1|]. split; [exact H2 | exact H3].
Defined.

Lemma total_cost_survives_transitions_witness :
  unique_item_ids (db_1_3 cart PERSONAL) /\
  (forall i, In i (orderitems (db_1_3 cart PERSONAL)) ->
             OrderItem.order i = Order.id (test_order cart PERSONAL) ->
             OrderItem.status i = Order.status (test_order cart PERSONAL)) /\
  Order_total_cost (test_order cart PERSONAL) (db_1_3 cart PERSONAL)
    = Decimal.of_cents 20000 /\
  exists self' db',
    Order_start_purchase (test_order cart PERSONAL) (db_1_3 cart PERSONAL)
      = (inr self', db') /\
    Order.status self' = paying /\
    Order_total_cost self' db' = Decimal.of_cents 20000.
Proof.
  assert (Hu : unique_item_ids (db_1_3 cart PERSONAL)) by apply wf_items_db_1_3.
  assert (Hs : forall i, In i (orderitems (db_1_3 cart PERSONAL)) ->
                 OrderItem.order i = Order.id (test_order cart PERSONAL) ->
                 OrderItem.status i = Order.status (test_order cart PERSONAL))
    by (intros i [<- | [<- | []]] _; reflexivity).
  split; [exact Hu|]. split; [exact Hs|]. split; [reflexivity|].
  destruct (proj1 (total_cost_survives_transitions test_env (test_order cart PERSONAL)
                     (db_1_3 cart PERSONAL) Hu Hs) eq_refl)
    as [self' [db' [Hrun [Hst Htot]]]].
  exists self', db'. split; [exact Hrun|]. split; [exact Hst | exact Htot].
Defined.

Lemma discount_price_bounds_witness :
  0 <= 20 <= 100 /\ 0 <= 10000 <= 10 ^ 12 /\
  0 <= CouponRedemption_get_discount_price 20 10000 <= 10000.
Proof.
  assert (Hp : 0 <= 20 <= 100) by lia.
  assert (Hc : 0 <= 10000 <= 10 ^ 12) by (split; vm_compute; discriminate).
  split; [exact Hp|]. split; [exact Hc|].
  exact (proj1 (discount_price_bounds 20 10000 Hp Hc)).
Defined.

Lemma update_order_type_spec_witness :
  wf_items (db_1_3 cart PERSONAL) /\
  Order_update_order_type test_env (test_order cart PERSONAL) (db_1_3 cart PERSONAL)
    = (inr update_1_3_order, snd update_1_3) /\
  Order.order_type update_1_3_order = BUSINESS /\
  (exists j m, In j (orderitems (snd update_1_3)) /\ OrderItem.order j = 1%nat /\
     OrderItem.kind j = CourseRegCodeItem other_course m /\ OrderItem.qty j = 3) /\
  Order_update_order_type test_env (test_order cart BUSINESS) (db_bundle cart BUSINESS 1)
    = (inr update_bundle_order, snd update_bundle) /\
  Order.order_type update_bundle_order = PERSONAL /\
  exists j m, In j (orderitems (snd update_bundle)) /\ OrderItem.order j = 1%nat /\
    OrderItem.kind j = PaidCourseRegistration test_course m /\ OrderItem.qty j = 1.
Proof.
  assert (Hwf := wf_items_db_1_3 cart PERSONAL).
  assert (Hrun : Order_update_order_type test_env (test_order cart PERSONAL) (db_1_3 cart PERSONAL)
    = (inr update_1_3_order, snd update_1_3))
    by (vm_compute; reflexivity).
  assert (Hwf2 : wf_items (db_bundle cart BUSINESS 1)).
  { split.
    - unfold unique_item_ids. simpl. repeat constructor; simpl; intuition discriminate.
    - intros i [<- | []]; simpl; lia. }
  assert (Hrun2 : Order_update_order_type test_env (test_order cart BUSINESS) (db_bundle cart BUSINESS 1)
    = (inr update_bundle_order, snd update_bundle))
    by (vm_compute; reflexivity).
  split; [exact Hwf|]. split; [exact Hrun|].
  destruct (update_order_type_spec test_env (test_order cart PERSONAL) update_1_3_order
              (db_1_3 cart PERSONAL) (snd update_1_3) Hwf Hrun) as [_ [_ [Hbus _]]].
  destruct (Hbus eq_refl) as [Hty [_ [Hrepl _]]].
  split; [exact Hty|]. split.
  { destruct (Hrepl (seat 3%nat other_course cart 3 5000 None)) as [_ Hj];
      [right; left; reflexivity | reflexivity | reflexivity | exact Hj]. }
  split; [exact Hrun2|].
  destruct (update_order_type_spec test_env (test_order cart BUSINESS) update_bundle_order
              (db_bundle cart BUSINESS 1) (snd update_bundle) Hwf2 Hrun2) as [_ [_ [_ Hper]]].
  destruct (Hper eq_refl) as [Hty2 [_ [Hrepl2 _]]].
  split; [exact Hty2|].
  destruct (Hrepl2 (bundle 2%nat test_course cart 1 5000)) as [_ Hj];
    [left; reflexivity | reflexivity | reflexivity | exact Hj].
Defined.

Lemma purchase_adds_course_revenue_witness :
  unique_item_ids (db_1_3 paying PERSONAL) /\
  Order.status (test_order paying PERSONAL) <> purchased /\
  Order_purchase test_env (test_order paying PERSONAL)
    "Jo" "Doe" "" "" "" "" "" "US" "" "" "" (db_1_3 paying PERSONAL)
  = (inr (purchase_1_3_order PERSONAL), snd (purchase_1_3 PERSONAL)) /\
  PaidCourseRegistration_get_total_amount_of_purchased_item other_course
    (db_1_3 paying PERSONAL) = 0 /\
  PaidCourseRegistration_get_total_amount_of_purchased_item other_course
    (snd (purchase_1_3 PERSONAL)) = 0 + 15000 /\
  CourseRegCodeItem_get_total_amount_of_purchased_item other_course
    (snd (purchase_1_3 PERSONAL)) = 0 + 0.
Proof.
  assert (Hu : unique_item_ids (db_1_3 paying PERSONAL)) by apply wf_items_db_1_3.
  assert (Hst : Order.status (test_order paying PERSONAL) <> purchased) by discriminate.
  assert (Hrun :
    Order_purchase test_env (test_order paying PERSONAL)
      "Jo" "Doe" "" "" "" "" "" "US" "" "" "" (db_1_3 paying PERSONAL)
    = (inr (purchase_1_3_order PERSONAL), snd (purchase_1_3 PERSONAL)))
    by (vm_compute; reflexivity).
  assert (Hnew : forall i, In i (orderitems (db_1_3 paying PERSONAL)) ->
                   OrderItem.order i = Order.id (test_order paying PERSONAL) ->
                   OrderItem.status i <> purchased)
    by (intros i [<- | [<- | []]] _; discriminate).
  split; [exact Hu|]. split; [exact Hst|]. split; [exact Hrun|]. split; [reflexivity|].
  exact (purchase_adds_course_revenue test_env (test_order paying PERSONAL)
           (purchase_1_3_order PERSONAL) (db_1_3 paying PERSONAL)
           (snd (purchase_1_3 PERSONAL))
           "Jo" "Doe" "" "" "" "" "" "US" "" "" "" other_course Hu Hnew Hst eq_refl Hrun).
Defined.

Lemma add_billing_details_spec_witness :
  Order_add_billing_details (test_order paying BUSINESS) "ACME" "Jo Doe" "jo@acme.example"
    "Accounts" "accounts@acme.example" "PO-17" (db_1_3 paying BUSINESS)
  = (inr billed_order,
     set_orders (db_1_3 paying BUSINESS)
       (save_row Order.id billed_order (orders (db_1_3 paying BUSINESS)))) /\
  Order_purchase test_env billed_order "Jo" "Doe" "" "" "" "" "" "US" "" "" ""
    (db_1_3 paying BUSINESS) = (inr purchase_billed_order, snd purchase_billed) /\
  Order.details purchase_billed_order = acme_details.
Proof.
  assert (Hadd :
    Order_add_billing_details (test_order paying BUSINESS) "ACME" "Jo Doe" "jo@acme.example"
      "Accounts" "accounts@acme.example" "PO-17" (db_1_3 paying BUSINESS)
    = (inr billed_order,
       set_orders (db_1_3 paying BUSINESS)
         (save_row Order.id billed_order (orders (db_1_3 paying BUSINESS)))))
    by reflexivity.
  assert (Hrun :
    Order_purchase test_env billed_order "Jo" "Doe" "" "" "" "" "" "US" "" "" ""
      (db_1_3 paying BUSINESS) = (inr purchase_billed_order, snd purchase_billed))
    by (vm_compute; reflexivity).
  split; [exact Hadd|]. split; [exact Hrun|].
  destruct (add_billing_details_spec test_env (test_order paying BUSINESS) "ACME" "Jo Doe"
              "jo@acme.example" "Accounts" "accounts@acme.example" "PO-17"
              (db_1_3 paying BUSINESS))
    as [self1 [db1 [Hrun1 [_ [_ [_ [_ [_ [_ [_ [_ [_ [_ Hkeep]]]]]]]]]]]]].
  rewrite Hadd in Hrun1. injection Hrun1 as <- _.
  exact (Hkeep purchase_billed_order (db_1_3 paying BUSINESS) (snd purchase_billed)
           "Jo" "Doe" "" "" "" "" "" "US" "" "" "" Hrun).
Defined.

Lemma refund_moves_certificate_between_reports_witness :
  filter (refund_target (CourseEnrollment.mk 7%nat 1%nat test_course true))
         (orderitems db_certificate)
    = [certificate 2%nat test_course purchased 3000] /\
  unique_item_ids db_certificate /\
  CertificateItem_verified_certificates_count test_course purchased db_certificate = 1%nat /\
  exists db',
    CertificateItem_refund_cert_callback test_env
      (CourseEnrollment.mk 7%nat 1%nat test_course true) db_certificate
    = (inr (Some (refunded_copy test_env (certificate 2%nat test_course purchased 3000))),
       db') /\
    1%nat = S (CertificateItem_verified_certificates_count test_course purchased db') /\
    CertificateItem_verified_certificates_count test_course refunded db' = 1%nat /\
    CertificateItem_verified_certificates_monetary_field_sum test_course refunded
      unit_cost_field db' = 0 + 3000.
Proof.
  assert (Hu : unique_item_ids db_certificate).
  { unfold unique_item_ids. simpl. repeat constructor; simpl; intuition discriminate. }
  split; [reflexivity|]. split; [exact Hu|]. split; [reflexivity|].
  destruct (refund_moves_certificate_between_reports test_env
              (CourseEnrollment.mk 7%nat 1%nat test_course true) db_certificate
              (certificate 2%nat test_course purchased 3000) []
              (test_order purchased PERSONAL) eq_refl eq_refl eq_refl Hu)
    as [db' [Hrun [Hp [Hr [Hsum _]]]]].
  exists db'. split; [exact Hrun|]. split; [exact Hp|]. split; [exact Hr|].
  exact (proj2 (Hsum unit_cost_field)).
Defined.
